(** * NeuroBlu feedback processing: extraction, enrichment, deduplication, sync

    A shallow embedding of the decision logic of
    [scripts/extract_feedback.py], [scripts/enrich_metadata.py] and
    [scripts/sync_to_sheets.py], and of the selection logic of
    [scripts/generate_slack_msg.py], followed by the properties the
    specification states about it and by further properties of the code.

    Conventions of the embedding.
    - A Python [str] is a [string]; a character is a code point below 256,
      so [String.length] counts characters as [len] does, and [strip] and
      [lower] are Python's on that range.
    - A value read from JSON or YAML is a [json]; a Python [dict] is an
      association list in insertion order whose [dict_set] overwrites in
      place, as [d[k] = v] does. A JSON real is a binary64 float.
    - A function that can raise returns a [result]; the sync engine, which
      talks to the worksheet and sleeps, runs in a state-and-error monad over
      a [world] that records every call made on the worksheet.
    - What Python itself provides ([json.loads], [str] of a value that is
      not a string, [hash], the clock) is a parameter, the class [Runtime];
      the oracle, the YAML loader, the worksheet and the clock behind a
      sleep are parameters too, so every property below holds whatever
      they answer or raise.
    - [print] calls are not modelled: they change no value that is returned
      or stored. Where the argument of a [print] can raise, that is
      modelled. *)

From Stdlib Require Import String Ascii ZArith List PrimFloat DecimalString Lia.
From stdpp Require Import base option list sets gmap strings sorting.

Set Warnings "-clear-no-such-hyp".

Open Scope string_scope.

(** ** Python strings *)

Module PyStr.

(** [str.isspace] on the code points below 256: TAB..CR, FS..US, SPACE,
    NEL and NBSP. *)
Definition is_space (c : ascii) : bool :=
  let n := nat_of_ascii c in
  (((9 <=? n) && (n <=? 13)) || ((28 <=? n) && (n <=? 32))
   || (n =? 133) || (n =? 160))%nat.

Fixpoint lstrip (s : string) : string :=
  match s with
  | EmptyString => EmptyString
  | String c s' => if is_space c then lstrip s' else s
  end.

Fixpoint rstrip (s : string) : string :=
  match s with
  | EmptyString => EmptyString
  | String c s' =>
      match rstrip s' with
      | EmptyString => if is_space c then EmptyString else String c EmptyString
      | r => String c r
      end
  end.

(** [s.strip()] *)
Definition strip (s : string) : string := rstrip (lstrip s).

(** [str.lower] on one code point below 256: A-Z and the Latin-1 capitals
    (0xC0-0xDE except the multiplication sign 0xD7) move up by 32. *)
Definition lower_char (c : ascii) : ascii :=
  let n := nat_of_ascii c in
  if (((65 <=? n) && (n <=? 90))
      || ((192 <=? n) && (n <=? 222) && negb (n =? 215)))%nat
  then ascii_of_nat (n + 32) else c.

(** [s.lower()] *)
Fixpoint lower (s : string) : string :=
  match s with
  | EmptyString => EmptyString
  | String c s' => String (lower_char c) (lower s')
  end.

(** [s.split(sep)] for a one-character separator: never the empty list. *)
Fixpoint split (sep : ascii) (s : string) : list string :=
  match s with
  | EmptyString => [EmptyString]
  | String c s' =>
      if Ascii.eqb c sep then EmptyString :: split sep s'
      else match split sep s' with
           | w :: ws => String c w :: ws
           | [] => [String c EmptyString]
           end
  end.

(** [sep.join(parts)] *)
Definition join (sep : string) (parts : list string) : string :=
  String.concat sep parts.

(** [s[:n]] *)
Fixpoint slice_to (n : nat) (s : string) : string :=
  match n, s with
  | S n', String c s' => String c (slice_to n' s')
  | _, _ => EmptyString
  end.

(** [s.startswith(p)], returning the rest of [s] behind [p]. *)
Fixpoint strip_prefix (p s : string) : option string :=
  match p, s with
  | EmptyString, _ => Some s
  | String a p', String b s' => if Ascii.eqb a b then strip_prefix p' s' else None
  | String _ _, EmptyString => None
  end.

Definition startswith (p s : string) : bool :=
  match strip_prefix p s with Some _ => true | None => false end.

(** [sub in s] *)
Fixpoint contains (sub s : string) : bool :=
  startswith sub s
  || match s with
     | EmptyString => false
     | String _ s' => contains sub s'
     end.

(** [s.replace(old, new)] for a non-empty [old]: occurrences are replaced
    left to right without overlap. The recursion is on [fuel], the number of
    characters still to scan. *)
Fixpoint replace_fuel (fuel : nat) (old new s : string) : string :=
  match fuel with
  | O => s
  | S fuel' =>
      match strip_prefix old s with
      | Some rest => new ++ replace_fuel (fuel' - (String.length old - 1)) old new rest
      | None =>
          match s with
          | EmptyString => EmptyString
          | String c s' => String c (replace_fuel fuel' old new s')
          end
      end
  end.

Definition replace (old new s : string) : string :=
  replace_fuel (String.length s) old new s.

(** Decimal rendering of an integer, as [str(n)] and [f"{n}"] give it. *)
Definition of_Z (z : Z) : string := NilZero.string_of_int (Z.to_int z).

Definition is_digit (c : ascii) : bool :=
  let n := nat_of_ascii c in ((48 <=? n) && (n <=? 57))%nat.

End PyStr.

(** ** JSON values *)

(** A JSON integer is a Python [int]; a JSON real is a binary64 [float]. *)
Inductive number :=
  | NInt (z : Z)
  | NFloat (f : float).

#[warnings="-register-all"]
Inductive json :=
  | JNull
  | JBool (b : bool)
  | JNum (n : number)
  | JStr (s : string)
  | JList (l : list json)
  | JDict (d : list (string * json)).

Definition dict := list (string * json).

(** [k in d] and [d.get(k)] *)
Fixpoint dict_get (k : string) (d : dict) : option json :=
  match d with
  | [] => None
  | (k', v) :: d' => if String.eqb k k' then Some v else dict_get k d'
  end.

Definition dict_has (k : string) (d : dict) : bool :=
  match dict_get k d with Some _ => true | None => false end.

(** [d.get(k, default)] *)
Definition dict_get_default (k : string) (default : json) (d : dict) : json :=
  match dict_get k d with Some v => v | None => default end.

(** [d[k] = v]: an existing key keeps its place, a new key goes last. *)
Fixpoint dict_set (k : string) (v : json) (d : dict) : dict :=
  match d with
  | [] => [(k, v)]
  | (k', v') :: d' =>
      if String.eqb k k' then (k, v) :: d' else (k', v') :: dict_set k v d'
  end.

(** [d.update(kvs)] *)
Definition dict_update (kvs : dict) (d : dict) : dict :=
  fold_left (fun acc kv => dict_set kv.1 kv.2 acc) kvs d.

(** Truth value of a JSON value under [if v:] and [not v]. *)
Definition truthy (v : json) : bool :=
  match v with
  | JNull => false
  | JBool b => b
  | JNum (NInt z) => negb (z =? 0)%Z
  | JNum (NFloat f) => negb (PrimFloat.eqb f 0%float)
  | JStr s => negb (String.eqb s "")
  | JList l => match l with [] => false | _ => true end
  | JDict d => match d with [] => false | _ => true end
  end.

(** ** Exceptions *)

(** The exceptions that travel as values. A failed [json.loads] and a
    failed oracle call are met inside a [try] block and appear as [inl]
    and as [Failed] and [RaisedDecodeError] below. *)
Inductive exn_type :=
  | ValueError
  | TypeError
  | AttributeError
  | KeyError
  | RecursionError
  | UnboundLocalError
  | APIError          (* gspread.exceptions.APIError *)
  | StoreException.   (* any other exception of the worksheet client *)

Record exn := Exn { exn_kind : exn_type; exn_msg : string }.

Inductive result (A : Type) :=
  | Ok (a : A)
  | Raise (e : exn).
Arguments Ok {A} a.
Arguments Raise {A} e.

Definition rbind {A B} (r : result A) (k : A -> result B) : result B :=
  match r with
  | Ok a => k a
  | Raise e => Raise e
  end.

#[global] Instance result_ret : MRet result := fun A a => Ok a.
#[global] Instance result_bind : MBind result := fun A B k r => rbind r k.
#[global] Instance result_fmap : FMap result :=
  fun A B f r => rbind r (fun a => Ok (f a)).

(** [for x in xs: ...] collecting the results, stopping at the first raise. *)
Fixpoint rmap {A B} (f : A -> result B) (xs : list A) : result (list B) :=
  match xs with
  | [] => Ok []
  | x :: xs' =>
      match f x with
      | Raise e => Raise e
      | Ok y => match rmap f xs' with
                | Raise e => Raise e
                | Ok ys => Ok (y :: ys)
                end
      end
  end.

Definition is_ok {A} (r : result A) : bool :=
  match r with Ok _ => true | Raise _ => false end.

(** ** What the Python runtime and the clock provide *)

(** What [json.loads] raises on a text it does not return a value for: a
    [json.JSONDecodeError] when the text is not JSON, or another exception
    (a [RecursionError] on a text nested too deeply, a [ValueError] on an
    integer literal beyond the interpreter's digit limit). Either carries
    the [str] of the exception. *)
Inductive loads_error :=
  | JSONDecodeError (msg : string)
  | LoadsError (msg : string).

(** [json_loads] is [json.loads]: [inl] holds what it raised. [py_repr v]
    is [str(v)] for a value that is not a string. [num_eq] is [==] between
    two numbers or booleans, the only equalities between hashable JSON
    values that are not decided by their shape. [py_hash] is the built-in
    [hash]. [today] and [timestamp] are [datetime.now()] rendered as
    [%Y-%m-%d] and [%Y%m%d%H%M%S]; the calls that follow each other
    without a [time.sleep] in between are taken to read one instant, and
    the clock is read anew after a sleep (see [Sync.Clock]). *)
Class Runtime := {
  json_loads : string -> loads_error + json;
  py_repr : json -> string;
  num_eq : json -> json -> bool;
  py_hash : json -> Z;
  today : string;
  timestamp : string;
}.

(** The classification oracle as the code sees it: the system prompt and the
    user prompt go in, and [response.content[0].text] comes back, or the
    call (or reading the text off its response) raises. The oracle is an
    external collaborator, and what it raises decides which handler runs:
    [RaisedDecodeError msg] is a call that raises a [json.JSONDecodeError]
    (a client that fails to decode the body of the answer it got), which
    the first handler of both engines takes; [Failed msg] is a call that
    raises anything else (an error class of the client's own, a built-in
    lookup error when the response has no text), which reaches the handler
    for [Exception]. Both carry the [str] of what was raised. The model,
    the token limit and the temperature of the request are constants of
    the configuration and are left out. *)
Inductive reply :=
  | Replied (text : string)
  | Failed (msg : string)
  | RaisedDecodeError (msg : string).

Definition oracle := string -> string -> reply.

(** What the first handler of both engines raises when the call itself
    raised the [JSONDecodeError]: its second [print] reads
    [response_text], which is assigned only once the call has returned. *)
Definition unbound_response_text : exn :=
  Exn UnboundLocalError
    "cannot access local variable 'response_text' where it is not associated with a value".

Section Values.
Context {RT : Runtime}.

(** [str(v)], also what an f-string prints for [{v}]. *)
Definition to_str (v : json) : string :=
  match v with
  | JStr s => s
  | _ => py_repr v
  end.

(** [a == b] for hashable values, as a [set] compares its elements. *)
Definition hash_eq (a b : json) : bool :=
  match a, b with
  | JStr x, JStr y => String.eqb x y
  | JStr _, _ | _, JStr _ => false
  | JNull, JNull => true
  | JNull, _ | _, JNull => false
  | _, _ => num_eq a b
  end.

Definition hashable (v : json) : bool :=
  match v with
  | JList _ | JDict _ => false
  | _ => true
  end.

Definition type_name (v : json) : string :=
  match v with
  | JNull => "NoneType"
  | JBool _ => "bool"
  | JNum (NInt _) => "int"
  | JNum (NFloat _) => "float"
  | JStr _ => "str"
  | JList _ => "list"
  | JDict _ => "dict"
  end.

Definition chars (s : string) : list string :=
  map (fun c => String c EmptyString) (list_ascii_of_string s).

(** [sep.join(v)]: [v] must be iterable and yield strings. A string yields
    its characters and a dict its keys. *)
Definition join_value (sep : string) (v : json) : result string :=
  match v with
  | JList l =>
      parts ← rmap (fun x => match x with
                             | JStr s => Ok s
                             | _ => Raise (Exn TypeError
                                      ("sequence item: expected str instance, "
                                       ++ type_name x ++ " found"))
                             end) l;
      Ok (PyStr.join sep parts)
  | JStr s => Ok (PyStr.join sep (chars s))
  | JDict d => Ok (PyStr.join sep (map fst d))
  | _ => Raise (Exn TypeError "can only join an iterable")
  end.

(** [v.strip()]: only a string has the method. *)
Definition strip_value (v : json) : result string :=
  match v with
  | JStr s => Ok (PyStr.strip s)
  | _ => Raise (Exn AttributeError
                  ("'" ++ type_name v ++ "' object has no attribute 'strip'"))
  end.

(** [[a.strip() for a in s.split(',')]] *)
Definition split_strip (s : string) : list string :=
  map PyStr.strip (PyStr.split "," s).

(** [[a.strip() for a in s.split(',') if a.strip()]] *)
Definition split_strip_nonempty (s : string) : list string :=
  filter (fun a => a ≠ "") (map PyStr.strip (PyStr.split "," s)).

End Values.

(** ** Oracle output: the fenced block and the JSON inside
    (shared by extraction and enrichment) *)

Module Fence.

Definition nl : string := String (ascii_of_nat 10) EmptyString.
Definition ticks : string := "```".

(** The tail of the pattern, [(.*?)\n?```], matched at the head of [s]: the
    group is the shortest text after which an optional newline and the
    closing ticks follow. *)
Fixpoint lazy_group (s : string) : option string :=
  if PyStr.startswith (nl ++ ticks) s || PyStr.startswith ticks s then Some EmptyString
  else match s with
       | EmptyString => None
       | String c s' => String c <$> lazy_group s'
       end.

(** [\n?(.*?)\n?```]: the optional newline is tried first. *)
Definition after_lang (s : string) : option string :=
  match PyStr.strip_prefix nl s ≫= lazy_group with
  | Some g => Some g
  | None => lazy_group s
  end.

(** The whole pattern [```(?:json)?\n?(.*?)\n?```] matched at the head of
    [s], alternatives in the order the backtracking matcher tries them;
    the result is group 1. *)
Definition match_here (s : string) : option string :=
  match PyStr.strip_prefix ticks s with
  | None => None
  | Some s1 =>
      match PyStr.strip_prefix "json" s1 ≫= after_lang with
      | Some g => Some g
      | None => after_lang s1
      end
  end.

(** [re.search(pattern, s, re.DOTALL)]: the leftmost match. *)
Fixpoint search (s : string) : option string :=
  match match_here s with
  | Some g => Some g
  | None => match s with
            | EmptyString => None
            | String _ s' => search s'
            end
  end.

(** Lines 231-236 of extract_feedback.py and 209-214 of enrich_metadata.py:
    the text handed to [json.loads]. *)
Definition json_text (text : string) : string :=
  let response_text := PyStr.strip text in
  match search response_text with
  | Some inner => inner
  | None => response_text
  end.

End Fence.

(** ** Extraction engine (extract_feedback.py) *)

Module Extract.
Section WithRuntime.
Context {RT : Runtime}.

Record FeedbackExtractor := {
  client : oracle;
  extraction_prompt : string;
}.

(** The dict [extract_meeting_metadata] returns: its five keys are fixed. *)
Record MeetingMetadata := {
  meeting_type : json;
  meeting_date : string;
  meeting_title : json;
  attendees : json;
  source_url : json;
}.

(** The pattern [(\d{4}-\d{2}-\d{2})] matched at the head of [s]. *)
Definition date_here (s : string) : option string :=
  match s with
  | String y1 (String y2 (String y3 (String y4 (String d1
      (String m1 (String m2 (String d2 (String a1 (String a2 _))))))))) =>
      if PyStr.is_digit y1 && PyStr.is_digit y2 && PyStr.is_digit y3
         && PyStr.is_digit y4 && Ascii.eqb d1 "-" && PyStr.is_digit m1
         && PyStr.is_digit m2 && Ascii.eqb d2 "-" && PyStr.is_digit a1
         && PyStr.is_digit a2
      then Some (PyStr.slice_to 10 s) else None
  | _ => None
  end.

Fixpoint search_date (s : string) : option string :=
  match date_here s with
  | Some d => Some d
  | None => match s with
            | EmptyString => None
            | String _ s' => search_date s'
            end
  end.

(** [file_name] is [None] or a string; the empty string is false too. *)
Definition file_name_given (file_name : option string) : option string :=
  match file_name with
  | Some f => if String.eqb f "" then None else Some f
  | None => None
  end.

(** Lines 181-184: the attendees of a note. *)
Definition derive_attendees (frontmatter : dict) : json :=
  let attendees := dict_get_default "attendees" (JList []) frontmatter in
  match attendees with
  | JStr s => JList (map JStr (split_strip s))
  | _ => attendees
  end.

(** Lines 157-198, for a frontmatter that is a mapping. *)
Definition extract_meeting_metadata
    (frontmatter : dict) (file_name : option string) : MeetingMetadata :=
  let meeting_date : option string :=
    if dict_has "date" frontmatter
    then Some (to_str (dict_get_default "date" JNull frontmatter))
    else if dict_has "created" frontmatter
    then Some (to_str (dict_get_default "created" JNull frontmatter))
    else match file_name_given file_name with
         | Some f => search_date f
         | None => None
         end in
  let meeting_date :=
    match meeting_date with
    | Some d => if String.eqb d "" then today else d
    | None => today
    end in
  let title :=
    dict_get_default "title"
      (JStr (match file_name_given file_name with
             | Some f => f
             | None => "Untitled Meeting"
             end)) frontmatter in
  let title :=
    match file_name_given file_name, title with
    | Some f, JStr t =>
        if String.eqb t "Untitled Meeting"
        then JStr (PyStr.replace ".md" "" f) else title
    | _, _ => title
    end in
  {| meeting_type := dict_get_default "meeting_type" (JStr "Call") frontmatter;
     meeting_date := meeting_date;
     meeting_title := title;
     attendees := derive_attendees frontmatter;
     source_url :=
       dict_get_default "url"
         (dict_get_default "source_url" (JStr "") frontmatter) frontmatter |}.

(** Lines 207-216. *)
Definition user_prompt (note_content : string) (metadata : MeetingMetadata)
    : result string :=
  names ← join_value ", " (attendees metadata);
  Ok ("Meeting Type: " ++ to_str (meeting_type metadata) ++ Fence.nl
      ++ "Meeting Title: " ++ to_str (meeting_title metadata) ++ Fence.nl
      ++ "Meeting Date: " ++ meeting_date metadata ++ Fence.nl
      ++ "Attendees: " ++ names ++ Fence.nl
      ++ Fence.nl
      ++ "Meeting Notes:" ++ Fence.nl
      ++ note_content ++ Fence.nl
      ++ Fence.nl
      ++ "Extract all actionable feedback items from these meeting notes. Return only valid JSON array."
      ++ Fence.nl).

(** The argument of [item.update] at lines 242-252. *)
Definition stamp (metadata : MeetingMetadata) : dict :=
  [ ("meeting_type", meeting_type metadata);
    ("meeting_date", JStr (meeting_date metadata));
    ("attendees", attendees metadata);
    ("source", JStr "Manual");
    ("source_url", source_url metadata);
    ("created_date", JStr today);
    ("updated_date", JStr today);
    ("status", JStr "New");
    ("internal", JBool false) ].

(** One turn of the loop at line 241: [item.update(...)] exists on a dict
    only. *)
Definition stamp_item (metadata : MeetingMetadata) (item : json) : result json :=
  match item with
  | JDict d => Ok (JDict (dict_update (stamp metadata) d))
  | _ => Raise (Exn AttributeError
                  ("'" ++ type_name item ++ "' object has no attribute 'update'"))
  end.

(** Lines 241-254: iterate over what [json.loads] gave and return it. *)
Definition stamp_all (metadata : MeetingMetadata) (feedback_items : json)
    : result json :=
  match feedback_items with
  | JList items => JList <$> rmap (stamp_item metadata) items
  | JDict d => _ ← rmap (fun kv => stamp_item metadata (JStr kv.1)) d;
               Ok feedback_items
  | JStr s => _ ← rmap (fun c => stamp_item metadata (JStr c)) (chars s);
              Ok feedback_items
  | _ => Raise (Exn TypeError
                  ("'" ++ type_name feedback_items ++ "' object is not iterable"))
  end.

(** Lines 200-262. Both handlers end in [return []], but the first one,
    for [json.JSONDecodeError], prints [response_text] before it returns:
    when it is the call that raised, that name is not bound yet and the
    handler itself raises. *)
Definition extract_feedback_with_claude (self : FeedbackExtractor)
    (note_content : string) (metadata : MeetingMetadata) : result json :=
  prompt ← user_prompt note_content metadata;
  match client self (extraction_prompt self) prompt with
  | Failed _ => Ok (JList [])
  | RaisedDecodeError _ => Raise unbound_response_text
  | Replied text =>
      match json_loads (Fence.json_text text) with
      | inl _ => Ok (JList [])
      | inr feedback_items =>
          match stamp_all metadata feedback_items with
          | Ok stamped => Ok stamped
          | Raise _ => Ok (JList [])
          end
      end
  end.

(** [item['title'].lower().strip()] *)
Definition title_key (item : dict) : result string :=
  match dict_get "title" item with
  | None => Raise (Exn KeyError "'title'")
  | Some (JStr t) => Ok (PyStr.strip (PyStr.lower t))
  | Some v => Raise (Exn AttributeError
                       ("'" ++ type_name v ++ "' object has no attribute 'lower'"))
  end.

(** The loop at lines 313-319, with the two variables it updates. *)
Fixpoint dedupe_loop (feedback_items : list dict)
    (unique_items : list dict) (seen_titles : gset string) : result (list dict) :=
  match feedback_items with
  | [] => Ok unique_items
  | item :: rest =>
      title_lower ← title_key item;
      if decide (title_lower ∈ seen_titles)
      then dedupe_loop rest unique_items seen_titles
      else dedupe_loop rest (unique_items ++ [item]) ({[title_lower]} ∪ seen_titles)
  end.

(** Line 311: [set(title.lower().strip() for title in existing_titles)] *)
Definition known_set (existing_titles : list string) : gset string :=
  list_to_set (map (fun title => PyStr.strip (PyStr.lower title)) existing_titles).

(** Lines 305-321. *)
Definition deduplicate_feedback (feedback_items : list dict)
    (existing_titles : option (list string)) : result (list dict) :=
  let existing_titles := default [] existing_titles in
  dedupe_loop feedback_items [] (known_set existing_titles).

End WithRuntime.
End Extract.

(** ** Enrichment engine (enrich_metadata.py) *)

Module Enrich.
Section WithRuntime.
Context {RT : Runtime}.

(** [segments] and [departments] are the keys of the taxonomy's two
    mappings (names, hence strings): the code only asks whether a value is
    one of them. *)
Record FeedbackEnricher := {
  client : oracle;
  segments : list string;
  departments : list string;
  enrichment_prompt : string;
}.

Definition zero : json := JNum (NFloat 0%float).
Definition half : json := JNum (NFloat 0.5%float).

Definition not_provided : string := "(not provided)".

(** [text[:n] if text else "(not provided)"] *)
Definition clip (n : nat) (text : string) : string :=
  if String.eqb text "" then not_provided else PyStr.slice_to n text.

(** The f-string at lines 174-182, as a function of its four holes. *)
Definition render_prompt (attendees_str description use_case raw_context : string)
    : string :=
  "Analyze this feedback item and return enrichment JSON:" ++ Fence.nl
  ++ Fence.nl
  ++ "**Attendees:** " ++ attendees_str ++ Fence.nl
  ++ "**Description:** " ++ description ++ Fence.nl
  ++ "**Use Case:** " ++ use_case ++ Fence.nl
  ++ "**Raw Context:** " ++ raw_context ++ Fence.nl
  ++ Fence.nl
  ++ "Return only valid JSON with segment, department, enriched_tags, segment_confidence, department_confidence, and reasoning."
  ++ Fence.nl.

(** Lines 164-167. *)
Definition attendees_str (feedback_item : dict) : result string :=
  let attendees := dict_get_default "attendees" (JList []) feedback_item in
  let attendees :=
    match attendees with
    | JStr s => JList (map JStr (split_strip_nonempty s))
    | _ => attendees
    end in
  if truthy attendees then join_value ", " attendees else Ok not_provided.

(** Lines 164-182: the payload sent to the oracle. *)
Definition user_prompt (feedback_item : dict) : result string :=
  att ← attendees_str feedback_item;
  description ← strip_value (dict_get_default "description" (JStr "") feedback_item);
  use_case ← strip_value (dict_get_default "use_case" (JStr "") feedback_item);
  raw_context ← strip_value (dict_get_default "raw_context" (JStr "") feedback_item);
  Ok (render_prompt att (clip 300 description) (clip 200 use_case)
        (clip 200 raw_context)).

(** Lines 186-193. *)
Definition mock_enrichment : dict :=
  [ ("segment", JStr "Other");
    ("department", JStr "Other");
    ("enriched_tags", JList [JStr "dry-run"]);
    ("segment_confidence", half);
    ("department_confidence", half);
    ("reasoning", JStr "Dry run mode - no API call made") ].

(** Lines 241-248 and 253-260. *)
Definition fallback (reasoning : string) : dict :=
  [ ("segment", JStr "Other");
    ("department", JStr "Other");
    ("enriched_tags", JList []);
    ("segment_confidence", zero);
    ("department_confidence", zero);
    ("reasoning", JStr reasoning) ].

Definition required_fields : list string :=
  [ "segment"; "department"; "enriched_tags"; "segment_confidence";
    "department_confidence" ].

(** [field in enrichment] for whatever [json.loads] returned: a key of a
    dict, an element of a list, a substring of a string. *)
Definition has_field (field : string) (enrichment : json) : result bool :=
  match enrichment with
  | JDict d => Ok (dict_has field d)
  | JList l => Ok (existsb (fun x => match x with
                                     | JStr s => String.eqb s field
                                     | _ => false
                                     end) l)
  | JStr s => Ok (PyStr.contains field s)
  | _ => Raise (Exn TypeError
                  ("argument of type '" ++ type_name enrichment
                   ++ "' is not iterable"))
  end.

(** Lines 219-222. *)
Fixpoint check_required (fields : list string) (enrichment : json) : result unit :=
  match fields with
  | [] => Ok tt
  | field :: rest =>
      present ← has_field field enrichment;
      if present : bool then check_required rest enrichment
      else Raise (Exn ValueError ("Missing required field: " ++ field))
  end.

(** [d[k]] *)
Definition getitem (k : string) (d : dict) : result json :=
  match dict_get k d with
  | Some v => Ok v
  | None => Raise (Exn KeyError ("'" ++ k ++ "'"))
  end.

(** [v in taxonomy] for a mapping keyed by names. *)
Definition in_taxonomy (keys : list string) (v : json) : result bool :=
  match v with
  | JStr s => Ok (bool_decide (s ∈ keys))
  | JList _ | JDict _ =>
      Raise (Exn TypeError ("unhashable type: '" ++ type_name v ++ "'"))
  | _ => Ok false
  end.

(** One of the two blocks at lines 225-233. *)
Definition force_member (keys : list string) (field confidence : string)
    (d : dict) : result dict :=
  v ← getitem field d;
  member ← in_taxonomy keys v;
  if member : bool then Ok d
  else Ok (dict_set confidence zero (dict_set field (JStr "Other") d)).

(** Lines 224-235: [enrichment['segment']] needs a mapping. *)
Definition validate_taxonomies (self : FeedbackEnricher) (enrichment : json)
    : result dict :=
  match enrichment with
  | JDict d =>
      d1 ← force_member (segments self) "segment" "segment_confidence" d;
      force_member (departments self) "department" "department_confidence" d1
  | JList _ =>
      Raise (Exn TypeError "list indices must be integers or slices, not str")
  | JStr _ =>
      Raise (Exn TypeError "string indices must be integers, not 'str'")
  | _ =>
      Raise (Exn TypeError
               ("'" ++ type_name enrichment ++ "' object is not subscriptable"))
  end.

(** Lines 218-235, the part of the [try] block behind [json.loads]. *)
Definition validate (self : FeedbackEnricher) (enrichment : json) : result dict :=
  _ ← check_required required_fields enrichment;
  validate_taxonomies self enrichment.

(** Lines 195-260: the [try] block with its two handlers. The handler for
    [json.JSONDecodeError] (lines 237-248) prints [response_text] at line
    239 before it builds its fallback; that name is bound at line 209,
    behind the call, so the handler raises when it is the call that
    raised. A failure of [json.loads] that is not a [JSONDecodeError], and
    every failure of the validation, reaches the handler for [Exception]
    (lines 250-260). *)
Definition classify (self : FeedbackEnricher) (prompt : string) : result dict :=
  match client self (enrichment_prompt self) prompt with
  | Failed msg => Ok (fallback ("Error: " ++ msg))
  | RaisedDecodeError _ => Raise unbound_response_text
  | Replied text =>
      match json_loads (Fence.json_text text) with
      | inl (JSONDecodeError msg) => Ok (fallback ("Parse error: " ++ msg))
      | inl (LoadsError msg) => Ok (fallback ("Error: " ++ msg))
      | inr enrichment =>
          match validate self enrichment with
          | Ok d => Ok d
          | Raise e => Ok (fallback ("Error: " ++ exn_msg e))
          end
      end
  end.

(** Lines 148-260. *)
Definition enrich_feedback_item (self : FeedbackEnricher)
    (feedback_item : dict) (dry_run : bool) : result dict :=
  prompt ← user_prompt feedback_item;
  if dry_run then Ok mock_enrichment else classify self prompt.

(** [v < 0.5]: a number or a boolean compares, anything else raises. *)
Definition lt_half (v : json) : result bool :=
  match v with
  | JNum (NFloat f) => Ok (PrimFloat.ltb f 0.5%float)
  | JNum (NInt z) => Ok (z <=? 0)%Z
  | JBool b => Ok (negb b)
  | _ => Raise (Exn TypeError
                  ("'<' not supported between instances of '"
                   ++ type_name v ++ "' and 'float'"))
  end.

(** Line 282 builds its message from [item.get('title', 'Untitled')[:50]]:
    a string or a list can be sliced, nothing else. *)
Definition title_preview (item : dict) : result unit :=
  match dict_get_default "title" (JStr "Untitled") item with
  | JStr _ | JList _ => Ok tt
  | v => Raise (Exn TypeError
                  ("'" ++ type_name v ++ "' object is not subscriptable"))
  end.

(** Lines 293-297 for one field. *)
Definition floor_field (field : string) (confidence : json) (item : dict)
    : result dict :=
  low ← lt_half confidence;
  Ok (if low : bool then dict_set field (JStr "Uncertain") item else item).

(** Lines 300-302. *)
Definition existing_tags (item : dict) : json :=
  match dict_get_default "tags" (JList []) item with
  | JStr s => JList (map JStr (split_strip_nonempty s))
  | v => v
  end.

(** [a + b] where the code expects two lists. *)
Definition concat_lists (a b : json) : result (list json) :=
  match a, b with
  | JList l1, JList l2 => Ok (l1 ++ l2)%list
  | JList _, _ =>
      Raise (Exn TypeError
               ("can only concatenate list (not " ++ type_name b ++ ") to list"))
  | _, _ =>
      Raise (Exn TypeError
               ("unsupported operand type(s) for +: '" ++ type_name a
                ++ "' and '" ++ type_name b ++ "'"))
  end.

(** Insertion of [xs] into a set holding [seen]: an element equal to one
    already there is dropped. *)
Fixpoint set_add_all (seen xs : list json) : list json :=
  match xs with
  | [] => seen
  | x :: xs' =>
      if existsb (hash_eq x) seen then set_add_all seen xs'
      else set_add_all (seen ++ [x]) xs'
  end.

(** [list(set(xs))]. Python leaves the order of the result open; the model
    lists the elements in the order of their first occurrence. *)
Definition list_of_set (xs : list json) : result (list json) :=
  match find (fun x => negb (hashable x)) xs with
  | Some x => Raise (Exn TypeError ("unhashable type: '" ++ type_name x ++ "'"))
  | None => Ok (set_add_all [] xs)
  end.

(** Lines 299-305. *)
Definition merge_tags (enrichment item : dict) : result dict :=
  enriched ← getitem "enriched_tags" enrichment;
  both ← concat_lists (existing_tags item) enriched;
  all_tags ← list_of_set both;
  Ok (dict_set "tags" (JList all_tags) item).

(** Lines 286-305: what the loop does to [item] once it holds
    [enrichment]. *)
Definition apply_enrichment (enrichment : dict) (skip_low_confidence : bool)
    (item : dict) : result dict :=
  segment ← getitem "segment" enrichment;
  department ← getitem "department" enrichment;
  segment_confidence ← getitem "segment_confidence" enrichment;
  department_confidence ← getitem "department_confidence" enrichment;
  let item := dict_set "segment" segment item in
  let item := dict_set "department" department item in
  let item := dict_set "segment_confidence" segment_confidence item in
  let item := dict_set "department_confidence" department_confidence item in
  item ← (if skip_low_confidence
          then item ← floor_field "segment" segment_confidence item;
               floor_field "department" department_confidence item
          else Ok item);
  merge_tags enrichment item.

(** One turn of the loop at lines 281-307. *)
Definition enrich_one (self : FeedbackEnricher) (dry_run skip_low_confidence : bool)
    (item : dict) : result dict :=
  _ ← title_preview item;
  enrichment ← enrich_feedback_item self item dry_run;
  apply_enrichment enrichment skip_low_confidence item.

(** Lines 262-309. The oracle is taken to answer as a function of its
    prompt. *)
Definition enrich_batch (self : FeedbackEnricher) (feedback_items : list dict)
    (dry_run skip_low_confidence : bool) : result (list dict) :=
  rmap (enrich_one self dry_run skip_low_confidence) feedback_items.

End WithRuntime.
End Enrich.

(** ** Batch sync engine (sync_to_sheets.py) *)

Module Sync.

(** The worksheet as the engine uses it: [col_values(n)] and
    [append_rows(rows)], each of which answers or raises and may change the
    sheet. *)
Class Worksheet (S : Type) := {
  col_values : nat -> S -> result (list string) * S;
  append_rows : list (list json) -> S -> result unit * S;
}.

Inductive call :=
  | ColValues (column : nat)
  | AppendRows (rows : list (list json)).

(** What a run of the engine can touch: the sheet, the record of the calls
    made on it (oldest first) and the seconds spent in [time.sleep]. *)
Record world (S : Type) := World {
  sheet : S;
  calls : list call;
  slept : nat;
}.
Arguments World {S} sheet calls slept.
Arguments sheet {S} w.
Arguments calls {S} w.
Arguments slept {S} w.

Definition io (S A : Type) : Type := world S -> result A * world S.

Definition io_ret {S A} (a : A) : io S A := fun w => (Ok a, w).

Definition io_bind {S A B} (m : io S A) (k : A -> io S B) : io S B :=
  fun w => match m w with
           | (Ok a, w') => k a w'
           | (Raise e, w') => (Raise e, w')
           end.

Definition io_raise {S A} (e : exn) : io S A := fun w => (Raise e, w).

(** A pure step that may raise. *)
Definition io_lift {S A} (r : result A) : io S A := fun w => (r, w).

(** [try: m  except Exception as e: handler(e)] *)
Definition io_try {S A} (m : io S A) (handler : exn -> io S A) : io S A :=
  fun w => match m w with
           | (Ok a, w') => (Ok a, w')
           | (Raise e, w') => handler e w'
           end.

Notation "'do' x <- m ; k" := (io_bind m (fun x => k))
  (at level 10, x pattern, m at level 100, k at level 200,
   format "'[v' 'do'  x  <-  m ; '/' k ']'").

Record sync_result := {
  synced : nat;
  skipped : nat;
  rows : list Z;
}.

(** [self.config['processing']['deduplicate']] *)
Record FeedbackSheetsSync := {
  deduplicate : bool;
}.

(** The clock across a sleep: what [datetime.now()] renders as [%Y-%m-%d]
    and as [%Y%m%d%H%M%S] once the engine has slept [seconds] more, given
    the runtime it had before. *)
Class Clock := {
  today_after : nat -> Runtime -> string;
  timestamp_after : nat -> Runtime -> string;
}.

(** The runtime behind [time.sleep(seconds)]: [json.loads], [str], [==]
    and [hash] are what they were, and the clock is read anew. *)
Definition later {CL : Clock} (seconds : nat) (rt : Runtime) : Runtime := {|
  json_loads := @json_loads rt;
  py_repr := @py_repr rt;
  num_eq := @num_eq rt;
  py_hash := @py_hash rt;
  today := today_after seconds rt;
  timestamp := timestamp_after seconds rt;
|}.

Section WithRuntime.
Context {RT : Runtime} {Sheet : Type} {WS : Worksheet Sheet}.

Definition call_col_values (column : nat) : io Sheet (list string) :=
  fun w =>
    let (r, sh) := col_values column (sheet w) in
    (r, World sh (calls w ++ [ColValues column]) (slept w)).

Definition call_append_rows (rs : list (list json)) : io Sheet unit :=
  fun w =>
    let (r, sh) := append_rows rs (sheet w) in
    (r, World sh (calls w ++ [AppendRows rs]) (slept w)).

(** [time.sleep(seconds)] *)
Definition sleep (seconds : nat) : io Sheet unit :=
  fun w => (Ok tt, World (sheet w) (calls w) (slept w + seconds)).

(** Lines 82-90: column B below the header, blank cells left out; a failed
    read gives no titles. *)
Definition get_existing_titles : io Sheet (list string) :=
  io_try
    (do column <- call_col_values 2;
     let titles := tail column in
     io_ret (map (fun t => PyStr.lower (PyStr.strip t))
               (filter (fun t => PyStr.strip t ≠ "") titles)))
    (fun _ => io_ret []).

(** Lines 92-101; [threshold] is not read. *)
Definition check_duplicate (title : string) (existing_titles : list string) : bool :=
  let title_lower := PyStr.lower (PyStr.strip title) in
  existsb (fun existing => String.eqb title_lower existing) existing_titles.

(** [item['title']] handed to [check_duplicate], which calls [strip] on it. *)
Definition title_arg (item : dict) : result string :=
  match dict_get "title" item with
  | None => Raise (Exn KeyError "'title'")
  | Some (JStr t) => Ok t
  | Some v => Raise (Exn AttributeError
                       ("'" ++ type_name v ++ "' object has no attribute 'strip'"))
  end.

(** Lines 111-114. *)
Definition format_list (field : json) : string :=
  match field with
  | JList l => PyStr.join ", " (map to_str (filter (fun x => truthy x = true) l))
  | _ => if truthy field then to_str field else ""
  end.

(** [hash(v)] *)
Definition hash_value (v : json) : result Z :=
  if hashable v then Ok (py_hash v)
  else Raise (Exn TypeError ("unhashable type: '" ++ type_name v ++ "'")).

(** [v[:n]] *)
Definition slice_value (n : nat) (v : json) : result json :=
  match v with
  | JStr s => Ok (JStr (PyStr.slice_to n s))
  | JList l => Ok (JList (take n l))
  | _ => Raise (Exn TypeError
                  ("'" ++ type_name v ++ "' object is not subscriptable"))
  end.

(** Lines 106-108: the item gets an id when it has none. *)
Definition ensure_id (item : dict) : result dict :=
  if negb (dict_has "id" item)
     || negb (truthy (dict_get_default "id" JNull item))
  then h ← hash_value (dict_get_default "title" (JStr "") item);
       Ok (dict_set "id"
             (JStr (PyStr.slice_to 20
                      ("FB-" ++ timestamp ++ "-" ++ PyStr.of_Z h))) item)
  else Ok item.

(** Columns L and P: the first attendee. *)
Definition first_attendee (item : dict) : json :=
  match dict_get "attendees" item with
  | Some a =>
      if truthy a
      then JStr (hd "" (PyStr.split "," (format_list a)))
      else JStr ""
  | None => JStr ""
  end.

(** Lines 103-146: the item as the call leaves it, and its 26 cells. *)
Definition format_row (item : dict) : result (dict * list json) :=
  item ← ensure_id item;
  title ← slice_value 100 (dict_get_default "title" (JStr "") item);
  let get k default := dict_get_default k default item in
  Ok (item,
      [ get "id" (JStr "");
        title;
        get "description" (JStr "");
        get "source" (JStr "Manual");
        get "status" (JStr "New");
        get "priority" (JStr "P3");
        get "product" (JStr "Other");
        get "category" (JStr "Other");
        get "segment" (JStr "");
        get "department" (JStr "");
        get "segment" (JStr "");
        first_attendee item;
        JStr "";
        JStr "";
        JStr (if negb (truthy (get "internal" (JBool false))) then "N" else "Y");
        first_attendee item;
        get "created_date" (JStr today);
        get "updated_date" (JStr today);
        JStr (format_list (get "attendees" (JList [])));
        JStr (format_list (get "tags" (JList [])));
        get "meeting_type" (JStr "");
        get "meeting_date" (JStr "");
        get "source" (JStr "Manual");
        get "source_url" (JStr "");
        get "use_case" (JStr "");
        get "quote" (JStr "") ]).

(** The loop at lines 166-172, with the three variables it updates. *)
Fixpoint filter_duplicates (existing_titles : list string)
    (pairs : list (dict * list json))
    (non_duplicate : list (dict * list json)) (skipped_count : nat)
    : result (list (dict * list json) * nat) :=
  match pairs with
  | [] => Ok (non_duplicate, skipped_count)
  | (item, row) :: rest =>
      title ← title_arg item;
      if check_duplicate title existing_titles
      then filter_duplicates existing_titles rest non_duplicate (skipped_count + 1)
      else filter_duplicates existing_titles rest
             (non_duplicate ++ [(item, row)]) skipped_count
  end.

(** [list(range(first, last + 1))] *)
Definition row_numbers (first_new_row last_row : Z) : list Z :=
  map (fun i => (first_new_row + Z.of_nat i)%Z)
      (seq 0 (Z.to_nat (last_row + 1 - first_new_row))).

(** Lines 185-199: the body of the [try]. *)
Definition append_and_count (rs : list (list json)) (skipped_count : nat)
    : io Sheet sync_result :=
  do _ <- call_append_rows rs;
  do column_a <- call_col_values 1;
  let last_row := Z.of_nat (length column_a) in
  let first_new_row := (last_row - Z.of_nat (length rs) + 1)%Z in
  io_ret {| synced := length rs;
            skipped := skipped_count;
            rows := row_numbers first_new_row last_row |}.

Definition is_rate_limit (e : exn) : bool :=
  match exn_kind e with
  | APIError => PyStr.contains "RATE_LIMIT_EXCEEDED" (exn_msg e)
  | _ => false
  end.

Definition is_api_error (e : exn) : bool :=
  match exn_kind e with
  | APIError => true
  | _ => false
  end.

(** Lines 156-177: the pairs of item and row that are to be written, and
    the number of items skipped as duplicates. *)
Definition select_rows (self : FeedbackSheetsSync)
    (formatted : list (dict * list json))
    : io Sheet (list (dict * list json) * nat) :=
  if deduplicate self
  then do existing_titles <- get_existing_titles;
       io_lift (filter_duplicates existing_titles formatted [] 0)
  else io_ret (formatted, 0).

End WithRuntime.

Section WithClock.
Context {Sheet : Type} {WS : Worksheet Sheet} {CL : Clock}.

(** Lines 148-207. The function calls itself from its handler; [depth] is
    the number of nested calls the interpreter still allows, and running out
    of it is Python's [RecursionError]. [batch_size] is passed along and
    never read. The call made from the handler comes behind
    [time.sleep(60)], so the rows it formats read the clock as it is
    then. *)
Fixpoint batch_append {RT : Runtime} (depth : nat) (self : FeedbackSheetsSync)
    (items : list dict) (batch_size : nat) : io Sheet sync_result :=
  match depth with
  | O => io_raise (Exn RecursionError "maximum recursion depth exceeded")
  | S depth' =>
      match items with
      | [] => io_ret {| synced := 0; skipped := 0; rows := [] |}
      | _ :: _ =>
          do formatted <- io_lift (rmap format_row items);
          do selected <- select_rows self formatted;
          let items := map fst (fst selected) in
          let rs := map snd (fst selected) in
          let skipped_count := snd selected in
          match rs with
          | [] => io_ret {| synced := 0; skipped := skipped_count; rows := [] |}
          | _ :: _ =>
              io_try (append_and_count rs skipped_count)
                (fun e =>
                   if is_api_error e
                   then if PyStr.contains "RATE_LIMIT_EXCEEDED" (exn_msg e)
                        then do _ <- sleep 60;
                             batch_append (RT:=later 60 RT) depth' self items
                               batch_size
                        else io_raise e
                   else io_raise e)
          end
      end
  end.

End WithClock.

(** A worksheet that plays back a script: each call consumes the next entry
    and answers with it; once the script is used up a read finds an empty
    column and an append succeeds. *)
Inductive scripted :=
  | Column (values : list string)
  | Done
  | Fails (e : exn).

#[global] Instance scripted_worksheet : Worksheet (list scripted) := {
  col_values _ script :=
    match script with
    | Column values :: rest => (Ok values, rest)
    | Fails e :: rest => (Raise e, rest)
    | Done :: rest => (Ok [], rest)
    | [] => (Ok [], [])
    end;
  append_rows _ script :=
    match script with
    | Fails e :: rest => (Raise e, rest)
    | _ :: rest => (Ok tt, rest)
    | [] => (Ok tt, [])
    end;
}.

End Sync.

(** ** A concrete runtime and oracle for worked examples *)

Module Example.

(** The double-quote character. *)
Definition dq : string := String (ascii_of_nat 34) EmptyString.

(** [json.loads] restricted to the texts of [table], each paired with the
    value it parses to; any other text is reported as malformed. *)
Definition table_loads (table : list (string * json)) (text : string)
    : loads_error + json :=
  match find (fun entry => String.eqb text entry.1) table with
  | Some entry => inr entry.2
  | None => inl (JSONDecodeError "Expecting value: line 1 column 1 (char 0)")
  end.

Definition int_of (v : json) : option Z :=
  match v with
  | JBool b => Some (if b then 1 else 0)%Z
  | JNum (NInt z) => Some z
  | _ => None
  end.

(** A runtime for examples over strings, integers and booleans. *)
Definition runtime (table : list (string * json)) : Runtime := {|
  json_loads := table_loads table;
  py_repr v := match v with
               | JNull => "None"
               | JBool b => if b then "True" else "False"
               | JNum (NInt z) => PyStr.of_Z z
               | _ => "?"
               end;
  num_eq a b := match int_of a, int_of b with
                | Some x, Some y => (x =? y)%Z
                | _, _ => false
                end;
  py_hash _ := 42%Z;
  today := "2024-03-01";
  timestamp := "20240301093000";
|}.

(** An oracle that answers every prompt with [text]. *)
Definition answers (text : string) : oracle := fun _ _ => Replied text.

(** An oracle whose call always fails. *)
Definition unreachable (msg : string) : oracle := fun _ _ => Failed msg.

(** An oracle whose call always raises a [json.JSONDecodeError]. *)
Definition undecodable (msg : string) : oracle :=
  fun _ _ => RaisedDecodeError msg.

(** ["c" * n] *)
Fixpoint repeat_char (c : ascii) (n : nat) : string :=
  match n with
  | O => EmptyString
  | S n' => String c (repeat_char c n')
  end.

End Example.

(** * Vocabulary of the properties *)

Definition is_dict (v : json) : bool :=
  match v with
  | JDict _ => true
  | _ => false
  end.

(** The element as [extract] returns it. *)
Definition stamped {RT : Runtime} (metadata : Extract.MeetingMetadata) (item : json) : json :=
  match item with
  | JDict d => JDict (dict_update (Extract.stamp metadata) d)
  | _ => item
  end.

(** The fields the specification requires of an extracted element (the
    ones the prompt's output format lists as mandatory). *)
Definition required_item_fields : list string :=
  [ "title"; "product"; "category"; "priority"; "description"; "use_case";
    "impact"; "raw_context" ].

(** An element that lacks one of them. *)
Definition lacks_required_field (item : json) : Prop :=
  ∃ field, field ∈ required_item_fields ∧
    match item with
    | JDict d => dict_has field d = false
    | _ => True
    end.

(** ** Worked data for extraction *)

Module ExtractExample.
Import Example.

(** The text [{"title": "Slow export", ..., "raw_context": "r"},
    {"product": "Core"}] : a JSON array whose second element lacks every
    required field but [product]. *)
Definition complete_text : string :=
  "{" ++ dq ++ "title" ++ dq ++ ": " ++ dq ++ "Slow export" ++ dq ++ ", "
  ++ dq ++ "product" ++ dq ++ ": " ++ dq ++ "Core" ++ dq ++ ", "
  ++ dq ++ "category" ++ dq ++ ": " ++ dq ++ "Bug" ++ dq ++ ", "
  ++ dq ++ "priority" ++ dq ++ ": " ++ dq ++ "P1" ++ dq ++ ", "
  ++ dq ++ "description" ++ dq ++ ": " ++ dq ++ "d" ++ dq ++ ", "
  ++ dq ++ "use_case" ++ dq ++ ": " ++ dq ++ "u" ++ dq ++ ", "
  ++ dq ++ "impact" ++ dq ++ ": " ++ dq ++ "i" ++ dq ++ ", "
  ++ dq ++ "raw_context" ++ dq ++ ": " ++ dq ++ "r" ++ dq ++ "}".

Definition incomplete_text : string :=
  "{" ++ dq ++ "product" ++ dq ++ ": " ++ dq ++ "Core" ++ dq ++ "}".

Definition reply_text : string :=
  "[" ++ complete_text ++ ", " ++ incomplete_text ++ "]".

Definition complete_item : dict :=
  [ ("title", JStr "Slow export"); ("product", JStr "Core");
    ("category", JStr "Bug"); ("priority", JStr "P1");
    ("description", JStr "d"); ("use_case", JStr "u");
    ("impact", JStr "i"); ("raw_context", JStr "r") ].

Definition incomplete_item : dict := [ ("product", JStr "Core") ].

Definition parsed : json := JList [JDict complete_item; JDict incomplete_item].

Definition rt : Runtime := runtime [(reply_text, parsed)].

Definition extractor : Extract.FeedbackExtractor :=
  {| Extract.client := answers reply_text;
     Extract.extraction_prompt := "You are a feedback extraction specialist" |}.

(** An extractor whose client fails to decode the answer it gets. *)
Definition garbled_extractor : Extract.FeedbackExtractor :=
  {| Extract.client := undecodable "Expecting value: line 1 column 1 (char 0)";
     Extract.extraction_prompt := "You are a feedback extraction specialist" |}.

(** The metadata of a note with frontmatter [date: 2024-03-01] and
    [attendees: Alice, Bob]. *)
Definition frontmatter : dict :=
  [ ("date", JStr "2024-03-01"); ("attendees", JStr "Alice, Bob") ].

Definition metadata : Extract.MeetingMetadata :=
  Extract.extract_meeting_metadata (RT:=rt) frontmatter (Some "2024-03-01_sync.md").

Definition note_body : string := "Export takes ten minutes.".

Definition stamp_fields : dict :=
  [ ("meeting_type", JStr "Call");
    ("meeting_date", JStr "2024-03-01");
    ("attendees", JList [JStr "Alice"; JStr "Bob"]);
    ("source", JStr "Manual");
    ("source_url", JStr "");
    ("created_date", JStr "2024-03-01");
    ("updated_date", JStr "2024-03-01");
    ("status", JStr "New");
    ("internal", JBool false) ].

End ExtractExample.

(** ** Vocabulary for enrichment *)


(** [value] is a name of the vocabulary [keys]. *)
Definition taxonomy_member (keys : list string) (value : option json) : Prop :=
  ∃ name, value = Some (JStr name) ∧ name ∈ keys.

(** [value] is a name of the vocabulary or one of the two sentinels. *)
Definition member_or_sentinel (keys : list string) (value : option json) : Prop :=
  ∃ name, value = Some (JStr name)
          ∧ (name ∈ keys ∨ name = "Other" ∨ name = "Uncertain").

(** The field [k] of what the oracle's output parsed to, when that is an
    object holding it. *)
Definition parsed_field (k : string) (enrichment : json) : option json :=
  match enrichment with
  | JDict d => dict_get k d
  | _ => None
  end.

(** A confidence that is a number below one half. *)
Definition below_half (confidence : json) : Prop :=
  match confidence with
  | JNum (NFloat f) => PrimFloat.ltb f 0.5%float = true
  | JNum (NInt z) => (z <= 0)%Z
  | _ => False
  end.

Definition is_str (v : json) : bool :=
  match v with
  | JStr _ => true
  | _ => false
  end.

(** ** Worked data for enrichment *)

Module EnrichExample.
Import Example.

Definition q (s : string) : string := dq ++ s ++ dq.

(** 0.9 and 0.3 as [json.loads] reads them: the nearest binary64 values. *)
Definition f09 : float := 0x1.ccccccccccccdp-1%float.
Definition f03 : float := 0x1.3333333333333p-2%float.

(** The text {"segment": "NotARealSegment", "department": "HEOR",
    "enriched_tags": ["real-world-data", "cohort-analysis", "depression",
    "time-series", "export", "safety-monitoring"],
    "segment_confidence": 0.9, "department_confidence": 0.3,
    "reasoning": "guess"}. *)
Definition reply_text : string :=
  "{" ++ q "segment" ++ ": " ++ q "NotARealSegment" ++ ", "
  ++ q "department" ++ ": " ++ q "HEOR" ++ ", "
  ++ q "enriched_tags" ++ ": [" ++ q "real-world-data" ++ ", "
  ++ q "cohort-analysis" ++ ", " ++ q "depression" ++ ", "
  ++ q "time-series" ++ ", " ++ q "export" ++ ", "
  ++ q "safety-monitoring" ++ "], "
  ++ q "segment_confidence" ++ ": 0.9, "
  ++ q "department_confidence" ++ ": 0.3, "
  ++ q "reasoning" ++ ": " ++ q "guess" ++ "}".

Definition parsed : json :=
  JDict [ ("segment", JStr "NotARealSegment");
          ("department", JStr "HEOR");
          ("enriched_tags",
           JList [ JStr "real-world-data"; JStr "cohort-analysis";
                   JStr "depression"; JStr "time-series"; JStr "export";
                   JStr "safety-monitoring" ]);
          ("segment_confidence", JNum (NFloat f09));
          ("department_confidence", JNum (NFloat f03));
          ("reasoning", JStr "guess") ].

(** The text {"segment": "Pharma"}: an object without [department]. *)
Definition partial_text : string :=
  "{" ++ q "segment" ++ ": " ++ q "Pharma" ++ "}".

Definition partial_parsed : json := JDict [ ("segment", JStr "Pharma") ].


Definition rt : Runtime :=
  runtime [ (reply_text, parsed); (partial_text, partial_parsed) ].

Definition enricher (client : oracle) : Enrich.FeedbackEnricher :=
  {| Enrich.client := client;
     Enrich.segments := ["Pharma"; "Biotech"; "Payor"];
     Enrich.departments := ["Research/RWD"; "HEOR"];
     Enrich.enrichment_prompt := "You are a feedback classification specialist" |}.

(** An item that already carries six tags. *)
Definition item : dict :=
  [ ("title", JStr "Slow export");
    ("attendees", JStr "Alice (Acme Pharma), Bob");
    ("description", JStr "Export of a cohort takes ten minutes.");
    ("use_case", JStr "Weekly HEOR report");
    ("raw_context", JStr "It takes ten minutes every time.");
    ("tags", JList [ JStr "export"; JStr "performance"; JStr "cohort";
                     JStr "reporting"; JStr "latency"; JStr "ux" ]) ].

Definition prompt : string :=
  Enrich.render_prompt "Alice (Acme Pharma), Bob"
    "Export of a cohort takes ten minutes." "Weekly HEOR report"
    "It takes ten minutes every time.".

(** The eleven tags of the item once the reply above has been applied: its
    own six and the five of the reply it did not have. *)
Definition merged_tags : list json :=
  [ JStr "export"; JStr "performance"; JStr "cohort"; JStr "reporting";
    JStr "latency"; JStr "ux"; JStr "real-world-data";
    JStr "cohort-analysis"; JStr "depression"; JStr "time-series";
    JStr "safety-monitoring" ].

(** The item after enrichment with the reply above, without and with the
    confidence floor. *)
Definition enriched_item (segment department : string) : dict :=
  [ ("title", JStr "Slow export");
    ("attendees", JStr "Alice (Acme Pharma), Bob");
    ("description", JStr "Export of a cohort takes ten minutes.");
    ("use_case", JStr "Weekly HEOR report");
    ("raw_context", JStr "It takes ten minutes every time.");
    ("tags", JList merged_tags);
    ("segment", JStr segment);
    ("department", JStr department);
    ("segment_confidence", JNum (NFloat 0%float));
    ("department_confidence", JNum (NFloat f03)) ].

End EnrichExample.

(** ** Worked data for the enrichment payload *)

Module PayloadExample.
Import Example.

(** A description of 301 characters: 299 letters and two trailing
    spaces. *)
Definition padded_description : string := repeat_char "a" 299 ++ "  ".

Definition padded_item : dict := [ ("description", JStr padded_description) ].

(** A description of 2 + 305 + 1 characters with blanks at both ends, and a
    use case and a raw context of 250 letters each. *)
Definition long_item : dict :=
  [ ("description", JStr ("  " ++ repeat_char "x" 305 ++ " "));
    ("use_case", JStr (repeat_char "u" 250));
    ("raw_context", JStr (repeat_char "r" 250)) ].

End PayloadExample.

(** ** Vocabulary for deduplication *)

(** The normalized form of a title: lowercased, then trimmed of surrounding
    whitespace. *)
Definition normalize (title : string) : string :=
  PyStr.strip (PyStr.lower title).

Definition has_title (item : dict) : Prop :=
  ∃ title, dict_get "title" item = Some (JStr title).

(** The normalized title of an item that has one. *)
Definition normalized_title (item : dict) : string :=
  match dict_get "title" item with
  | Some (JStr title) => normalize title
  | _ => ""
  end.

(** The candidates that survive when [seen] holds the normalized titles
    met so far. *)
Fixpoint survivors (seen : gset string) (candidates : list dict) : list dict :=
  match candidates with
  | [] => []
  | c :: rest =>
      if decide (normalized_title c ∈ seen) then survivors seen rest
      else c :: survivors ({[normalized_title c]} ∪ seen) rest
  end.

(** The normalized titles of a list of candidates, as a set. *)
Definition titles_of (candidates : list dict) : gset string :=
  list_to_set (map normalized_title candidates).

(** A string that does not start with whitespace. *)
Definition starts_clean (s : string) : Prop :=
  match s with
  | EmptyString => True
  | String c _ => PyStr.is_space c = false
  end.

(** ** Worked data for deduplication *)

Module DedupeExample.

Definition titled (title : string) : dict :=
  [ ("title", JStr title); ("product", JStr "Core") ].

(** Four candidates: the second repeats the first up to case and blanks,
    the fourth repeats a title the store already holds. *)
Definition batch : list dict :=
  [ titled "Slow export"; titled "slow export  "; titled "Missing filter";
    titled " Login Fails" ].

Definition store_titles : list string := [ "Login fails"; "Old request" ].

End DedupeExample.

(** ** Worked data for batch sync *)

Module SyncExample.

Definition rt : Runtime := Example.runtime [].

Definition syncer : Sync.FeedbackSheetsSync := {| Sync.deduplicate := true |}.

(** An item that already has its id. *)
Definition item : dict :=
  [ ("id", JStr "FB-1"); ("title", JStr "Slow export");
    ("priority", JStr "P1") ].

Definition rate_limit : exn :=
  Exn APIError "APIError: [429]: Quota exceeded (RATE_LIMIT_EXCEEDED)".

Definition forbidden : exn :=
  Exn APIError "APIError: [403]: The caller does not have permission".

(** One attempt that the store turns down: the titles are read, the append
    is rate-limited. *)
Definition refused_attempt : list Sync.scripted :=
  [ Sync.Column ["Title"; "Old request"]; Sync.Fails rate_limit ].

(** The attempt that goes through: titles, append, and the ids of column A
    (a header and two rows). *)
Definition accepted_attempt : list Sync.scripted :=
  [ Sync.Column ["Title"; "Old request"]; Sync.Done;
    Sync.Column ["ID"; "FB-0"; "FB-1"] ].

(** A store that is rate-limited [n] times before it accepts. *)
Fixpoint refused (n : nat) : list Sync.scripted :=
  match n with
  | O => accepted_attempt
  | S n' => (refused_attempt ++ refused n')%list
  end.

Definition start (script : list Sync.scripted) : Sync.world (list Sync.scripted) :=
  Sync.World script [] 0.

(** The 26 cells of [item]. *)
Definition row : list json :=
  [ JStr "FB-1"; JStr "Slow export"; JStr ""; JStr "Manual"; JStr "New";
    JStr "P1"; JStr "Other"; JStr "Other"; JStr ""; JStr ""; JStr "";
    JStr ""; JStr ""; JStr ""; JStr "N"; JStr ""; JStr "2024-03-01";
    JStr "2024-03-01"; JStr ""; JStr ""; JStr ""; JStr ""; JStr "Manual";
    JStr ""; JStr ""; JStr "" ].

(** The calls of one refused attempt and of the accepted one. *)
Definition refused_calls : list Sync.call :=
  [ Sync.ColValues 2; Sync.AppendRows [row] ].

Definition accepted_calls : list Sync.call :=
  [ Sync.ColValues 2; Sync.AppendRows [row]; Sync.ColValues 1 ].

Fixpoint calls_after (n : nat) : list Sync.call :=
  match n with
  | O => accepted_calls
  | S n' => (refused_calls ++ calls_after n')%list
  end.

Definition is_append (c : Sync.call) : bool :=
  match c with
  | Sync.AppendRows _ => true
  | Sync.ColValues _ => false
  end.

(** The number of appends among the calls made. *)
Definition appends (cs : list Sync.call) : nat :=
  length (List.filter is_append cs).

Definition written : Sync.sync_result :=
  {| Sync.synced := 1; Sync.skipped := 0; Sync.rows := [3%Z] |}.

(** A clock that stands still while the engine sleeps: the worked runs
    stay within one day. *)
Definition frozen : Sync.Clock := {|
  Sync.today_after _ rt := @today rt;
  Sync.timestamp_after _ rt := @timestamp rt;
|}.

(** A clock on which the sleep ends on the next day. *)
Definition past_midnight : Sync.Clock := {|
  Sync.today_after _ _ := "2024-03-02";
  Sync.timestamp_after _ _ := "20240302000030";
|}.

End SyncExample.

(** * Further code of the scripts *)

(** ** Notes: frontmatter and the per-note pipeline (extract_feedback.py) *)

Module Note.

(** What a call of [yaml.safe_load] ends in: a value, read as a [json] (a
    mapping with string keys is a [JDict], an empty document is [JNull]);
    a [yaml.YAMLError], which a text that is not YAML gives; or another
    exception, such as the [ValueError] a date with month 13 gives when
    the loader builds the date. *)
Inductive loaded :=
  | Loaded (v : json)
  | YAMLError
  | LoadRaised (e : exn).

Class Yaml := {
  yaml_safe_load : string -> loaded;
}.

Definition opening : string := "---" ++ Fence.nl.
Definition closing : string := Fence.nl ++ "---" ++ Fence.nl.

(** The pattern behind its opening marker, matched at the head of [s]: a
    lazy group 1, the closing marker, and a greedy group 2. Group 1 is the
    shortest text behind which the closing marker follows, group 2 is all
    the rest. *)
Fixpoint until_closing (s : string) : option (string * string) :=
  match PyStr.strip_prefix closing s with
  | Some rest => Some (EmptyString, rest)
  | None =>
      match s with
      | EmptyString => None
      | String c s' =>
          match until_closing s' with
          | Some (front, rest) => Some (String c front, rest)
          | None => None
          end
      end
  end.

(** [re.match] of the pattern of line 137 (the opening marker at the very
    start, group 1, the closing marker, group 2) with [re.DOTALL]: groups 1
    and 2. *)
Definition frontmatter_match (note_text : string) : option (string * string) :=
  match PyStr.strip_prefix opening note_text with
  | Some s => until_closing s
  | None => None
  end.

(** The dict [parse_frontmatter] returns. *)
Record ParsedNote := {
  frontmatter : json;
  body : string;
}.

Section WithRuntime.
Context {RT : Runtime} {YAML : Yaml}.

(** Lines 134-155. The handler at line 146 takes a [yaml.YAMLError] and
    nothing else. *)
Definition parse_frontmatter (note_text : string) : result ParsedNote :=
  match frontmatter_match note_text with
  | Some (frontmatter_text, body) =>
      match yaml_safe_load frontmatter_text with
      | Loaded v => Ok {| frontmatter := v; body := body |}
      | YAMLError => Ok {| frontmatter := JDict []; body := body |}
      | LoadRaised e => Raise e
      end
  | None => Ok {| frontmatter := JDict []; body := note_text |}
  end.

(** ['date' in frontmatter], ['created' in frontmatter] for a frontmatter
    that is a list or a string. *)
Definition mentions (k : string) (frontmatter : json) : bool :=
  match frontmatter with
  | JList l => existsb (fun x => match x with
                                 | JStr s => String.eqb s k
                                 | _ => false
                                 end) l
  | JStr s => PyStr.contains k s
  | _ => false
  end.

(** Lines 157-198 for whatever [yaml.safe_load] returned. Only a mapping
    gets through: on a list or a string the membership tests at lines 163
    and 165 work, and then either the subscript at line 164 or 166 or the
    call of [get] at line 177 raises; on anything else the first
    membership test raises. *)
Definition extract_meeting_metadata (frontmatter : json) (file_name : option string)
    : result Extract.MeetingMetadata :=
  match frontmatter with
  | JDict d => Ok (Extract.extract_meeting_metadata d file_name)
  | JList _ =>
      if mentions "date" frontmatter || mentions "created" frontmatter
      then Raise (Exn TypeError "list indices must be integers or slices, not str")
      else Raise (Exn AttributeError "'list' object has no attribute 'get'")
  | JStr _ =>
      if mentions "date" frontmatter || mentions "created" frontmatter
      then Raise (Exn TypeError "string indices must be integers, not 'str'")
      else Raise (Exn AttributeError "'str' object has no attribute 'get'")
  | _ => Raise (Exn TypeError
                  ("argument of type '" ++ type_name frontmatter
                   ++ "' is not iterable"))
  end.

(** Lines 264-285 and 287-303: [process_note_file] on the text read from a
    file called [file_name], and [process_note_text], which has no file
    name. *)
Definition process_note (self : Extract.FeedbackExtractor)
    (file_name : option string) (note_text : string) : result json :=
  parsed_note ← parse_frontmatter note_text;
  metadata ← extract_meeting_metadata (frontmatter parsed_note) file_name;
  Extract.extract_feedback_with_claude self (body parsed_note) metadata.

Definition process_note_file (self : Extract.FeedbackExtractor)
    (file_name note_text : string) : result json :=
  process_note self (Some file_name) note_text.

Definition process_note_text (self : Extract.FeedbackExtractor)
    (note_text : string) : result json :=
  process_note self None note_text.

End WithRuntime.
End Note.

(** ** The link to the sheet (sync_to_sheets.py) *)

Module SheetUrl.

(** [min(rows)] and [max(rows)] of a non-empty list of integers. *)
Definition list_min (first : Z) (others : list Z) : Z := fold_left Z.min others first.
Definition list_max (first : Z) (others : list Z) : Z := fold_left Z.max others first.

(** Lines 209-219. [spreadsheet_id] and [gid] are [self.spreadsheet.id] and
    [self.worksheet.id] as the f-string prints them. *)
Definition get_sheet_url (spreadsheet_id gid : string)
    (row_numbers : option (list Z)) : string :=
  let base_url :=
    "https://docs.google.com/spreadsheets/d/" ++ spreadsheet_id ++ "/edit" in
  match row_numbers with
  | Some (r :: rs) =>
      base_url ++ "#gid=" ++ gid ++ "&range=A" ++ PyStr.of_Z (list_min r rs)
      ++ ":Z" ++ PyStr.of_Z (list_max r rs)
  | _ => base_url
  end.

End SheetUrl.

(** ** The summary for the team channel (generate_slack_msg.py):
    which items are quoted and which are listed as actions *)

Module Slack.

(** [sorted(xs, key=key)] and [sorted(xs, key=key, reverse=True)] for
    integer keys. Python's sort is stable, with [reverse] as well: items
    with equal keys keep their order. There is one such arrangement; it is
    built here by inserting each item, from the last to the first, in
    front of the first item that must not precede it. *)
Fixpoint insert {A} (key : A -> Z) (reverse : bool) (x : A) (l : list A) : list A :=
  match l with
  | [] => [x]
  | y :: rest =>
      if (if reverse then key x <? key y else key y <? key x)%Z
      then y :: insert key reverse x rest
      else x :: l
  end.

Definition sorted {A} (key : A -> Z) (reverse : bool) (xs : list A) : list A :=
  foldr (insert key reverse) [] xs.

(** [item.get('priority') == p] *)
Definition priority_is (p : string) (item : dict) : bool :=
  match dict_get "priority" item with
  | Some (JStr s) => String.eqb s p
  | _ => false
  end.

(** Lines 86-99. *)
Definition identify_actions (items : list dict) : list dict :=
  let high_priority :=
    List.filter (fun item => priority_is "P0" item || priority_is "P1" item)
      items in
  sorted (fun x => if priority_is "P0" x then 0 else 1)%Z false high_priority.

(** [item.get('quote') and item.get('quote').strip()] as a condition: a
    missing or false quote is left out before [strip] is called on it. *)
Definition has_quote (item : dict) : result bool :=
  match dict_get "quote" item with
  | None => Ok false
  | Some q =>
      if truthy q
      then match q with
           | JStr s => Ok (negb (String.eqb (PyStr.strip s) ""))
           | _ => Raise (Exn AttributeError
                           ("'" ++ type_name q ++ "' object has no attribute 'strip'"))
           end
      else Ok false
  end.

(** A list comprehension with a condition that may raise. *)
Fixpoint rfilter {A} (p : A -> result bool) (xs : list A) : result (list A) :=
  match xs with
  | [] => Ok []
  | x :: xs' =>
      keep ← p x;
      rest ← rfilter p xs';
      Ok (if keep : bool then x :: rest else rest)
  end.

(** Lines 77-80: the lookup of the priority in the table of scores needs a
    hashable key, and [len] a sized value. *)
Definition quote_score (item : dict) : result Z :=
  priority_score ←
    match dict_get_default "priority" (JStr "P3") item with
    | JStr s =>
        Ok (if String.eqb s "P0" then 1000
            else if String.eqb s "P1" then 100
            else if String.eqb s "P2" then 10
            else if String.eqb s "P3" then 1
            else 0)%Z
    | (JList _ | JDict _) as v =>
        Raise (Exn TypeError ("unhashable type: '" ++ type_name v ++ "'"))
    | _ => Ok 0%Z
    end;
  length_score ←
    match dict_get_default "quote" (JStr "") item with
    | JStr s => Ok (Z.of_nat (String.length s))
    | JList l => Ok (Z.of_nat (length l))
    | JDict d => Ok (Z.of_nat (length d))
    | v => Raise (Exn TypeError
                    ("object of type '" ++ type_name v ++ "' has no len()"))
    end;
  Ok (priority_score + length_score)%Z.

(** Lines 65-84. The keys are computed once per item before the items are
    arranged; [max_quotes] is a count (the callers leave it at 3). *)
Definition select_quotes (items : list dict) (max_quotes : nat)
    : result (list dict) :=
  items_with_quotes ← rfilter has_quote items;
  scores ← rmap quote_score items_with_quotes;
  let sorted_items := map fst (sorted snd true (zip items_with_quotes scores)) in
  Ok (take max_quotes sorted_items).

End Slack.

(** ** Vocabulary for the further properties *)

(** The titles [get_existing_titles] makes of column B: the cells below the
    header that are not blank, stripped and lowercased. *)
Definition store_titles (column_b : list string) : list string :=
  map (fun t => PyStr.lower (PyStr.strip t))
      (filter (fun t => PyStr.strip t ≠ "") (tail column_b)).

(** [n] consecutive integers from [first] on. *)
Definition consecutive (first : Z) (n : nat) : list Z :=
  map (fun i => (first + Z.of_nat i)%Z) (seq 0 n).

(** The elements of what extraction returns. *)
Definition elements (v : json) : list json :=
  match v with
  | JList l => l
  | _ => []
  end.

(** A text of the shape dddd-dd-dd. *)
Definition date_shaped (d : string) : bool :=
  match d with
  | String y1 (String y2 (String y3 (String y4 (String d1
      (String m1 (String m2 (String d2 (String a1 (String a2 EmptyString))))))))) =>
      PyStr.is_digit y1 && PyStr.is_digit y2 && PyStr.is_digit y3
      && PyStr.is_digit y4 && Ascii.eqb d1 "-" && PyStr.is_digit m1
      && PyStr.is_digit m2 && Ascii.eqb d2 "-" && PyStr.is_digit a1
      && PyStr.is_digit a2
  | _ => false
  end.

(** A text without a backtick. *)
Fixpoint no_backtick (s : string) : bool :=
  match s with
  | EmptyString => true
  | String c s' => negb (Ascii.eqb c "`") && no_backtick s'
  end.

(** The five fields [enrich_batch] writes. *)
Definition enriched_keys : list string :=
  [ "segment"; "department"; "segment_confidence"; "department_confidence";
    "tags" ].

(** An element of what extraction returns that is an object holding every
    field of the stamp with the value the note's metadata gives it. *)
Definition carries_stamp {RT : Runtime} (metadata : Extract.MeetingMetadata)
    (item : json) : Prop :=
  ∃ d, item = JDict d
       ∧ ∀ k v, In (k, v) (Extract.stamp metadata) → dict_get k d = Some v.

(** An item whose quote is a string that is not blank. *)
Definition quoted (item : dict) : bool :=
  match dict_get "quote" item with
  | Some (JStr s) => negb (String.eqb (PyStr.strip s) "")
  | _ => false
  end.

(** The score of an item, for the items that have one. *)
Definition score (item : dict) : Z :=
  match Slack.quote_score item with
  | Ok z => z
  | Raise _ => 0%Z
  end.

(** The three text fields of the enrichment payload. *)
Definition text_fields : list string :=
  [ "description"; "use_case"; "raw_context" ].

(** An item that holds one of them with a value that is not a string. *)
Definition malformed_text (item : dict) : Prop :=
  ∃ field v, field ∈ text_fields ∧ dict_get field item = Some v
             ∧ is_str v = false.

(** ** Worked data for the further properties *)

Module RowExample.

(** An item that has no id yet, and the item and row [format_row] makes of
    it at the clock reading of [SyncExample.rt]. *)
Definition fresh_item : dict := [ ("title", JStr "Slow export") ].

Definition numbered_item : dict :=
  [ ("title", JStr "Slow export"); ("id", JStr "FB-20240301093000-42") ].

Definition numbered_row : list json :=
  [ JStr "FB-20240301093000-42"; JStr "Slow export"; JStr ""; JStr "Manual";
    JStr "New"; JStr "P3"; JStr "Other"; JStr "Other"; JStr ""; JStr "";
    JStr ""; JStr ""; JStr ""; JStr ""; JStr "N"; JStr ""; JStr "2024-03-01";
    JStr "2024-03-01"; JStr ""; JStr ""; JStr ""; JStr ""; JStr "Manual";
    JStr ""; JStr ""; JStr "" ].

End RowExample.

Module SelectExample.

(** Three candidates paired with (empty) rows: the second repeats a cell of
    column B up to case and blanks, the third has the text of the header
    cell as its title. *)
Definition pairs : list (dict * list json) :=
  [ (DedupeExample.titled "Slow export", []);
    (DedupeExample.titled " old REQUEST ", []);
    (DedupeExample.titled "title", []) ].

(** Column B: the header, a title, and a blank cell. *)
Definition column_b : list string := [ "Title"; "Old request"; "  " ].

End SelectExample.

Module NoteExample.

(** A loader that knows the frontmatter blocks of the worked notes: a
    mapping with a title, an empty block (which YAML reads as [None]), a
    block that is a plain scalar, and a date that no calendar has. *)
Definition yaml : Note.Yaml := {|
  Note.yaml_safe_load text :=
    if String.eqb text "title: Weekly sync"
    then Note.Loaded (JDict [("title", JStr "Weekly sync")])
    else if String.eqb text ""
    then Note.Loaded JNull
    else if String.eqb text "just a line"
    then Note.Loaded (JStr "just a line")
    else if String.eqb text "date: 2024-13-45"
    then Note.LoadRaised (Exn ValueError "month must be in 1..12")
    else Note.YAMLError;
|}.

Definition rt : Runtime := Example.runtime [("[]", JList [])].

Definition extractor : Extract.FeedbackExtractor :=
  {| Extract.client := Example.answers "[]";
     Extract.extraction_prompt := "Extract feedback." |}.

Definition titled_note : string :=
  Note.opening ++ "title: Weekly sync" ++ Note.closing ++ "Export is slow.".

Definition empty_block_note : string :=
  Note.opening ++ Note.closing ++ "Export is slow.".

End NoteExample.

Module FenceExample.

(** A reply that wraps its JSON in a fenced block, with a sentence before
    it and a newline behind it. *)
Definition lead : string := "Here is the result:" ++ Fence.nl.

Definition fenced_reply : string :=
  lead ++ Fence.ticks ++ "json" ++ Fence.nl ++ "[]" ++ Fence.nl ++ Fence.ticks
  ++ Fence.nl.

End FenceExample.

Module ValidExample.
Import Example.

(** The text {"segment": "Pharma", "department": "HEOR", "enriched_tags":
    [], "segment_confidence": 7, "department_confidence": "high",
    "note": "kept"}: both names are in the taxonomies; the confidences are
    not numbers between 0 and 1. *)
Definition reply_text : string :=
  "{" ++ EnrichExample.q "segment" ++ ": " ++ EnrichExample.q "Pharma" ++ ", "
  ++ EnrichExample.q "department" ++ ": " ++ EnrichExample.q "HEOR" ++ ", "
  ++ EnrichExample.q "enriched_tags" ++ ": [], "
  ++ EnrichExample.q "segment_confidence" ++ ": 7, "
  ++ EnrichExample.q "department_confidence" ++ ": "
  ++ EnrichExample.q "high" ++ ", "
  ++ EnrichExample.q "note" ++ ": " ++ EnrichExample.q "kept" ++ "}".

Definition parsed : dict :=
  [ ("segment", JStr "Pharma");
    ("department", JStr "HEOR");
    ("enriched_tags", JList []);
    ("segment_confidence", JNum (NInt 7));
    ("department_confidence", JStr "high");
    ("note", JStr "kept") ].

Definition rt : Runtime := runtime [ (reply_text, JDict parsed) ].

End ValidExample.

Module BatchExample.

(** A syncer with deduplication switched off. *)
Definition plain_syncer : Sync.FeedbackSheetsSync :=
  {| Sync.deduplicate := false |}.

(** A store that accepts the append, refuses the count of column A with a
    rate limit, and then accepts both. *)
Definition refused_count : list Sync.scripted :=
  [ Sync.Done; Sync.Fails SyncExample.rate_limit; Sync.Done;
    Sync.Column ["ID"; "FB-1"; "FB-1"] ].

(** An item whose title is missing. *)
Definition untitled_item : dict := [ ("id", JStr "FB-2") ].

(** The 26 cells of [SyncExample.item] when the clock reads the next day:
    the item carries no dates, so cells Q and R follow the clock. *)
Definition row_next_day : list json :=
  [ JStr "FB-1"; JStr "Slow export"; JStr ""; JStr "Manual"; JStr "New";
    JStr "P1"; JStr "Other"; JStr "Other"; JStr ""; JStr ""; JStr "";
    JStr ""; JStr ""; JStr ""; JStr "N"; JStr ""; JStr "2024-03-02";
    JStr "2024-03-02"; JStr ""; JStr ""; JStr ""; JStr ""; JStr "Manual";
    JStr ""; JStr ""; JStr "" ].

(** An item with two attendees, the first of whom has a comma in the
    name. *)
Definition attended_item : dict :=
  [ ("id", JStr "FB-3"); ("title", JStr "Slow export");
    ("attendees", JList [JStr "Smith, John"; JStr "Bob"]) ].

(** Its 26 cells: columns L and P hold [Smith], column S the names
    joined. *)
Definition attended_row : list json :=
  [ JStr "FB-3"; JStr "Slow export"; JStr ""; JStr "Manual"; JStr "New";
    JStr "P3"; JStr "Other"; JStr "Other"; JStr ""; JStr ""; JStr "";
    JStr "Smith"; JStr ""; JStr ""; JStr "N"; JStr "Smith";
    JStr "2024-03-01"; JStr "2024-03-01"; JStr "Smith, John, Bob"; JStr "";
    JStr ""; JStr ""; JStr "Manual"; JStr ""; JStr ""; JStr "" ].

End BatchExample.

Module SlackExample.

Definition quote_item (priority quote : string) : dict :=
  [ ("priority", JStr priority); ("quote", JStr quote) ].

(** Four items with a quote and one whose quote is blank. *)
Definition items : list dict :=
  [ quote_item "P3" "It is slow.";
    quote_item "P1" "Export fails.";
    quote_item "P2" " ";
    quote_item "P0" "We lose data.";
    quote_item "P1" "Export hangs." ].

End SlackExample.

Module MalformedExample.

(** An item as an oracle may leave it: the description is null. *)
Definition item : dict :=
  [ ("title", JStr "Slow export"); ("description", JNull) ].

End MalformedExample.

(** * Properties *)

(** ** Dictionaries and results *)

Lemma dict_get_set_eq (k : string) (v : json) (d : dict) :
  dict_get k (dict_set k v d) = Some v.
Proof.
  induction d as [|[k' v'] d IH]; simpl.
  - by rewrite String.eqb_refl.
  - destruct (String.eqb k k') eqn:E; simpl.
    + by rewrite String.eqb_refl.
    + by rewrite E.
Qed.

Lemma dict_get_set_ne (k k' : string) (v : json) (d : dict) :
  k ≠ k' → dict_get k' (dict_set k v d) = dict_get k' d.
Proof.
  intros Hne. induction d as [|[k0 v0] d IH]; simpl.
  - destruct (String.eqb k' k) eqn:E; [|done].
    apply String.eqb_eq in E. congruence.
  - destruct (String.eqb k k0) eqn:E; simpl.
    + apply String.eqb_eq in E. subst k0.
      destruct (String.eqb k' k) eqn:E'; [|done].
      apply String.eqb_eq in E'. congruence.
    + by rewrite IH.
Qed.

Lemma rmap_all_ok {A B} (f : A → result B) (g : A → B) (xs : list A) :
  (∀ x, x ∈ xs → f x = Ok (g x)) → rmap f xs = Ok (map g xs).
Proof.
  induction xs as [|x xs IH]; intros Hall; simpl; [done|].
  rewrite Hall by left. rewrite IH; [done|].
  intros y Hy. apply Hall. by right.
Qed.

Lemma rmap_raises {A B} (f : A → result B) (xs : list A) :
  (∃ x, x ∈ xs ∧ is_ok (f x) = false) → is_ok (rmap f xs) = false.
Proof.
  induction xs as [|x xs IH]; intros (y & Hy & Hf).
  - by apply elem_of_nil in Hy.
  - simpl. destruct (f x) eqn:Ex; [|done].
    apply elem_of_cons in Hy as [->|Hy].
    + by rewrite Ex in Hf.
    + assert (is_ok (rmap f xs) = false) as Hbad by (apply IH; eauto).
      by destruct (rmap f xs).
Qed.

(** ** Extraction: what a parsed array turns into *)

Section ExtractionProperties.
Context {RT : Runtime}.

Lemma stamp_all_dicts (metadata : Extract.MeetingMetadata) (items : list json) :
  forallb is_dict items = true →
  Extract.stamp_all metadata (JList items) = Ok (JList (map (stamped metadata) items)).
Proof.
  intros Hall. simpl.
  rewrite (rmap_all_ok _ (stamped metadata)); [done|].
  intros x Hx.
  assert (is_dict x = true) as Hd.
  { rewrite forallb_forall in Hall. apply Hall. by apply list_elem_of_In. }
  by destruct x.
Qed.

Lemma forallb_false_elem {A} (p : A → bool) (xs : list A) :
  forallb p xs = false → ∃ x, x ∈ xs ∧ p x = false.
Proof.
  induction xs as [|x xs IH]; simpl; [done|].
  destruct (p x) eqn:Ex; simpl.
  - intros Hrest. destruct (IH Hrest) as (y & Hy & Hp).
    exists y. split; [by right|done].
  - intros _. exists x. split; [by left|done].
Qed.

Lemma stamp_all_non_dict (metadata : Extract.MeetingMetadata) (items : list json) :
  forallb is_dict items = false →
  is_ok (Extract.stamp_all metadata (JList items)) = false.
Proof.
  intros Hsome. simpl.
  assert (is_ok (rmap (Extract.stamp_item metadata) items) = false) as Hbad.
  { apply rmap_raises.
    destruct (forallb_false_elem _ _ Hsome) as (x & Hx & Hnd).
    exists x. split; [done|]. by destruct x. }
  by destruct (rmap (Extract.stamp_item metadata) items).
Qed.

(** C1, as amended: extraction validates no required field. When the
    oracle's output parses to a JSON array, the whole output is discarded
    (the empty sequence is returned, never a part of the array) exactly
    when some element is not a JSON object; an array of objects is returned
    whole, every element stamped with the note's metadata, whichever fields
    the elements have or lack. *)
Theorem extract_discards_only_non_objects
    (self : Extract.FeedbackExtractor) (note_content : string)
    (metadata : Extract.MeetingMetadata) (prompt text : string)
    (items : list json) :
  Extract.user_prompt note_content metadata = Ok prompt →
  Extract.client self (Extract.extraction_prompt self) prompt = Replied text →
  json_loads (Fence.json_text text) = inr (JList items) →
  Extract.extract_feedback_with_claude self note_content metadata
  = Ok (JList (if forallb is_dict items
               then map (stamped metadata) items else [])).
Proof.
  intros Hprompt Hreply Hparse.
  unfold Extract.extract_feedback_with_claude.
  rewrite Hprompt. cbn [mbind result_bind rbind].
  rewrite Hreply, Hparse.
  destruct (forallb is_dict items) eqn:Hall.
  - by rewrite stamp_all_dicts.
  - pose proof (stamp_all_non_dict metadata items Hall) as Hbad.
    by destruct (Extract.stamp_all metadata (JList items)).
Qed.

End ExtractionProperties.

(** The amended statement at the worked reply: both objects come back. *)
Lemma extract_discards_only_non_objects_witness :
  Extract.extract_feedback_with_claude (RT:=ExtractExample.rt)
    ExtractExample.extractor ExtractExample.note_body ExtractExample.metadata
  = Ok (JList [ JDict (ExtractExample.complete_item ++ ExtractExample.stamp_fields);
                JDict (ExtractExample.incomplete_item ++ ExtractExample.stamp_fields) ]).
Proof.
  pose proof (extract_discards_only_non_objects (RT:=ExtractExample.rt)
                ExtractExample.extractor ExtractExample.note_body
                ExtractExample.metadata _ ExtractExample.reply_text
                [JDict ExtractExample.complete_item;
                 JDict ExtractExample.incomplete_item]
                eq_refl eq_refl ltac:(vm_compute; reflexivity)) as Hrun.
  rewrite Hrun. vm_compute. reflexivity.
Defined.

(** C1, as stated, fails: the oracle's reply parses to an array whose second
    element has none of [title], [category], [priority], [description],
    [use_case], [impact], [raw_context], and extraction still returns both
    elements instead of the empty sequence. *)
Lemma extract_keeps_elements_missing_required_fields :
  @json_loads ExtractExample.rt (Fence.json_text ExtractExample.reply_text)
  = inr (JList [JDict ExtractExample.complete_item;
                JDict ExtractExample.incomplete_item])
  ∧ lacks_required_field (JDict ExtractExample.incomplete_item)
  ∧ Extract.extract_feedback_with_claude (RT:=ExtractExample.rt)
      ExtractExample.extractor ExtractExample.note_body ExtractExample.metadata
    = Ok (JList [ JDict (ExtractExample.complete_item ++ ExtractExample.stamp_fields);
                  JDict (ExtractExample.incomplete_item ++ ExtractExample.stamp_fields) ])
  ∧ Extract.extract_feedback_with_claude (RT:=ExtractExample.rt)
      ExtractExample.extractor ExtractExample.note_body ExtractExample.metadata
    ≠ Ok (JList []).
Proof.
  split; [vm_compute; reflexivity|].
  split; [exists "title"; split; [set_solver|reflexivity]|].
  split; [vm_compute; reflexivity|].
  vm_compute. discriminate.
Qed.

(** ** Extraction: attendees of a note *)

Section AttendeeProperties.
Context {RT : Runtime}.

(** What extraction derives from a string: every piece between commas,
    trimmed, the empty ones included. *)
Lemma derive_attendees_of_string (frontmatter : dict) (s : string) :
  dict_get "attendees" frontmatter = Some (JStr s) →
  Extract.derive_attendees frontmatter
  = JList (map JStr (map PyStr.strip (PyStr.split "," s))).
Proof.
  intros Hget. unfold Extract.derive_attendees, dict_get_default.
  by rewrite Hget.
Qed.

(** Dropping the empty entries of extraction's list gives the list
    enrichment derives from the same string (enrich_metadata.py, line
    166). *)
Lemma split_strip_nonempty_filters (s : string) :
  split_strip_nonempty s = filter (λ a, a ≠ "") (split_strip s).
Proof. reflexivity. Qed.

End AttendeeProperties.

(** C9: the attendee list of a note whose frontmatter gives
    [attendees: "Alice, Bob,"] is the comma-split with each entry trimmed,
    but the empty entry behind the trailing comma is kept, where the claim
    has it dropped (and where enrichment, splitting the same string, drops
    it). *)
Lemma derive_attendees_keeps_empty_entries :
  Extract.attendees
     (Extract.extract_meeting_metadata (RT:=Example.runtime [])
        [("attendees", JStr "Alice, Bob,")] None)
  = JList [JStr "Alice"; JStr "Bob"; JStr ""]
  ∧ split_strip_nonempty "Alice, Bob," = ["Alice"; "Bob"].
Proof. split; vm_compute; reflexivity. Qed.

(** ** Batch sync: the empty batch *)

(** C10: batch sync of an empty list of items returns synced = 0,
    skipped = 0 and no rows, and leaves the world as it found it: no call
    reaches the worksheet (no title fetch, no append, no row count) and
    nothing is slept. *)
Theorem batch_append_empty {RT : Runtime} {Sheet : Type}
    {WS : Sync.Worksheet Sheet} {CL : Sync.Clock}
    (depth : nat) (self : Sync.FeedbackSheetsSync) (batch_size : nat)
    (w : Sync.world Sheet) :
  Sync.batch_append (S depth) self [] batch_size w
  = (Ok {| Sync.synced := 0; Sync.skipped := 0; Sync.rows := [] |}, w).
Proof. reflexivity. Qed.

(** ** Enrichment: classification of one item *)

Ltac dict_simpl :=
  repeat first [ rewrite dict_get_set_eq
               | rewrite dict_get_set_ne by discriminate ].

Section EnrichmentProperties.
Context {RT : Runtime}.




Lemma enrich_feedback_item_classifies (self : Enrich.FeedbackEnricher)
    (feedback_item : dict) (prompt : string) :
  Enrich.user_prompt feedback_item = Ok prompt →
  Enrich.enrich_feedback_item self feedback_item false
  = Enrich.classify self prompt.
Proof. intros Hp. unfold Enrich.enrich_feedback_item. by rewrite Hp. Qed.

(** The one failure of the chain that is not turned into a fallback: when
    the call itself raises a [json.JSONDecodeError], the handler of lines
    237-248 raises in turn, and that error leaves [enrich_feedback_item]. *)
Lemma enrich_feedback_item_decode_error (self : Enrich.FeedbackEnricher)
    (feedback_item : dict) (prompt msg : string) :
  Enrich.user_prompt feedback_item = Ok prompt →
  Enrich.client self (Enrich.enrichment_prompt self) prompt
  = RaisedDecodeError msg →
  Enrich.enrich_feedback_item self feedback_item false
  = Raise unbound_response_text.
Proof.
  intros Hp Hcall. rewrite (enrich_feedback_item_classifies _ _ _ Hp).
  unfold Enrich.classify. by rewrite Hcall.
Qed.


Lemma in_taxonomy_member (keys : list string) (v : json) (b : bool) :
  Enrich.in_taxonomy keys v = Ok b →
  if b then taxonomy_member keys (Some v) else ¬ taxonomy_member keys (Some v).
Proof.
  destruct v; simpl; try discriminate; intros [= <-];
    try (intros (name & [= ?] & _); discriminate).
  case_bool_decide as Hin.
  - by exists s.
  - intros (name & [= <-] & Hname). done.
Qed.

(** One taxonomy check: the value is kept when it is a member, and
    otherwise the field becomes ["Other"] and its confidence [0.0]. *)
Lemma force_member_ok (keys : list string) (field confidence : string)
    (d d1 : dict) :
  Enrich.force_member keys field confidence d = Ok d1 →
  (taxonomy_member keys (dict_get field d) ∧ d1 = d)
  ∨ (¬ taxonomy_member keys (dict_get field d)
     ∧ d1 = dict_set confidence Enrich.zero (dict_set field (JStr "Other") d)).
Proof.
  unfold Enrich.force_member, Enrich.getitem.
  destruct (dict_get field d) as [v|] eqn:Hv; [|done].
  cbn [mbind result_bind rbind].
  destruct (Enrich.in_taxonomy keys v) as [b|] eqn:Hb; [|done].
  apply in_taxonomy_member in Hb.
  cbn [mbind result_bind rbind].
  destruct b; intros [= <-]; [by left|by right].
Qed.

Lemma validate_ok (self : Enrich.FeedbackEnricher) (enrichment : json) (d' : dict) :
  Enrich.validate self enrichment = Ok d' →
  ∃ d d1,
    enrichment = JDict d
    ∧ Enrich.force_member (Enrich.segments self) "segment" "segment_confidence" d
      = Ok d1
    ∧ Enrich.force_member (Enrich.departments self) "department"
        "department_confidence" d1 = Ok d'.
Proof.
  unfold Enrich.validate.
  destruct (Enrich.check_required Enrich.required_fields enrichment); [|done].
  cbn [mbind result_bind rbind].
  destruct enrichment as [| | | |l|d]; try done.
  simpl.
  destruct (Enrich.force_member (Enrich.segments self) "segment"
              "segment_confidence" d) as [d1|] eqn:H1; [|done].
  cbn [mbind result_bind rbind]. intros H2. by exists d, d1.
Qed.

(** What a validated result holds in its two classification fields. *)
Lemma validate_fields (self : Enrich.FeedbackEnricher) (d d' : dict) :
  Enrich.validate self (JDict d) = Ok d' →
  (taxonomy_member (Enrich.segments self) (dict_get "segment" d) →
     dict_get "segment" d' = dict_get "segment" d)
  ∧ (¬ taxonomy_member (Enrich.segments self) (dict_get "segment" d) →
       dict_get "segment" d' = Some (JStr "Other")
       ∧ dict_get "segment_confidence" d' = Some Enrich.zero)
  ∧ (taxonomy_member (Enrich.departments self) (dict_get "department" d) →
       dict_get "department" d' = dict_get "department" d)
  ∧ (¬ taxonomy_member (Enrich.departments self) (dict_get "department" d) →
       dict_get "department" d' = Some (JStr "Other")
       ∧ dict_get "department_confidence" d' = Some Enrich.zero).
Proof.
  intros Hv. apply validate_ok in Hv as (d0 & d1 & [= <-] & Hseg & Hdep).
  apply force_member_ok in Hseg as [[Hs ->]|[Hs ->]];
    apply force_member_ok in Hdep as [[Hd ->]|[Hd ->]].
  all: revert Hd; dict_simpl; intros Hd.
  all: split_and!; intros Hyp; dict_simpl; done.
Qed.

(** C6: when the segment of the parsed enrichment is not a name of the
    segment taxonomy, the result returned by [enrich_feedback_item] has
    segment ["Other"] and segment_confidence [0.0], whatever confidence the
    oracle reported; the same holds of department and
    department_confidence against the department taxonomy. *)
Theorem invalid_classification_forced_to_other (self : Enrich.FeedbackEnricher)
    (feedback_item : dict) (prompt text : string) (enrichment : json) :
  Enrich.user_prompt feedback_item = Ok prompt →
  Enrich.client self (Enrich.enrichment_prompt self) prompt = Replied text →
  json_loads (Fence.json_text text) = inr enrichment →
  ∃ result,
    Enrich.enrich_feedback_item self feedback_item false = Ok result
    ∧ (¬ taxonomy_member (Enrich.segments self) (parsed_field "segment" enrichment) →
         dict_get "segment" result = Some (JStr "Other")
         ∧ dict_get "segment_confidence" result = Some (JNum (NFloat 0%float)))
    ∧ (¬ taxonomy_member (Enrich.departments self)
           (parsed_field "department" enrichment) →
         dict_get "department" result = Some (JStr "Other")
         ∧ dict_get "department_confidence" result = Some (JNum (NFloat 0%float))).
Proof.
  intros Hp Hreply Hparse.
  rewrite (enrich_feedback_item_classifies _ _ _ Hp).
  unfold Enrich.classify. rewrite Hreply, Hparse.
  destruct (Enrich.validate self enrichment) as [d'|e] eqn:Hv.
  - exists d'. split; [done|].
    destruct (validate_ok _ _ _ Hv) as (d & d1 & -> & _ & _).
    apply validate_fields in Hv as (_ & Hs & _ & Hd).
    simpl. split; [apply Hs|apply Hd].
  - eexists. split; [done|]. split; intros _; done.
Qed.

End EnrichmentProperties.

(** ** Enrichment: applying a result to an item *)

Section ApplyProperties.
Context {RT : Runtime}.

Lemma below_half_lt_half (c : json) : below_half c → Enrich.lt_half c = Ok true.
Proof.
  destruct c as [| |[z|f]| | |]; simpl; try done.
  - intros Hz. f_equal. by apply Z.leb_le.
  - by intros ->.
Qed.

(** A result of [enrich_feedback_item] names a member of each taxonomy or
    ["Other"]. *)
Lemma validate_in_vocabulary (self : Enrich.FeedbackEnricher)
    (enrichment : json) (d' : dict) :
  Enrich.validate self enrichment = Ok d' →
  (taxonomy_member (Enrich.segments self) (dict_get "segment" d')
   ∨ dict_get "segment" d' = Some (JStr "Other"))
  ∧ (taxonomy_member (Enrich.departments self) (dict_get "department" d')
     ∨ dict_get "department" d' = Some (JStr "Other")).
Proof.
  intros Hv. apply validate_ok in Hv as (d & d1 & -> & Hseg & Hdep).
  apply force_member_ok in Hseg as [[Hs ->]|[Hs ->]];
    apply force_member_ok in Hdep as [[Hd ->]|[Hd ->]].
  all: revert Hd; dict_simpl; intros Hd.
  all: split; dict_simpl; auto.
Qed.

Lemma classify_in_vocabulary (self : Enrich.FeedbackEnricher) (prompt : string)
    (enrichment : dict) :
  Enrich.classify self prompt = Ok enrichment →
  (taxonomy_member (Enrich.segments self) (dict_get "segment" enrichment)
   ∨ dict_get "segment" enrichment = Some (JStr "Other"))
  ∧ (taxonomy_member (Enrich.departments self) (dict_get "department" enrichment)
     ∨ dict_get "department" enrichment = Some (JStr "Other")).
Proof.
  unfold Enrich.classify.
  destruct (Enrich.client self _ prompt) as [text|msg|msg];
    [|by intros [= <-]; split; right|done].
  destruct (json_loads _) as [[msg|msg]|parsed];
    [by intros [= <-]; split; right..|].
  destruct (Enrich.validate self parsed) as [d'|e] eqn:Hv;
    intros [= <-]; [|by split; right].
  by apply validate_in_vocabulary in Hv.
Qed.

Lemma enrich_feedback_item_in_vocabulary (self : Enrich.FeedbackEnricher)
    (feedback_item : dict) (dry_run : bool) (enrichment : dict) :
  Enrich.enrich_feedback_item self feedback_item dry_run = Ok enrichment →
  (taxonomy_member (Enrich.segments self) (dict_get "segment" enrichment)
   ∨ dict_get "segment" enrichment = Some (JStr "Other"))
  ∧ (taxonomy_member (Enrich.departments self) (dict_get "department" enrichment)
     ∨ dict_get "department" enrichment = Some (JStr "Other")).
Proof.
  unfold Enrich.enrich_feedback_item.
  destruct (Enrich.user_prompt feedback_item) as [prompt|]; [|done].
  cbn [mbind result_bind rbind].
  destruct dry_run.
  - intros [= <-]. by split; right.
  - apply classify_in_vocabulary.
Qed.

Lemma getitem_ok (k : string) (d : dict) (v : json) :
  Enrich.getitem k d = Ok v → dict_get k d = Some v.
Proof. unfold Enrich.getitem. destruct (dict_get k d); by intros [= <-]. Qed.

Lemma floor_field_ok (field : string) (confidence : json) (item item' : dict) :
  Enrich.floor_field field confidence item = Ok item' →
  ∃ low, Enrich.lt_half confidence = Ok low
         ∧ item' = if low then dict_set field (JStr "Uncertain") item else item.
Proof.
  unfold Enrich.floor_field.
  destruct (Enrich.lt_half confidence) as [low|]; [|done].
  cbn [mbind result_bind rbind]. intros [= <-]. by exists low.
Qed.

Lemma merge_tags_ok (enrichment item item' : dict) :
  Enrich.merge_tags enrichment item = Ok item' →
  ∃ existing enriched merged,
    Enrich.existing_tags item = JList existing
    ∧ dict_get "enriched_tags" enrichment = Some (JList enriched)
    ∧ Enrich.list_of_set (existing ++ enriched)%list = Ok merged
    ∧ item' = dict_set "tags" (JList merged) item.
Proof.
  unfold Enrich.merge_tags.
  destruct (Enrich.getitem "enriched_tags" enrichment) as [e|] eqn:He; [|done].
  apply getitem_ok in He.
  cbn [mbind result_bind rbind].
  destruct (Enrich.concat_lists (Enrich.existing_tags item) e) as [both|] eqn:Hc;
    [|done].
  cbn [mbind result_bind rbind].
  destruct (Enrich.list_of_set both) as [merged|] eqn:Hm; [|done].
  cbn [mbind result_bind rbind]. intros [= <-].
  unfold Enrich.concat_lists in Hc.
  destruct (Enrich.existing_tags item) as [| | | |existing|]; try done;
    destruct e as [| | | |enriched|]; try done.
  injection Hc as <-. by exists existing, enriched, merged.
Qed.

Lemma existing_tags_set (k : string) (v : json) (item : dict) :
  k ≠ "tags" →
  Enrich.existing_tags (dict_set k v item) = Enrich.existing_tags item.
Proof.
  intros Hk. unfold Enrich.existing_tags, dict_get_default.
  by rewrite dict_get_set_ne.
Qed.

(** The item as [apply_enrichment] leaves it: the four classification
    fields of the result, the two names possibly replaced by
    ["Uncertain"], and the merged tags. *)
Lemma apply_enrichment_ok (enrichment : dict) (skip_low_confidence : bool)
    (item item' : dict) :
  Enrich.apply_enrichment enrichment skip_low_confidence item = Ok item' →
  ∃ segment department sc dc existing enriched merged,
    dict_get "segment" enrichment = Some segment
    ∧ dict_get "department" enrichment = Some department
    ∧ dict_get "segment_confidence" item' = Some sc
    ∧ dict_get "department_confidence" item' = Some dc
    ∧ dict_get "segment_confidence" enrichment = Some sc
    ∧ dict_get "department_confidence" enrichment = Some dc
    ∧ (if skip_low_confidence
       then ∃ ls ld,
           Enrich.lt_half sc = Ok ls ∧ Enrich.lt_half dc = Ok ld
           ∧ dict_get "segment" item'
             = Some (if ls then JStr "Uncertain" else segment)
           ∧ dict_get "department" item'
             = Some (if ld then JStr "Uncertain" else department)
       else dict_get "segment" item' = Some segment
            ∧ dict_get "department" item' = Some department)
    ∧ Enrich.existing_tags item = JList existing
    ∧ dict_get "enriched_tags" enrichment = Some (JList enriched)
    ∧ Enrich.list_of_set (existing ++ enriched)%list = Ok merged
    ∧ dict_get "tags" item' = Some (JList merged).
Proof.
  unfold Enrich.apply_enrichment.
  destruct (Enrich.getitem "segment" enrichment) as [segment|] eqn:H1; [|done].
  destruct (Enrich.getitem "department" enrichment) as [department|] eqn:H2;
    [|done].
  destruct (Enrich.getitem "segment_confidence" enrichment) as [sc|] eqn:H3;
    [|done].
  destruct (Enrich.getitem "department_confidence" enrichment) as [dc|] eqn:H4;
    [|done].
  apply getitem_ok in H1, H2, H3, H4.
  cbn [mbind result_bind rbind].
  set (item4 := dict_set "department_confidence" dc _).
  destruct skip_low_confidence.
  - destruct (Enrich.floor_field "segment" sc item4) as [item5|] eqn:H5; [|done].
    cbn [mbind result_bind rbind].
    destruct (Enrich.floor_field "department" dc item5) as [item6|] eqn:H6;
      [|done].
    cbn [mbind result_bind rbind]. intros Hm.
    apply floor_field_ok in H5 as (ls & Hls & ->).
    apply floor_field_ok in H6 as (ld & Hld & ->).
    apply merge_tags_ok in Hm as (existing & enriched & merged & He & Hn & Hs & ->).
    exists segment, department, sc, dc, existing, enriched, merged.
    subst item4.
    split_and!; try done.
    + destruct ls, ld; by dict_simpl.
    + destruct ls, ld; by dict_simpl.
    + exists ls, ld. destruct ls, ld; by dict_simpl.
    + revert He. destruct ls, ld; by rewrite !existing_tags_set by discriminate.
    + by dict_simpl.
  - cbn [mbind result_bind rbind]. intros Hm.
    apply merge_tags_ok in Hm as (existing & enriched & merged & He & Hn & Hs & ->).
    exists segment, department, sc, dc, existing, enriched, merged.
    subst item4.
    split_and!; try done; try by dict_simpl.
    revert He. by rewrite !existing_tags_set by discriminate.
Qed.

(** C5: after enrichment has been applied to an item, the item's segment is
    a name of the segment taxonomy or one of the sentinels ["Other"] and
    ["Uncertain"], and its department likewise against the department
    taxonomy; and with the confidence floor enabled, a field whose
    classification confidence is below 0.5 holds ["Uncertain"], whatever
    value was classified. *)
Theorem enriched_classification_in_vocabulary (self : Enrich.FeedbackEnricher)
    (dry_run skip_low_confidence : bool) (item item' : dict) :
  Enrich.enrich_one self dry_run skip_low_confidence item = Ok item' →
  member_or_sentinel (Enrich.segments self) (dict_get "segment" item')
  ∧ member_or_sentinel (Enrich.departments self) (dict_get "department" item')
  ∧ (skip_low_confidence = true →
     ∀ c, dict_get "segment_confidence" item' = Some c → below_half c →
          dict_get "segment" item' = Some (JStr "Uncertain"))
  ∧ (skip_low_confidence = true →
     ∀ c, dict_get "department_confidence" item' = Some c → below_half c →
          dict_get "department" item' = Some (JStr "Uncertain")).
Proof.
  unfold Enrich.enrich_one.
  destruct (Enrich.title_preview item); [|done].
  cbn [mbind result_bind rbind].
  destruct (Enrich.enrich_feedback_item self item dry_run) as [enrichment|] eqn:He;
    [|done].
  cbn [mbind result_bind rbind]. intros Ha.
  apply enrich_feedback_item_in_vocabulary in He as [Hseg Hdep].
  apply apply_enrichment_ok in Ha
    as (segment & department & sc & dc & existing & enriched & merged
        & Hs & Hd & Hsc & Hdc & _ & _ & Hfloor & _).
  rewrite Hs in Hseg. rewrite Hd in Hdep.
  assert (member_or_sentinel (Enrich.segments self) (Some segment)) as Hseg'.
  { destruct Hseg as [(name & Hn & Hin)|Hn]; injection Hn as ->; eexists; eauto. }
  assert (member_or_sentinel (Enrich.departments self) (Some department)) as Hdep'.
  { destruct Hdep as [(name & Hn & Hin)|Hn]; injection Hn as ->; eexists; eauto. }
  destruct skip_low_confidence.
  - destruct Hfloor as (ls & ld & Hls & Hld & -> & ->).
    split_and!.
    + destruct ls; [eexists; eauto|done].
    + destruct ld; [eexists; eauto|done].
    + intros _ c Hc Hlow. rewrite Hsc in Hc. injection Hc as <-.
      apply below_half_lt_half in Hlow. rewrite Hlow in Hls.
      by injection Hls as <-.
    + intros _ c Hc Hlow. rewrite Hdc in Hc. injection Hc as <-.
      apply below_half_lt_half in Hlow. rewrite Hlow in Hld.
      by injection Hld as <-.
  - destruct Hfloor as [-> ->]. split_and!; done.
Qed.

(** *** The merged tags *)

Lemma set_add_all_length (seen xs : list json) :
  (length (Enrich.set_add_all seen xs) ≤ length seen + length xs)%nat.
Proof.
  revert seen. induction xs as [|x xs IH]; intros seen; simpl; [lia|].
  destruct (existsb (hash_eq x) seen).
  - specialize (IH seen). lia.
  - specialize (IH (seen ++ [x])%list). rewrite length_app in IH. simpl in IH. lia.
Qed.

Lemma set_add_all_sound (seen xs : list json) (x : json) :
  x ∈ Enrich.set_add_all seen xs → x ∈ seen ∨ x ∈ xs.
Proof.
  revert seen. induction xs as [|y xs IH]; intros seen; simpl; [auto|].
  destruct (existsb (hash_eq y) seen); intros Hx; apply IH in Hx.
  - destruct Hx; [by left|right; by right].
  - destruct Hx as [Hx|Hx]; [|right; by right].
    apply elem_of_app in Hx as [Hx|Hx]; [by left|].
    apply list_elem_of_singleton in Hx as ->. right. by left.
Qed.

Lemma set_add_all_keeps_seen (seen xs : list json) (x : json) :
  x ∈ seen → x ∈ Enrich.set_add_all seen xs.
Proof.
  revert seen. induction xs as [|y xs IH]; intros seen Hx; simpl; [done|].
  destruct (existsb (hash_eq y) seen); apply IH; [done|].
  apply elem_of_app. by left.
Qed.

Lemma hash_eq_str (s : string) (y : json) :
  hash_eq (JStr s) y = true → y = JStr s.
Proof.
  destruct y as [| |n|t| |]; simpl; try done.
  intros Heq. apply String.eqb_eq in Heq. by subst.
Qed.

Lemma existsb_hash_eq_str (s : string) (seen : list json) :
  existsb (hash_eq (JStr s)) seen = true ↔ JStr s ∈ seen.
Proof.
  rewrite existsb_exists. split.
  - intros (y & Hy & Heq). apply hash_eq_str in Heq as ->.
    by apply list_elem_of_In.
  - intros Hin. exists (JStr s). split; [by apply list_elem_of_In|].
    simpl. apply String.eqb_refl.
Qed.

Lemma set_add_all_complete_str (seen xs : list json) (s : string) :
  JStr s ∈ xs → JStr s ∈ Enrich.set_add_all seen xs.
Proof.
  revert seen. induction xs as [|y xs IH]; intros seen Hin; simpl.
  - by apply elem_of_nil in Hin.
  - apply elem_of_cons in Hin as [<-|Hin].
    + destruct (existsb (hash_eq (JStr s)) seen) eqn:Hseen.
      * apply set_add_all_keeps_seen. by apply existsb_hash_eq_str.
      * apply set_add_all_keeps_seen. apply elem_of_app. right. by left.
    + destruct (existsb (hash_eq y) seen); by apply IH.
Qed.

Lemma set_add_all_NoDup_str (seen xs : list json) :
  forallb is_str xs = true → NoDup seen → NoDup (Enrich.set_add_all seen xs).
Proof.
  revert seen. induction xs as [|y xs IH]; intros seen Hstr Hnd; simpl; [done|].
  simpl in Hstr. apply andb_prop in Hstr as [Hy Hxs].
  destruct y as [| | |s| |]; try done.
  destruct (existsb (hash_eq (JStr s)) seen) eqn:Hseen; [by apply IH|].
  apply IH; [done|].
  apply NoDup_app. split_and!; [done| |apply NoDup_singleton].
  intros x Hx Hx'. apply list_elem_of_singleton in Hx' as ->.
  apply existsb_hash_eq_str in Hx. congruence.
Qed.

Lemma list_of_set_ok (xs merged : list json) :
  Enrich.list_of_set xs = Ok merged → merged = Enrich.set_add_all [] xs.
Proof.
  unfold Enrich.list_of_set. destruct (find _ xs); [done|]. by intros [= <-].
Qed.

(** C7, as amended: the tag merge leaves in the item's [tags] the union of
    the item's existing tags and the result's tags with duplicates collapsed
    and nothing else (no cap of 10 is applied): every merged tag comes from
    one of the two collections, every string tag of either is among the
    merged ones, the merged tags are no more than the two collections hold
    together, and when all tags are strings none is repeated. *)
Theorem merged_tags_are_the_union (enrichment : dict)
    (skip_low_confidence : bool) (item item' : dict) :
  Enrich.apply_enrichment enrichment skip_low_confidence item = Ok item' →
  ∃ existing enriched merged,
    Enrich.existing_tags item = JList existing
    ∧ dict_get "enriched_tags" enrichment = Some (JList enriched)
    ∧ dict_get "tags" item' = Some (JList merged)
    ∧ (length merged ≤ length existing + length enriched)%nat
    ∧ (∀ tag, tag ∈ merged → tag ∈ existing ∨ tag ∈ enriched)
    ∧ (∀ s, JStr s ∈ existing ∨ JStr s ∈ enriched → JStr s ∈ merged)
    ∧ (forallb is_str (existing ++ enriched)%list = true → NoDup merged).
Proof.
  intros Ha.
  apply apply_enrichment_ok in Ha
    as (segment & department & sc & dc & existing & enriched & merged
        & _ & _ & _ & _ & _ & _ & _ & He & Hn & Hs & Ht).
  apply list_of_set_ok in Hs. subst merged.
  exists existing, enriched, (Enrich.set_add_all [] (existing ++ enriched)%list).
  split_and!; try done.
  - pose proof (set_add_all_length [] (existing ++ enriched)%list) as Hl.
    rewrite length_app in Hl. simpl in Hl. lia.
  - intros tag Htag. apply set_add_all_sound in Htag as [Htag|Htag].
    + by apply elem_of_nil in Htag.
    + by apply elem_of_app in Htag.
  - intros s Hs. apply set_add_all_complete_str. by apply elem_of_app.
  - intros Hstr. apply set_add_all_NoDup_str; [done|apply NoDup_nil_2].
Qed.

End ApplyProperties.

(** *** Worked runs of the enrichment engine *)


(** C2 fails on one failure of the chain: an oracle call that raises a
    [json.JSONDecodeError]. The handler written for that exception (lines
    237-248) prints [response_text], which is not bound before the call
    has returned, so the handler raises an [UnboundLocalError] and that
    error reaches the caller of [enrich_feedback_item]. The handler next
    to it (lines 250-260) shows what was meant: the same call failing with
    any other exception, the same message included, gives the fallback
    result. *)
Lemma enrich_propagates_decode_error_of_the_call :
  Enrich.enrich_feedback_item (RT:=EnrichExample.rt)
    (EnrichExample.enricher
       (Example.undecodable "Expecting value: line 1 column 1 (char 0)"))
    EnrichExample.item false
  = Raise unbound_response_text
  ∧ Enrich.enrich_feedback_item (RT:=EnrichExample.rt)
      (EnrichExample.enricher
         (Example.unreachable "Expecting value: line 1 column 1 (char 0)"))
      EnrichExample.item false
    = Ok (Enrich.fallback "Error: Expecting value: line 1 column 1 (char 0)").
Proof. split; vm_compute; reflexivity. Qed.

(** C6 at the specification's scenario: the oracle names the segment
    ["NotARealSegment"] with confidence 0.9. *)
Lemma invalid_classification_forced_to_other_witness :
  ∃ result,
    Enrich.enrich_feedback_item (RT:=EnrichExample.rt)
      (EnrichExample.enricher (Example.answers EnrichExample.reply_text))
      EnrichExample.item false = Ok result
    ∧ dict_get "segment" result = Some (JStr "Other")
    ∧ dict_get "segment_confidence" result = Some (JNum (NFloat 0%float)).
Proof.
  destruct (invalid_classification_forced_to_other (RT:=EnrichExample.rt)
              (EnrichExample.enricher (Example.answers EnrichExample.reply_text))
              EnrichExample.item EnrichExample.prompt EnrichExample.reply_text
              EnrichExample.parsed eq_refl eq_refl
              ltac:(vm_compute; reflexivity))
    as (result & Hrun & Hseg & _).
  exists result. split; [exact Hrun|].
  apply Hseg. intros (name & Hname & Hin). simpl in Hname.
  injection Hname as <-.
  repeat (apply elem_of_cons in Hin as [Hin|Hin]; [discriminate|]).
  by apply elem_of_nil in Hin.
Defined.

(** C5 at the specification's scenario: with the confidence floor enabled
    and a department confidence of 0.3, the department becomes
    ["Uncertain"]. *)
Lemma enriched_classification_in_vocabulary_witness :
  Enrich.enrich_one (RT:=EnrichExample.rt)
    (EnrichExample.enricher (Example.answers EnrichExample.reply_text))
    false true EnrichExample.item
  = Ok (EnrichExample.enriched_item "Uncertain" "Uncertain")
  ∧ member_or_sentinel ["Pharma"; "Biotech"; "Payor"] (Some (JStr "Uncertain"))
  ∧ (below_half (JNum (NFloat EnrichExample.f03)) →
     dict_get "department" (EnrichExample.enriched_item "Uncertain" "Uncertain")
     = Some (JStr "Uncertain")).
Proof.
  assert (Enrich.enrich_one (RT:=EnrichExample.rt)
            (EnrichExample.enricher (Example.answers EnrichExample.reply_text))
            false true EnrichExample.item
          = Ok (EnrichExample.enriched_item "Uncertain" "Uncertain")) as Hrun
    by (vm_compute; reflexivity).
  destruct (enriched_classification_in_vocabulary (RT:=EnrichExample.rt)
              _ _ _ _ _ Hrun) as (Hseg & _ & _ & Hdep).
  split; [exact Hrun|]. split; [exact Hseg|].
  intros Hlow. exact (Hdep eq_refl _ eq_refl Hlow).
Defined.

(** C7 at the worked item: the amended statement gives the eleven merged
    tags. *)
Lemma merged_tags_are_the_union_witness :
  dict_get "tags" (EnrichExample.enriched_item "Other" "HEOR")
  = Some (JList EnrichExample.merged_tags)
  ∧ (length EnrichExample.merged_tags ≤ 6 + 6)%nat
  ∧ NoDup EnrichExample.merged_tags.
Proof.
  assert (Enrich.apply_enrichment (RT:=EnrichExample.rt)
            [ ("segment", JStr "Other"); ("department", JStr "HEOR");
              ("enriched_tags",
               JList [ JStr "real-world-data"; JStr "cohort-analysis";
                       JStr "depression"; JStr "time-series"; JStr "export";
                       JStr "safety-monitoring" ]);
              ("segment_confidence", JNum (NFloat 0%float));
              ("department_confidence", JNum (NFloat EnrichExample.f03));
              ("reasoning", JStr "guess") ]
            false EnrichExample.item
          = Ok (EnrichExample.enriched_item "Other" "HEOR")) as Hrun
    by (vm_compute; reflexivity).
  destruct (merged_tags_are_the_union (RT:=EnrichExample.rt) _ _ _ _ Hrun)
    as (existing & enriched & merged & He & Hn & Ht & Hlen & _ & _ & Hnd).
  injection He as <-. injection Hn as <-. injection Ht as <-.
  split; [reflexivity|]. split; [exact Hlen|].
  apply Hnd. reflexivity.
Defined.

(** C7, as stated, fails: an item that carries six tags is enriched with a
    result of six tags, one of them already on the item, and ends up with
    eleven tags. *)
Lemma merged_tags_exceed_ten :
  Enrich.enrich_batch (RT:=EnrichExample.rt)
    (EnrichExample.enricher (Example.answers EnrichExample.reply_text))
    [EnrichExample.item] false false
  = Ok [EnrichExample.enriched_item "Other" "HEOR"]
  ∧ dict_get "tags" (EnrichExample.enriched_item "Other" "HEOR")
    = Some (JList EnrichExample.merged_tags)
  ∧ length EnrichExample.merged_tags = 11%nat
  ∧ ¬ (length EnrichExample.merged_tags ≤ 10)%nat.
Proof.
  split_and!; [vm_compute; reflexivity|reflexivity|reflexivity|simpl; lia].
Qed.

(** ** Enrichment: the payload *)

Lemma slice_to_length (n : nat) (s : string) :
  String.length (PyStr.slice_to n s) = Nat.min n (String.length s).
Proof.
  revert s. induction n as [|n IH]; intros [|c s]; simpl; try done.
  by rewrite IH.
Qed.

Lemma slice_to_prefix (n : nat) (s : string) :
  ∃ rest, s = PyStr.slice_to n s ++ rest.
Proof.
  revert s. induction n as [|n IH]; intros s.
  - exists s. by destruct s.
  - destruct s as [|c s]; [by exists ""|].
    destruct (IH s) as [rest Hrest]. exists rest.
    change (String c s = String c (PyStr.slice_to n s ++ rest)).
    by rewrite <- Hrest.
Qed.

(** The hole of the payload for a stripped field longer than its limit. *)
Lemma clip_long (n : nat) (text : string) :
  (n < String.length text)%nat →
  Enrich.clip n text = PyStr.slice_to n text
  ∧ String.length (Enrich.clip n text) = n
  ∧ ∃ rest, text = Enrich.clip n text ++ rest.
Proof.
  intros Hlen. unfold Enrich.clip.
  destruct (String.eqb_spec text "") as [->|_]; [simpl in Hlen; lia|].
  split; [done|]. split; [rewrite slice_to_length; lia|apply slice_to_prefix].
Qed.

Lemma strip_value_ok (v : json) (s : string) :
  strip_value v = Ok s → ∃ t, v = JStr t ∧ s = PyStr.strip t.
Proof. destruct v; simpl; try done. intros [= <-]. eauto. Qed.

(** C8, as amended: the payload is the template filled with the attendees
    and three clipped fields, each clipped after its surrounding whitespace
    has been stripped. When the stripped description is longer than 300
    characters the payload holds exactly its first 300 characters (and not
    the rest); likewise the first 200 characters of the stripped use case
    and of the stripped raw context. *)
Theorem payload_truncates_stripped_fields (feedback_item : dict) (prompt : string) :
  Enrich.user_prompt feedback_item = Ok prompt →
  ∃ attendees description use_case raw_context,
    prompt = Enrich.render_prompt attendees description use_case raw_context
    ∧ (∀ d, dict_get "description" feedback_item = Some (JStr d) →
            (300 < String.length (PyStr.strip d))%nat →
            description = PyStr.slice_to 300 (PyStr.strip d)
            ∧ String.length description = 300%nat
            ∧ ∃ rest, PyStr.strip d = description ++ rest)
    ∧ (∀ u, dict_get "use_case" feedback_item = Some (JStr u) →
            (200 < String.length (PyStr.strip u))%nat →
            use_case = PyStr.slice_to 200 (PyStr.strip u)
            ∧ String.length use_case = 200%nat
            ∧ ∃ rest, PyStr.strip u = use_case ++ rest)
    ∧ (∀ r, dict_get "raw_context" feedback_item = Some (JStr r) →
            (200 < String.length (PyStr.strip r))%nat →
            raw_context = PyStr.slice_to 200 (PyStr.strip r)
            ∧ String.length raw_context = 200%nat
            ∧ ∃ rest, PyStr.strip r = raw_context ++ rest).
Proof.
  unfold Enrich.user_prompt.
  destruct (Enrich.attendees_str feedback_item) as [att|]; [|done].
  cbn [mbind result_bind rbind].
  destruct (strip_value (dict_get_default "description" _ _)) as [d'|] eqn:Hd;
    [|done].
  cbn [mbind result_bind rbind].
  destruct (strip_value (dict_get_default "use_case" _ _)) as [u'|] eqn:Hu;
    [|done].
  cbn [mbind result_bind rbind].
  destruct (strip_value (dict_get_default "raw_context" _ _)) as [r'|] eqn:Hr;
    [|done].
  cbn [mbind result_bind rbind]. intros [= <-].
  exists att, (Enrich.clip 300 d'), (Enrich.clip 200 u'), (Enrich.clip 200 r').
  split; [done|].
  unfold dict_get_default in Hd, Hu, Hr.
  split_and!.
  - intros d Hget Hlen. rewrite Hget in Hd. injection Hd as <-.
    by apply clip_long.
  - intros u Hget Hlen. rewrite Hget in Hu. injection Hu as <-.
    by apply clip_long.
  - intros r Hget Hlen. rewrite Hget in Hr. injection Hr as <-.
    by apply clip_long.
Qed.

(** C8, as amended, at an item whose three fields are over their limits. *)
Lemma payload_truncates_stripped_fields_witness :
  ∃ attendees description use_case raw_context,
    Enrich.user_prompt PayloadExample.long_item
    = Ok (Enrich.render_prompt attendees description use_case raw_context)
    ∧ description = Example.repeat_char "x" 300
    ∧ String.length description = 300%nat
    ∧ String.length use_case = 200%nat
    ∧ String.length raw_context = 200%nat.
Proof.
  assert (Enrich.user_prompt PayloadExample.long_item
          = Ok (Enrich.render_prompt "(not provided)"
                  (Example.repeat_char "x" 300) (Example.repeat_char "u" 200)
                  (Example.repeat_char "r" 200))) as Hrun
    by (vm_compute; reflexivity).
  destruct (payload_truncates_stripped_fields _ _ Hrun)
    as (att & d & u & r & Heq & Hd & Hu & Hr).
  destruct (Hd _ eq_refl ltac:(vm_compute; lia)) as (Hdv & Hdl & _).
  destruct (Hu _ eq_refl ltac:(vm_compute; lia)) as (_ & Hul & _).
  destruct (Hr _ eq_refl ltac:(vm_compute; lia)) as (_ & Hrl & _).
  exists att, d, u, r. rewrite <- Heq.
  split; [exact Hrun|]. split; [|by split_and!].
  rewrite Hdv. vm_compute. reflexivity.
Defined.

(** C8, as stated, fails: a description of 301 characters that ends in two
    spaces reaches the payload as its 299 letters; the first 300 characters
    of the description (the letters and one space) occur nowhere in the
    payload. *)
Lemma payload_drops_surrounding_whitespace :
  String.length PayloadExample.padded_description = 301%nat
  ∧ Enrich.user_prompt PayloadExample.padded_item
    = Ok (Enrich.render_prompt "(not provided)" (Example.repeat_char "a" 299)
            "(not provided)" "(not provided)")
  ∧ PyStr.contains (PyStr.slice_to 300 PayloadExample.padded_description)
      (Enrich.render_prompt "(not provided)" (Example.repeat_char "a" 299)
         "(not provided)" "(not provided)") = false.
Proof. split_and!; vm_compute; reflexivity. Qed.

(** ** Deduplication *)

(** *** Normalization is idempotent *)

Lemma is_space_lower_char (c : ascii) :
  PyStr.is_space (PyStr.lower_char c) = PyStr.is_space c.
Proof.
  destruct c as [b0 b1 b2 b3 b4 b5 b6 b7].
  destruct b0, b1, b2, b3, b4, b5, b6, b7; reflexivity.
Qed.

Lemma lower_char_idempotent (c : ascii) :
  PyStr.lower_char (PyStr.lower_char c) = PyStr.lower_char c.
Proof.
  destruct c as [b0 b1 b2 b3 b4 b5 b6 b7].
  destruct b0, b1, b2, b3, b4, b5, b6, b7; reflexivity.
Qed.

Lemma lower_idempotent (s : string) : PyStr.lower (PyStr.lower s) = PyStr.lower s.
Proof.
  induction s as [|c s IH]; simpl; [done|].
  by rewrite lower_char_idempotent, IH.
Qed.

Lemma lower_lstrip (s : string) :
  PyStr.lower (PyStr.lstrip s) = PyStr.lstrip (PyStr.lower s).
Proof.
  induction s as [|c s IH]; simpl; [done|].
  rewrite is_space_lower_char. by destruct (PyStr.is_space c).
Qed.

Lemma lower_rstrip (s : string) :
  PyStr.lower (PyStr.rstrip s) = PyStr.rstrip (PyStr.lower s).
Proof.
  induction s as [|c s IH]; simpl; [done|].
  rewrite <- IH, is_space_lower_char.
  destruct (PyStr.rstrip s); simpl; [|done].
  by destruct (PyStr.is_space c).
Qed.

Lemma lower_strip (s : string) :
  PyStr.lower (PyStr.strip s) = PyStr.strip (PyStr.lower s).
Proof. unfold PyStr.strip. by rewrite lower_rstrip, lower_lstrip. Qed.

Lemma rstrip_idempotent (s : string) : PyStr.rstrip (PyStr.rstrip s) = PyStr.rstrip s.
Proof.
  induction s as [|c s IH]; simpl; [done|].
  destruct (PyStr.rstrip s) as [|c' r] eqn:Hr.
  - destruct (PyStr.is_space c) eqn:Hc; simpl; [done|]. by rewrite Hc.
  - simpl. simpl in IH. by rewrite IH.
Qed.

Lemma lstrip_starts_clean (s : string) : starts_clean (PyStr.lstrip s).
Proof.
  induction s as [|c s IH]; simpl; [done|].
  destruct (PyStr.is_space c) eqn:Hc; [done|]. simpl. done.
Qed.

Lemma rstrip_starts_clean (s : string) :
  starts_clean s → starts_clean (PyStr.rstrip s).
Proof.
  destruct s as [|c s]; simpl; [done|]. intros Hc.
  destruct (PyStr.rstrip s); simpl; [by rewrite Hc|done].
Qed.

Lemma lstrip_clean (s : string) : starts_clean s → PyStr.lstrip s = s.
Proof. destruct s as [|c s]; simpl; [done|]. by intros ->. Qed.

Lemma strip_idempotent (s : string) : PyStr.strip (PyStr.strip s) = PyStr.strip s.
Proof.
  unfold PyStr.strip.
  rewrite (lstrip_clean (PyStr.rstrip (PyStr.lstrip s))).
  - apply rstrip_idempotent.
  - apply rstrip_starts_clean, lstrip_starts_clean.
Qed.

Lemma normalize_idempotent (title : string) :
  normalize (normalize title) = normalize title.
Proof.
  unfold normalize.
  by rewrite lower_strip, lower_idempotent, strip_idempotent.
Qed.

(** *** The loop of [deduplicate_feedback] *)

Lemma title_key_ok (item : dict) :
  has_title item → Extract.title_key item = Ok (normalized_title item).
Proof.
  intros [title Ht]. unfold Extract.title_key, normalized_title. by rewrite Ht.
Qed.

Lemma dedupe_loop_survivors (items acc : list dict) (seen : gset string) :
  Forall has_title items →
  Extract.dedupe_loop items acc seen = Ok (acc ++ survivors seen items)%list.
Proof.
  intros Hall. revert acc seen.
  induction Hall as [|item items Hitem _ IH]; intros acc seen; simpl.
  - by rewrite app_nil_r.
  - rewrite (title_key_ok _ Hitem). cbn [mbind result_bind rbind].
    destruct (decide (normalized_title item ∈ seen)); [apply IH|].
    rewrite IH. by rewrite <- app_assoc.
Qed.

Lemma survivors_sublist (seen : gset string) (items : list dict) :
  survivors seen items `sublist_of` items.
Proof.
  revert seen. induction items as [|c items IH]; intros seen; simpl; [done|].
  destruct (decide (normalized_title c ∈ seen)).
  - by apply sublist_cons.
  - by apply sublist_skip.
Qed.

Lemma survivors_fresh (seen : gset string) (items : list dict) (x : dict) :
  x ∈ survivors seen items → normalized_title x ∉ seen.
Proof.
  revert seen. induction items as [|c items IH]; intros seen; simpl.
  - intros Hx. by apply elem_of_nil in Hx.
  - destruct (decide (normalized_title c ∈ seen)) as [|Hc]; [apply IH|].
    intros Hx. apply elem_of_cons in Hx as [->|Hx]; [done|].
    apply IH in Hx. set_solver.
Qed.

Lemma survivors_NoDup (seen : gset string) (items : list dict) :
  NoDup (map normalized_title (survivors seen items)).
Proof.
  revert seen. induction items as [|c items IH]; intros seen; simpl.
  - apply NoDup_nil_2.
  - destruct (decide (normalized_title c ∈ seen)) as [|Hc]; [apply IH|].
    simpl. apply NoDup_cons. split; [|apply IH].
    intros Hin. apply list_elem_of_fmap in Hin as (y & Hy & Hin).
    apply survivors_fresh in Hin. set_solver.
Qed.

(** After a prefix has been processed the loop has seen the titles it
    started with and those of the prefix. *)
Lemma survivors_app (seen : gset string) (pre post : list dict) :
  survivors seen (pre ++ post)
  = (survivors seen pre ++ survivors (titles_of pre ∪ seen) post)%list.
Proof.
  revert seen. induction pre as [|c pre IH]; intros seen; simpl.
  - f_equal. unfold titles_of. simpl. set_solver.
  - destruct (decide (normalized_title c ∈ seen)) as [Hc|Hc].
    + rewrite IH. do 2 f_equal. unfold titles_of. simpl. set_solver.
    + rewrite IH. simpl. do 3 f_equal. unfold titles_of. simpl. set_solver.
Qed.

Lemma elem_of_titles_of (t : string) (items : list dict) :
  t ∈ titles_of items ↔ t ∈ map normalized_title items.
Proof. unfold titles_of. by rewrite elem_of_list_to_set. Qed.

Lemma elem_of_known_set (t : string) (existing : list string) :
  t ∈ Extract.known_set existing ↔ ∃ k, k ∈ existing ∧ t = normalize k.
Proof.
  unfold Extract.known_set. rewrite elem_of_list_to_set, list_elem_of_fmap.
  split; intros (k & H1 & H2); exists k; done.
Qed.

(** X29: [deduplicate_feedback] goes through the candidates in input order
    and keeps a candidate exactly when its normalized title (lowercased and
    trimmed) is neither the normalized form of a known title nor the
    normalized title of an earlier candidate. So the output is a
    subsequence of the input (survivors keep their relative order), it is
    no longer than the input, the normalized titles of the survivors are
    pairwise different, and none of them is in the known set, whether the
    known titles are taken as given or normalized. *)
Theorem deduplicate_feedback_keeps_first_occurrences
    (feedback_items : list dict) (existing_titles : option (list string)) :
  Forall has_title feedback_items →
  let known := default [] existing_titles in
  ∃ unique_items,
    Extract.deduplicate_feedback feedback_items existing_titles = Ok unique_items
    ∧ unique_items `sublist_of` feedback_items
    ∧ (length unique_items ≤ length feedback_items)%nat
    ∧ NoDup (map normalized_title unique_items)
    ∧ (∀ item, item ∈ unique_items →
         (normalized_title item ∉ known)
         ∧ (normalized_title item ∉ map normalize known))
    ∧ (∀ pre item post, feedback_items = (pre ++ item :: post)%list →
         ∃ kept_before kept_after,
           Extract.deduplicate_feedback pre existing_titles = Ok kept_before
           ∧ kept_after `sublist_of` post
           ∧ (normalized_title item ∈ map normalize known
              ∨ normalized_title item ∈ map normalized_title pre →
              unique_items = (kept_before ++ kept_after)%list)
           ∧ (¬ (normalized_title item ∈ map normalize known
                 ∨ normalized_title item ∈ map normalized_title pre) →
              unique_items = (kept_before ++ item :: kept_after)%list)).
Proof.
  intros Hall known.
  exists (survivors (Extract.known_set known) feedback_items).
  assert (∀ t, t ∈ Extract.known_set known ↔ t ∈ map normalize known) as Hknown.
  { intros t. rewrite elem_of_known_set, list_elem_of_fmap.
    split; intros (k & H1 & H2); exists k; done. }
  split_and!.
  - unfold Extract.deduplicate_feedback. fold known.
    by rewrite dedupe_loop_survivors.
  - apply survivors_sublist.
  - apply sublist_length, survivors_sublist.
  - apply survivors_NoDup.
  - intros item Hitem. apply survivors_fresh in Hitem.
    rewrite Hknown in Hitem. split; [|done].
    intros Hraw. apply Hitem. apply list_elem_of_fmap.
    exists (normalized_title item). split; [|done].
    unfold normalized_title.
    destruct (dict_get "title" item) as [[| | |title| |]|]; try done.
    by rewrite normalize_idempotent.
  - intros pre item post ->.
    apply Forall_app in Hall as [Hpre Hrest].
    rewrite survivors_app. simpl.
    set (seen := titles_of pre ∪ Extract.known_set known).
    assert (normalized_title item ∈ seen
            ↔ normalized_title item ∈ map normalize known
              ∨ normalized_title item ∈ map normalized_title pre) as Hseen.
    { unfold seen. rewrite elem_of_union, elem_of_titles_of, Hknown. tauto. }
    destruct (decide (normalized_title item ∈ seen)) as [Hin|Hout].
    + exists (survivors (Extract.known_set known) pre), (survivors seen post).
      split_and!.
      * unfold Extract.deduplicate_feedback. fold known.
        by rewrite dedupe_loop_survivors.
      * apply survivors_sublist.
      * done.
      * intros Hnot. exfalso. apply Hnot. by apply Hseen.
    + exists (survivors (Extract.known_set known) pre),
             (survivors ({[normalized_title item]} ∪ seen) post).
      split_and!.
      * unfold Extract.deduplicate_feedback. fold known.
        by rewrite dedupe_loop_survivors.
      * apply survivors_sublist.
      * intros Hdup. exfalso. apply Hout. by apply Hseen.
      * done.
Qed.

(** X29 at the specification's scenario: ["Slow export"] and
    ["slow export  "] are duplicates and only the first is kept; the
    candidate whose title the store holds is dropped as well. *)
Lemma deduplicate_feedback_keeps_first_occurrences_witness :
  Extract.deduplicate_feedback DedupeExample.batch
    (Some DedupeExample.store_titles)
  = Ok [ DedupeExample.titled "Slow export";
         DedupeExample.titled "Missing filter" ]
  ∧ NoDup ["slow export"; "missing filter"].
Proof.
  assert (Forall has_title DedupeExample.batch) as Hall.
  { repeat constructor; eexists; reflexivity. }
  destruct (deduplicate_feedback_keeps_first_occurrences
              DedupeExample.batch (Some DedupeExample.store_titles) Hall)
    as (out & Hrun & _ & _ & Hdistinct & _).
  assert (out = [ DedupeExample.titled "Slow export";
                  DedupeExample.titled "Missing filter" ]) as ->.
  { vm_compute in Hrun. by injection Hrun as <-. }
  split; [exact Hrun|exact Hdistinct].
Defined.

(** ** Batch sync: the retry policy *)

Section RetryPolicy.
Context {RT : Runtime} {Sheet : Type} {WS : Sync.Worksheet Sheet}
  {CL : Sync.Clock}.

(** What [batch_append] does once the rows to write are chosen and there is
    at least one. *)
Lemma batch_append_attempt (depth : nat) (self : Sync.FeedbackSheetsSync)
    (items : list dict) (batch_size : nat) (w w1 : Sync.world Sheet)
    (formatted selected : list (dict * list json)) (skipped_count : nat) :
  items ≠ [] →
  rmap Sync.format_row items = Ok formatted →
  Sync.select_rows self formatted w = (Ok (selected, skipped_count), w1) →
  selected ≠ [] →
  Sync.batch_append (S depth) self items batch_size w
  = Sync.io_try (Sync.append_and_count (map snd selected) skipped_count)
      (λ e, if Sync.is_rate_limit e
            then Sync.io_bind (Sync.sleep 60)
                   (λ _, Sync.batch_append (RT:=Sync.later 60 RT) depth self
                           (map fst selected) batch_size)
            else Sync.io_raise e) w1.
Proof.
  intros Hitems Hformat Hselect Hrows.
  destruct items as [|item items]; [done|].
  cbn [Sync.batch_append]. rewrite Hformat.
  unfold Sync.io_bind at 1. unfold Sync.io_lift at 1.
  unfold Sync.io_bind at 1. rewrite Hselect. cbn [fst snd].
  destruct selected as [|pair selected]; [done|]. cbn [map].
  unfold Sync.io_try.
  destruct (Sync.append_and_count _ _ w1) as [[r|e] w2]; [done|].
  unfold Sync.is_rate_limit, Sync.is_api_error.
  by destruct (exn_kind e).
Qed.

(** C4, as amended: once the rows are chosen, a successful append ends the
    call; an error of the store that is not the rate-limit condition
    propagates as it is, with no sleep and no further call; and on a
    rate-limit error the engine sleeps 60 seconds and calls [batch_append]
    again on the items it had chosen, at the clock reading it finds
    behind the sleep. That call is the same function one level deeper, so
    a rate-limit error that recurs is answered by another sleep and
    another retry, not by giving up: the number of retries is bounded by
    nothing but the interpreter's recursion depth. *)
Theorem batch_append_retries_on_every_rate_limit (depth : nat)
    (self : Sync.FeedbackSheetsSync)
    (items : list dict) (batch_size : nat) (w w1 : Sync.world Sheet)
    (formatted selected : list (dict * list json)) (skipped_count : nat) :
  items ≠ [] →
  rmap Sync.format_row items = Ok formatted →
  Sync.select_rows self formatted w = (Ok (selected, skipped_count), w1) →
  selected ≠ [] →
  let attempt := Sync.append_and_count (map snd selected) skipped_count w1 in
  let outcome := Sync.batch_append (S depth) self items batch_size w in
  (∀ r w2, attempt = (Ok r, w2) → outcome = (Ok r, w2))
  ∧ (∀ e w2, attempt = (Raise e, w2) → Sync.is_rate_limit e = false →
       outcome = (Raise e, w2) ∧ Sync.slept w2 = Sync.slept w1)
  ∧ (∀ e w2, attempt = (Raise e, w2) → Sync.is_rate_limit e = true →
       outcome
       = Sync.batch_append (RT:=Sync.later 60 RT) depth self (map fst selected)
           batch_size
           (Sync.World (Sync.sheet w2) (Sync.calls w2) (Sync.slept w2 + 60))).
Proof.
  intros Hitems Hformat Hselect Hrows attempt outcome. subst attempt outcome.
  rewrite (batch_append_attempt depth self items batch_size w w1 formatted
             selected skipped_count) by done.
  unfold Sync.io_try. split_and!.
  - by intros r w2 ->.
  - intros e w2 Hattempt Hrate. rewrite Hattempt, Hrate. split; [done|].
    revert Hattempt. unfold Sync.append_and_count, Sync.io_bind,
      Sync.call_append_rows, Sync.call_col_values, Sync.io_ret.
    destruct (Sync.append_rows _ (Sync.sheet w1)) as [[[]|e1] sh1];
      [|by intros [= _ <-]].
    cbn [Sync.sheet Sync.calls Sync.slept].
    destruct (Sync.col_values 1 sh1) as [[column|e2] sh2];
      [done|by intros [= _ <-]].
  - intros e w2 -> ->. done.
Qed.

End RetryPolicy.

(** *** Worked runs of the retry *)

(** C4, as amended, at a store that is rate-limited once: the engine sleeps
    60 seconds, calls itself, and the second attempt is accepted. *)
Lemma batch_append_retries_on_every_rate_limit_witness :
  Sync.batch_append (RT:=SyncExample.rt) (CL:=SyncExample.frozen) 2 SyncExample.syncer
    [SyncExample.item] 100 (SyncExample.start (SyncExample.refused 1))
  = (Ok SyncExample.written,
     Sync.World [] (SyncExample.calls_after 1) 60).
Proof.
  edestruct (batch_append_retries_on_every_rate_limit (RT:=SyncExample.rt)
               (CL:=SyncExample.frozen)
               1 SyncExample.syncer [SyncExample.item] 100
               (SyncExample.start (SyncExample.refused 1))
               (Sync.World [Sync.Fails SyncExample.rate_limit;
                            Sync.Column ["Title"; "Old request"]; Sync.Done;
                            Sync.Column ["ID"; "FB-0"; "FB-1"]]
                  [Sync.ColValues 2] 0)
               [(SyncExample.item, SyncExample.row)]
               [(SyncExample.item, SyncExample.row)] 0)
    as (_ & _ & Hretry).
  - done.
  - vm_compute. reflexivity.
  - vm_compute. reflexivity.
  - done.
  - rewrite (Hretry SyncExample.rate_limit
               (Sync.World [Sync.Column ["Title"; "Old request"]; Sync.Done;
                            Sync.Column ["ID"; "FB-0"; "FB-1"]]
                  [Sync.ColValues 2; Sync.AppendRows [SyncExample.row]] 0)).
    + vm_compute. reflexivity.
    + vm_compute. reflexivity.
    + vm_compute. reflexivity.
Defined.

(** C4, as stated, fails: the append is rate-limited, the engine sleeps and
    retries, the retry is rate-limited too, and instead of propagating the
    error the engine sleeps and retries a second time. The call returns
    normally after 120 seconds of sleep and three appends. *)
Lemma batch_append_retries_a_second_time :
  Sync.is_rate_limit SyncExample.rate_limit = true
  ∧ Sync.batch_append (RT:=SyncExample.rt) (CL:=SyncExample.frozen) 5 SyncExample.syncer
      [SyncExample.item] 100 (SyncExample.start (SyncExample.refused 2))
    = (Ok SyncExample.written,
       Sync.World [] (SyncExample.calls_after 2) 120)
  ∧ SyncExample.appends (SyncExample.calls_after 2) = 3%nat.
Proof. split_and!; vm_compute; reflexivity. Qed.

(** However many times in a row the store reports the rate limit, the
    engine sleeps and retries each time, as long as the interpreter allows
    one more nested call: after [n] refusals it has slept [60 * n] seconds
    and the append number [n + 1] is the one that is accepted. *)
Lemma batch_append_outlasts_rate_limits (n depth : nat)
    (cs : list Sync.call) (s : nat) :
  (n < depth)%nat →
  Sync.batch_append (RT:=SyncExample.rt) (CL:=SyncExample.frozen) depth SyncExample.syncer
    [SyncExample.item] 100 (Sync.World (SyncExample.refused n) cs s)
  = (Ok SyncExample.written,
     Sync.World [] (cs ++ SyncExample.calls_after n) (s + 60 * n)).
Proof.
  revert depth cs s. induction n as [|n IH]; intros depth cs s Hdepth.
  - destruct depth as [|depth]; [lia|].
    rewrite Nat.mul_0_r, Nat.add_0_r.
    rewrite (batch_append_attempt (RT:=SyncExample.rt) (CL:=SyncExample.frozen) depth SyncExample.syncer
               [SyncExample.item] 100 _
               (Sync.World [Sync.Done; Sync.Column ["ID"; "FB-0"; "FB-1"]]
                  (cs ++ [Sync.ColValues 2]) s)
               [(SyncExample.item, SyncExample.row)]
               [(SyncExample.item, SyncExample.row)] 0);
      [|done|vm_compute; reflexivity|reflexivity|done].
    unfold Sync.io_try.
    assert (Sync.append_and_count
              (map snd [(SyncExample.item, SyncExample.row)]) 0
              (Sync.World [Sync.Done; Sync.Column ["ID"; "FB-0"; "FB-1"]]
                 (cs ++ [Sync.ColValues 2]) s)
            = (Ok SyncExample.written,
               Sync.World []
                 (((cs ++ [Sync.ColValues 2])
                   ++ [Sync.AppendRows [SyncExample.row]])
                  ++ [Sync.ColValues 1]) s)) as -> by reflexivity.
    rewrite <- !app_assoc. reflexivity.
  - destruct depth as [|depth]; [lia|].
    rewrite (batch_append_attempt (RT:=SyncExample.rt) (CL:=SyncExample.frozen) depth SyncExample.syncer
               [SyncExample.item] 100 _
               (Sync.World (Sync.Fails SyncExample.rate_limit
                            :: SyncExample.refused n)
                  (cs ++ [Sync.ColValues 2]) s)
               [(SyncExample.item, SyncExample.row)]
               [(SyncExample.item, SyncExample.row)] 0);
      [|done|vm_compute; reflexivity|reflexivity|done].
    unfold Sync.io_try.
    assert (Sync.append_and_count
              (map snd [(SyncExample.item, SyncExample.row)]) 0
              (Sync.World (Sync.Fails SyncExample.rate_limit
                           :: SyncExample.refused n)
                 (cs ++ [Sync.ColValues 2]) s)
            = (Raise SyncExample.rate_limit,
               Sync.World (SyncExample.refused n)
                 ((cs ++ [Sync.ColValues 2])
                  ++ [Sync.AppendRows [SyncExample.row]]) s)) as ->
      by reflexivity.
    assert (Sync.is_rate_limit SyncExample.rate_limit = true) as ->
      by (vm_compute; reflexivity).
    unfold Sync.io_bind, Sync.sleep.
    cbn [Sync.sheet Sync.calls Sync.slept map fst].
    rewrite IH by lia. f_equal. f_equal; [|lia].
    rewrite <- !app_assoc. reflexivity.
Qed.

(** ** Batch sync: the duplicate filter of [batch_append] *)

Section SyncFilter.
Context {RT : Runtime}.

Lemma check_duplicate_normalized (title : string) (existing_titles : list string) :
  Sync.check_duplicate title existing_titles = true
  ↔ normalize title ∈ existing_titles.
Proof.
  unfold Sync.check_duplicate, normalize. rewrite lower_strip.
  rewrite existsb_exists. split.
  - intros (t & Hin & Heq). apply String.eqb_eq in Heq as ->.
    by apply list_elem_of_In.
  - intros Hin. exists (PyStr.strip (PyStr.lower title)).
    split; [by apply list_elem_of_In|apply String.eqb_refl].
Qed.

(** The filter of lines 166-172 keeps, in order, exactly the candidates
    whose normalized title is not among the titles read from the store, and
    counts the others. It never compares two candidates with each other. *)
Lemma filter_duplicates_keeps_unknown (existing_titles : list string)
    (pairs acc : list (dict * list json)) (skipped_count : nat) :
  Forall (λ pair, has_title pair.1) pairs →
  let kept := filter (λ pair, normalized_title pair.1 ∉ existing_titles) pairs in
  Sync.filter_duplicates existing_titles pairs acc skipped_count
  = Ok ((acc ++ kept)%list, (skipped_count + (length pairs - length kept))%nat).
Proof.
  intros Hall. revert acc skipped_count.
  induction Hall as [|[item row] pairs [title Ht] _ IH]; intros acc k; simpl.
  - rewrite app_nil_r. do 2 f_equal. lia.
  - simpl in Ht. unfold Sync.title_arg. rewrite Ht.
    cbn [mbind result_bind rbind].
    assert (normalized_title item = normalize title) as Hn
      by (unfold normalized_title; by rewrite Ht).
    pose proof (length_filter (λ pair : dict * list json,
                   normalized_title pair.1 ∉ existing_titles) pairs) as Hle.
    destruct (Sync.check_duplicate title existing_titles) eqn:Hdup.
    + apply check_duplicate_normalized in Hdup.
      rewrite filter_cons_False by (simpl; rewrite Hn; tauto).
      rewrite IH. do 2 f_equal; lia.
    + assert (normalize title ∉ existing_titles) as Hfresh.
      { intros Hin. apply check_duplicate_normalized in Hin. congruence. }
      rewrite filter_cons_True by (simpl; by rewrite Hn).
      rewrite IH. rewrite <- app_assoc. simpl. do 2 f_equal; lia.
Qed.

End SyncFilter.

(** C3 fails in the second place it is read from, the filter of
    [batch_append] (sync_to_sheets.py, lines 156-181). That loop compares
    each candidate with the titles read from the store and never adds the
    title of a candidate it keeps, so a later occurrence within the batch
    is not dropped: of two candidates with the same title, unknown to the
    store, both are written, and none is counted as skipped. What was
    meant shows in [deduplicate_feedback], which adds every title it keeps
    to the titles seen: on the same two candidates and the same known
    title it keeps the first only. *)
Lemma batch_append_writes_batch_internal_duplicates :
  Sync.batch_append (RT:=SyncExample.rt) (CL:=SyncExample.frozen) 1
    SyncExample.syncer [SyncExample.item; SyncExample.item] 100
    (SyncExample.start SyncExample.accepted_attempt)
  = (Ok {| Sync.synced := 2; Sync.skipped := 0; Sync.rows := [2%Z; 3%Z] |},
     Sync.World []
       [ Sync.ColValues 2;
         Sync.AppendRows [SyncExample.row; SyncExample.row];
         Sync.ColValues 1 ] 0)
  ∧ Extract.deduplicate_feedback [SyncExample.item; SyncExample.item]
      (Some ["Old request"])
    = Ok [SyncExample.item].
Proof. split; vm_compute; reflexivity. Qed.

(** * Further properties *)

(** ** Deduplication: errors, idempotence, and the sync filter behind it *)

Lemma dedupe_loop_ok_titles (items acc out : list dict) (seen : gset string) :
  Extract.dedupe_loop items acc seen = Ok out → Forall has_title items.
Proof.
  revert acc seen. induction items as [|item items IH]; intros acc seen; simpl.
  - intros _. apply Forall_nil_2.
  - unfold Extract.title_key at 1.
    destruct (dict_get "title" item) as [[| | |t| |]|] eqn:Ht; try done.
    cbn [mbind result_bind rbind].
    intros Hrun. apply Forall_cons. split; [by exists t|].
    destruct (decide (_ ∈ seen)); by eapply IH.
Qed.

Lemma dedupe_loop_raises (items acc : list dict) (seen : gset string) :
  ¬ Forall has_title items →
  is_ok (Extract.dedupe_loop items acc seen) = false.
Proof.
  intros Hnot. destruct (Extract.dedupe_loop items acc seen) eqn:Hrun; [|done].
  apply dedupe_loop_ok_titles in Hrun. done.
Qed.

(** X1: [deduplicate_feedback] returns exactly when every item has a string
    under ['title']; one item without it (no key, or a value that is not a
    string) makes the whole call raise, wherever the item stands. *)
Theorem deduplicate_feedback_needs_titles (feedback_items : list dict)
    (existing_titles : option (list string)) :
  is_ok (Extract.deduplicate_feedback feedback_items existing_titles) = true
  ↔ Forall has_title feedback_items.
Proof.
  unfold Extract.deduplicate_feedback. split.
  - destruct (Extract.dedupe_loop _ _ _) eqn:Hrun; [|done].
    intros _. by apply dedupe_loop_ok_titles in Hrun.
  - intros Hall. by rewrite dedupe_loop_survivors.
Qed.

Lemma survivors_fixed (seen : gset string) (items : list dict) :
  NoDup (map normalized_title items) →
  (∀ x, x ∈ items → normalized_title x ∉ seen) →
  survivors seen items = items.
Proof.
  revert seen. induction items as [|c items IH]; intros seen Hnd Hfresh; [done|].
  simpl in Hnd. apply NoDup_cons in Hnd as [Hc Hnd]. simpl.
  destruct (decide (normalized_title c ∈ seen)) as [Hin|_].
  - exfalso. by apply (Hfresh c); [left|].
  - f_equal. apply IH; [done|].
    intros x Hx Hseen. apply elem_of_union in Hseen as [Hseen|Hseen].
    + apply elem_of_singleton in Hseen. apply Hc. rewrite <- Hseen.
      apply list_elem_of_fmap. by exists x.
    + by apply (Hfresh x); [right|].
Qed.

(** X2: deduplication is idempotent: run again on its own output, with the
    same known titles, [deduplicate_feedback] returns that output
    unchanged. *)
Theorem deduplicate_feedback_idempotent (feedback_items unique_items : list dict)
    (existing_titles : option (list string)) :
  Extract.deduplicate_feedback feedback_items existing_titles = Ok unique_items →
  Extract.deduplicate_feedback unique_items existing_titles = Ok unique_items.
Proof.
  unfold Extract.deduplicate_feedback. intros Hrun.
  pose proof (dedupe_loop_ok_titles _ _ _ _ Hrun) as Hall.
  rewrite dedupe_loop_survivors in Hrun by done. injection Hrun as <-.
  rewrite dedupe_loop_survivors.
  - simpl. f_equal. apply survivors_fixed; [apply survivors_NoDup|].
    intros x. apply survivors_fresh.
  - eapply Forall_forall. intros x Hx. rewrite Forall_forall in Hall.
    apply Hall. eapply elem_of_sublist; [done|apply survivors_sublist].
Qed.

Lemma deduplicate_feedback_idempotent_witness :
  Extract.deduplicate_feedback
    [ DedupeExample.titled "Slow export"; DedupeExample.titled "Missing filter" ]
    (Some DedupeExample.store_titles)
  = Ok [ DedupeExample.titled "Slow export";
         DedupeExample.titled "Missing filter" ].
Proof.
  apply (deduplicate_feedback_idempotent DedupeExample.batch).
  vm_compute. reflexivity.
Defined.

(** ** Batch sync: reading the titles of the store *)

Lemma lower_empty (s : string) : PyStr.lower s = "" → s = "".
Proof. by destruct s. Qed.

Lemma elem_of_store_titles (t : string) (column_b : list string) :
  t ∈ store_titles column_b
  ↔ ∃ cell, cell ∈ tail column_b ∧ PyStr.strip cell ≠ "" ∧ t = normalize cell.
Proof.
  unfold store_titles, normalize. rewrite list_elem_of_fmap. split.
  - intros (cell & -> & Hcell). apply list_elem_of_filter in Hcell as [Hnb Hin].
    exists cell. by rewrite lower_strip.
  - intros (cell & Hin & Hnb & ->). exists cell. split; [by rewrite lower_strip|].
    by apply list_elem_of_filter.
Qed.

Lemma store_titles_normalized (column_b : list string) :
  Forall (λ t, t ≠ "" ∧ normalize t = t) (store_titles column_b).
Proof.
  apply Forall_forall. intros t Ht.
  apply elem_of_store_titles in Ht as (cell & _ & Hnb & ->). split.
  - unfold normalize. rewrite <- lower_strip. intros He.
    by apply lower_empty in He.
  - apply normalize_idempotent.
Qed.

Section StoreTitles.
Context {RT : Runtime} {Sheet : Type} {WS : Sync.Worksheet Sheet}.

(** The titles read off an answer of the store. *)
Lemma get_existing_titles_run (w : Sync.world Sheet) :
  Sync.get_existing_titles w
  = (Ok match (Sync.col_values 2 (Sync.sheet w)).1 with
        | Ok column_b => store_titles column_b
        | Raise _ => []
        end,
     Sync.World (Sync.col_values 2 (Sync.sheet w)).2
       (Sync.calls w ++ [Sync.ColValues 2]) (Sync.slept w)).
Proof.
  unfold Sync.get_existing_titles, Sync.io_try, Sync.io_bind,
    Sync.call_col_values, Sync.io_ret.
  by destruct (Sync.col_values 2 (Sync.sheet w)) as [[column_b|e] sh].
Qed.

(** X3: [get_existing_titles] never raises. It makes one call, the read of
    column 2, and sleeps nothing; when the read succeeds it returns the
    cells below the header that are not blank, each stripped and
    lowercased (so none is empty and each is its own normalized form), and
    when the read raises it returns no title at all. *)
Theorem get_existing_titles_fails_open (w : Sync.world Sheet) :
  ∃ titles,
    Sync.get_existing_titles w
    = (Ok titles,
       Sync.World (Sync.col_values 2 (Sync.sheet w)).2
         (Sync.calls w ++ [Sync.ColValues 2]) (Sync.slept w))
    ∧ titles = match (Sync.col_values 2 (Sync.sheet w)).1 with
               | Ok column_b => store_titles column_b
               | Raise _ => []
               end
    ∧ Forall (λ t, t ≠ "" ∧ normalize t = t) titles.
Proof.
  rewrite get_existing_titles_run. eexists. split; [reflexivity|].
  split; [done|].
  destruct (Sync.col_values 2 (Sync.sheet w)).1;
    [apply store_titles_normalized|apply Forall_nil_2].
Qed.

End StoreTitles.

(** ** Batch sync: rows *)

Section RowProperties.
Context {RT : Runtime}.

Lemma ensure_id_ok (item item1 : dict) :
  Sync.ensure_id item = Ok item1 →
  (∃ id, dict_get "id" item1 = Some id ∧ truthy id = true)
  ∧ (∀ k, k ≠ "id" → dict_get k item1 = dict_get k item)
  ∧ Sync.ensure_id item1 = Ok item1.
Proof.
  unfold Sync.ensure_id, dict_has, dict_get_default.
  destruct (dict_get "id" item) as [id|] eqn:Hid; simpl.
  - destruct (truthy id) eqn:HT; simpl.
    + intros [= <-]. rewrite Hid. simpl. rewrite HT. simpl.
      split; [by exists id|done].
    + destruct (Sync.hash_value _) as [h|]; [|done].
      cbn [mbind result_bind rbind]. intros [= <-].
      rewrite dict_get_set_eq. simpl.
      split; [eexists; split; [done|done]|].
      split; [|done]. intros k Hk. rewrite dict_get_set_ne; [done|congruence].
  - destruct (Sync.hash_value _) as [h|]; [|done].
    cbn [mbind result_bind rbind]. intros [= <-].
    rewrite dict_get_set_eq. simpl.
    split; [eexists; split; [done|done]|].
    split; [|done]. intros k Hk. rewrite dict_get_set_ne; [done|congruence].
Qed.

Lemma format_row_ok (item item1 : dict) (row : list json) :
  Sync.format_row item = Ok (item1, row) →
  Sync.ensure_id item = Ok item1
  ∧ ∃ title, Sync.slice_value 100 (dict_get_default "title" (JStr "") item1)
             = Ok title
             ∧ nth_error row 1 = Some title
             ∧ nth_error row 0 = Some (dict_get_default "id" (JStr "") item1)
             ∧ length row = 26%nat.
Proof.
  unfold Sync.format_row.
  destruct (Sync.ensure_id item) as [item'|]; [|done].
  cbn [mbind result_bind rbind].
  destruct (Sync.slice_value 100 _) as [title|] eqn:Ht; [|done].
  cbn [mbind result_bind rbind]. intros [= <- <-].
  split; [done|]. by exists title.
Qed.

(** X4: what [format_row] guarantees when it returns: a row of 26 cells
    whose first cell is the item's id; an item that carries a non-empty id
    afterwards, with every other field as it was; and, called again on the
    item it returned (at the same clock reading), the same item and the
    same row, so an id once given is never replaced. *)
Theorem format_row_assigns_id_once (item item1 : dict) (row : list json) :
  Sync.format_row item = Ok (item1, row) →
  length row = 26%nat
  ∧ (∃ id, dict_get "id" item1 = Some id ∧ truthy id = true
           ∧ nth_error row 0 = Some id)
  ∧ (∀ k, k ≠ "id" → dict_get k item1 = dict_get k item)
  ∧ Sync.format_row item1 = Ok (item1, row).
Proof.
  intros Hrun.
  destruct (format_row_ok _ _ _ Hrun) as (Hid & title & Ht & _ & Hcell & Hlen).
  destruct (ensure_id_ok _ _ Hid) as ((id & Hget & Htruthy) & Hother & Hagain).
  split_and!; [done| |done|].
  - exists id. split_and!; [done|done|].
    rewrite Hcell. unfold dict_get_default. by rewrite Hget.
  - revert Hrun. unfold Sync.format_row. rewrite Hid, Hagain.
    cbn [mbind result_bind rbind]. rewrite Ht.
    cbn [mbind result_bind rbind]. by intros [= <-].
Qed.

End RowProperties.

Lemma format_row_assigns_id_once_witness :
  Sync.format_row (RT:=SyncExample.rt) RowExample.numbered_item
  = Ok (RowExample.numbered_item, RowExample.numbered_row)
  ∧ length RowExample.numbered_row = 26%nat.
Proof.
  assert (Sync.format_row (RT:=SyncExample.rt) RowExample.fresh_item
          = Ok (RowExample.numbered_item, RowExample.numbered_row)) as Hrun
    by (vm_compute; reflexivity).
  destruct (format_row_assigns_id_once _ _ _ Hrun) as (Hlen & _ & _ & Hagain).
  split; [exact Hagain|exact Hlen].
Defined.

(** ** Batch sync: which rows are written *)

Section Selection.
Context {RT : Runtime} {Sheet : Type} {WS : Sync.Worksheet Sheet}.

Lemma format_row_titled (item : dict) :
  has_title item →
  ∃ item1 row, Sync.format_row item = Ok (item1, row)
               ∧ dict_get "title" item1 = dict_get "title" item.
Proof.
  intros [t Ht].
  assert (∃ item1, Sync.ensure_id item = Ok item1
                   ∧ dict_get "title" item1 = Some (JStr t)) as (item1 & Hid & Ht1).
  { unfold Sync.ensure_id, dict_get_default. rewrite Ht.
    destruct (negb (dict_has "id" item) || negb (truthy _)); simpl.
    - eexists. split; [done|]. by rewrite dict_get_set_ne.
    - by exists item. }
  unfold Sync.format_row. rewrite Hid. cbn [mbind result_bind rbind].
  assert (Sync.slice_value 100 (dict_get_default "title" (JStr "") item1)
          = Ok (JStr (PyStr.slice_to 100 t))) as ->
    by (unfold dict_get_default; by rewrite Ht1).
  cbn [mbind result_bind rbind].
  eexists _, _. split; [done|]. by rewrite Ht1.
Qed.

Lemma rmap_format_row_titled (items : list dict) :
  Forall has_title items →
  ∃ formatted, rmap Sync.format_row items = Ok formatted
               ∧ map (λ pair, dict_get "title" pair.1) formatted
                 = map (dict_get "title") items.
Proof.
  induction 1 as [|item items Hitem _ (formatted & Hrun & Htitles)]; simpl.
  - by exists [].
  - destruct (format_row_titled _ Hitem) as (item1 & row & -> & Ht).
    rewrite Hrun. exists ((item1, row) :: formatted). split; [done|].
    simpl. by rewrite Ht, Htitles.
Qed.

Lemma filter_duplicates_count (existing_titles : list string)
    (pairs acc selected : list (dict * list json)) (k k' : nat) :
  Sync.filter_duplicates existing_titles pairs acc k = Ok (selected, k') →
  (length selected + k' = length acc + k + length pairs)%nat.
Proof.
  revert acc k. induction pairs as [|[item row] pairs IH]; intros acc k; simpl.
  - intros [= <- <-]. lia.
  - destruct (Sync.title_arg item) as [title|]; [|done].
    cbn [mbind result_bind rbind].
    destruct (Sync.check_duplicate title existing_titles); intros Hrun;
      apply IH in Hrun; [lia|].
    rewrite length_app in Hrun. simpl in Hrun. lia.
Qed.

Lemma select_rows_count (self : Sync.FeedbackSheetsSync)
    (formatted selected : list (dict * list json)) (k : nat)
    (w w1 : Sync.world Sheet) :
  Sync.select_rows self formatted w = (Ok (selected, k), w1) →
  (length selected + k = length formatted)%nat.
Proof.
  unfold Sync.select_rows. destruct (Sync.deduplicate self).
  - unfold Sync.io_bind. rewrite get_existing_titles_run.
    unfold Sync.io_lift.
    destruct (Sync.filter_duplicates _ formatted [] 0) as [[sel k']|] eqn:Hf;
      [|done].
    intros [= <- <- _]. apply filter_duplicates_count in Hf. simpl in Hf. lia.
  - unfold Sync.io_ret. intros [= <- <- _]. lia.
Qed.

Lemma filter_keeps_all {A} (P : A → Prop) `{!∀ x, Decision (P x)} (l : list A) :
  (∀ x, x ∈ l → P x) → filter P l = l.
Proof.
  induction l as [|x l IH]; intros Hall; [done|].
  rewrite filter_cons_True by (apply Hall; by left).
  f_equal. apply IH. intros y Hy. apply Hall. by right.
Qed.

Lemma filter_drops_all {A} (P : A → Prop) `{!∀ x, Decision (P x)} (l : list A) :
  (∀ x, x ∈ l → ¬ P x) → filter P l = [].
Proof.
  induction l as [|x l IH]; intros Hall; [done|].
  rewrite filter_cons_False by (apply Hall; by left).
  apply IH. intros y Hy. apply Hall. by right.
Qed.

(** X5: with deduplication enabled and a readable column B, the sync filter
    keeps, in their order, exactly the items whose normalized title is not
    the normalized content of a non-blank cell of column B below the
    header, and counts the others as skipped; the header cell itself never
    makes a duplicate, and items are not compared with each other. When
    column B cannot be read every item is kept and none is skipped. *)
Theorem select_rows_filters_against_store (self : Sync.FeedbackSheetsSync)
    (formatted : list (dict * list json)) (w : Sync.world Sheet) :
  Sync.deduplicate self = true →
  Forall (λ pair, has_title pair.1) formatted →
  let answer := Sync.col_values 2 (Sync.sheet w) in
  let w1 := Sync.World answer.2 (Sync.calls w ++ [Sync.ColValues 2])
              (Sync.slept w) in
  match answer.1 with
  | Ok column_b =>
      let kept := filter (λ pair, normalized_title pair.1 ∉ store_titles column_b)
                    formatted in
      Sync.select_rows self formatted w
      = (Ok (kept, (length formatted - length kept)%nat), w1)
  | Raise _ => Sync.select_rows self formatted w = (Ok (formatted, 0%nat), w1)
  end.
Proof.
  intros Hdedupe Hall answer w1. subst answer w1.
  unfold Sync.select_rows. rewrite Hdedupe. unfold Sync.io_bind.
  rewrite get_existing_titles_run. unfold Sync.io_lift.
  rewrite (filter_duplicates_keeps_unknown _ formatted [] 0 Hall).
  destruct (Sync.col_values 2 (Sync.sheet w)) as [[column_b|e] sh]; simpl.
  - done.
  - rewrite filter_keeps_all by (intros pair _; apply not_elem_of_nil).
    do 3 f_equal. lia.
Qed.

End Selection.

Lemma select_rows_filters_against_store_witness :
  Sync.select_rows SyncExample.syncer SelectExample.pairs
    (SyncExample.start [Sync.Column SelectExample.column_b])
  = (Ok ([ (DedupeExample.titled "Slow export", []);
           (DedupeExample.titled "title", []) ], 1%nat),
     Sync.World [] [Sync.ColValues 2] 0).
Proof.
  assert (Forall (λ pair : dict * list json, has_title pair.1)
            SelectExample.pairs) as Hall.
  { repeat constructor; eexists; reflexivity. }
  pose proof (select_rows_filters_against_store SyncExample.syncer
                SelectExample.pairs
                (SyncExample.start [Sync.Column SelectExample.column_b])
                eq_refl Hall) as Hrun.
  simpl in Hrun. rewrite Hrun. vm_compute. reflexivity.
Defined.

(** ** Batch sync: what a call reports *)

Lemma rmap_length {A B} (f : A → result B) (xs : list A) (ys : list B) :
  rmap f xs = Ok ys → length ys = length xs.
Proof.
  revert ys. induction xs as [|x xs IH]; intros ys; simpl.
  - by intros [= <-].
  - destruct (f x); [|done]. destruct (rmap f xs) as [ys'|]; [|done].
    intros [= <-]. simpl. f_equal. by apply IH.
Qed.

Lemma row_numbers_consecutive (last_row : Z) (n : nat) :
  Sync.row_numbers (last_row - Z.of_nat n + 1) last_row
  = consecutive (last_row - Z.of_nat n + 1) n.
Proof.
  unfold Sync.row_numbers, consecutive. do 2 f_equal. lia.
Qed.

Section Accounting.
Context {RT : Runtime} {Sheet : Type} {WS : Sync.Worksheet Sheet}.

Lemma append_and_count_ok (rs : list (list json)) (k : nat)
    (w w2 : Sync.world Sheet) (r : Sync.sync_result) :
  Sync.append_and_count rs k w = (Ok r, w2) →
  ∃ column_a : list string,
    r = {| Sync.synced := length rs;
           Sync.skipped := k;
           Sync.rows := consecutive
                          (Z.of_nat (length column_a) - Z.of_nat (length rs) + 1)
                          (length rs) |}
    ∧ Sync.slept w2 = Sync.slept w.
Proof.
  unfold Sync.append_and_count, Sync.io_bind, Sync.call_append_rows,
    Sync.call_col_values, Sync.io_ret.
  destruct (Sync.append_rows rs (Sync.sheet w)) as [[[]|e1] sh1]; [|done].
  cbn [Sync.sheet Sync.calls Sync.slept].
  destruct (Sync.col_values 1 sh1) as [[column_a|e2] sh2]; [|done].
  intros [= <- <-]. exists column_a. by rewrite row_numbers_consecutive.
Qed.

End Accounting.

Section Reports.
Context {Sheet : Type} {WS : Sync.Worksheet Sheet} {CL : Sync.Clock}.

(** X6: what a call of [batch_append] that returns reports. The rows are as
    many consecutive row numbers as items were written. Written and
    skipped items together are never more than the items handed in; they
    can be fewer, because a retry after a rate limit starts from the items
    that had been selected and counts its skipped items from zero again. *)
Theorem batch_append_reports_consecutive_rows {RT : Runtime} (depth : nat)
    (self : Sync.FeedbackSheetsSync) (items : list dict) (batch_size : nat)
    (w w' : Sync.world Sheet) (r : Sync.sync_result) :
  Sync.batch_append depth self items batch_size w = (Ok r, w') →
  length (Sync.rows r) = Sync.synced r
  ∧ (∃ first, Sync.rows r = consecutive first (Sync.synced r))
  ∧ (Sync.synced r + Sync.skipped r ≤ length items)%nat.
Proof.
  revert RT items w.
  induction depth as [|depth IH]; intros RT items w; [done|].
  destruct items as [|item items].
  { intros [= <- _]. split_and!; [done|by exists 0%Z|simpl; lia]. }
  cbn [Sync.batch_append].
  destruct (rmap Sync.format_row (item :: items)) as [formatted|] eqn:Hf; [|done].
  apply rmap_length in Hf.
  unfold Sync.io_bind at 1. unfold Sync.io_lift at 1. unfold Sync.io_bind at 1.
  destruct (Sync.select_rows self formatted w) as [[[selected k]|e] w1] eqn:Hs;
    [|done].
  apply select_rows_count in Hs. cbn [fst snd].
  destruct selected as [|pair selected]; cbn [map].
  { intros [= <- _]. cbn [Sync.rows Sync.synced Sync.skipped length].
    split_and!; [done|by exists 0%Z|simpl in Hs, Hf; lia]. }
  unfold Sync.io_try.
  destruct (Sync.append_and_count _ k w1) as [[r0|e] w2] eqn:Ha.
  - intros [= <- _]. apply append_and_count_ok in Ha as (column_a & -> & _).
    cbn [Sync.rows Sync.synced Sync.skipped].
    split_and!.
    + unfold consecutive. by rewrite length_map, length_seq.
    + by eexists.
    + simpl in Hs, Hf. simpl. rewrite length_map. lia.
  - destruct (Sync.is_api_error e); [|done].
    destruct (PyStr.contains "RATE_LIMIT_EXCEEDED" (exn_msg e)); [|done].
    unfold Sync.io_bind, Sync.sleep. intros Hretry.
    apply IH in Hretry as (Hlen & Hrows & Hsum).
    split_and!; [done|done|].
    cbn [length map] in Hsum. simpl in Hs, Hf. rewrite length_map in Hsum.
    simpl. lia.
Qed.

End Reports.

Section AllKnown.
Context {RT : Runtime} {Sheet : Type} {WS : Sync.Worksheet Sheet}
  {CL : Sync.Clock}.

(** X7: when every item has a title that column B already holds (up to
    case and surrounding blanks), [batch_append] writes nothing: it reads
    column B, makes no append and no other call, sleeps nothing, and
    reports all items as skipped. *)
Theorem batch_append_writes_nothing_when_all_known (depth : nat)
    (self : Sync.FeedbackSheetsSync) (items : list dict) (batch_size : nat)
    (w : Sync.world Sheet) (column_b : list string) :
  Sync.deduplicate self = true →
  items ≠ [] →
  (Sync.col_values 2 (Sync.sheet w)).1 = Ok column_b →
  Forall (λ item, has_title item
                  ∧ normalized_title item ∈ store_titles column_b) items →
  Sync.batch_append (S depth) self items batch_size w
  = (Ok {| Sync.synced := 0; Sync.skipped := length items; Sync.rows := [] |},
     Sync.World (Sync.col_values 2 (Sync.sheet w)).2
       (Sync.calls w ++ [Sync.ColValues 2]) (Sync.slept w)).
Proof.
  intros Hdedupe Hitems Hanswer Hall.
  assert (Forall has_title items) as Htitled
    by (eapply Forall_impl; [exact Hall|by intros ? []]).
  destruct (rmap_format_row_titled items Htitled) as (formatted & Hf & Htitles).
  assert (Forall (λ pair : dict * list json,
                    has_title pair.1
                    ∧ normalized_title pair.1 ∈ store_titles column_b)
            formatted) as Hformatted.
  { clear Hf Hitems Htitled. revert formatted Htitles.
    induction Hall as [|item items [[t Ht] Hin] _ IH];
      intros [|[item1 row] formatted]; try done.
    simpl. intros [= Hhead Htail]. apply Forall_cons. split; [|by apply IH].
    simpl. unfold has_title, normalized_title in *.
    rewrite Hhead. rewrite Ht in *. eauto. }
  destruct items as [|item items]; [done|].
  cbn [Sync.batch_append]. rewrite Hf.
  unfold Sync.io_bind at 1. unfold Sync.io_lift at 1. unfold Sync.io_bind at 1.
  unfold Sync.select_rows. rewrite Hdedupe.
  unfold Sync.io_bind at 1. rewrite get_existing_titles_run, Hanswer.
  unfold Sync.io_lift.
  rewrite (filter_duplicates_keeps_unknown (store_titles column_b) formatted [] 0)
    by (eapply Forall_impl; [exact Hformatted|by intros ? []]).
  rewrite filter_drops_all.
  - cbn [fst snd map app length]. unfold Sync.io_ret.
    apply rmap_length in Hf. rewrite Hf. cbn [length].
    by rewrite Nat.add_0_l, Nat.sub_0_r.
  - intros pair Hpair Hnot. rewrite Forall_forall in Hformatted.
    by destruct (Hformatted pair Hpair).
Qed.

End AllKnown.

Lemma batch_append_reports_consecutive_rows_witness :
  length (Sync.rows SyncExample.written) = Sync.synced SyncExample.written
  ∧ (∃ first,
       Sync.rows SyncExample.written
       = consecutive first (Sync.synced SyncExample.written))
  ∧ (Sync.synced SyncExample.written + Sync.skipped SyncExample.written
     ≤ length [SyncExample.item])%nat.
Proof.
  apply (batch_append_reports_consecutive_rows (RT:=SyncExample.rt)
           (CL:=SyncExample.frozen)
           2 SyncExample.syncer [SyncExample.item] 100
           (SyncExample.start (SyncExample.refused 1))
           (Sync.World [] (SyncExample.calls_after 1) 60)).
  vm_compute. reflexivity.
Defined.

Lemma batch_append_writes_nothing_when_all_known_witness :
  Sync.batch_append (RT:=SyncExample.rt) (CL:=SyncExample.frozen) 1 SyncExample.syncer
    [DedupeExample.titled " old REQUEST "] 100
    (SyncExample.start [Sync.Column SelectExample.column_b])
  = (Ok {| Sync.synced := 0; Sync.skipped := 1; Sync.rows := [] |},
     Sync.World [] [Sync.ColValues 2] 0).
Proof.
  pose proof (batch_append_writes_nothing_when_all_known (RT:=SyncExample.rt)
           (CL:=SyncExample.frozen)
                0 SyncExample.syncer [DedupeExample.titled " old REQUEST "]
                100 (SyncExample.start [Sync.Column SelectExample.column_b])
                SelectExample.column_b) as Hrun.
  rewrite Hrun.
  - vm_compute. reflexivity.
  - reflexivity.
  - done.
  - vm_compute. reflexivity.
  - constructor; [|constructor]. split.
    + eexists. reflexivity.
    + vm_compute. set_solver.
Defined.

(** ** The fenced block of an oracle reply *)

Lemma strip_prefix_app (p rest : string) :
  PyStr.strip_prefix p (p ++ rest) = Some rest.
Proof.
  induction p as [|a p IH]; simpl; [done|]. by rewrite Ascii.eqb_refl.
Qed.

Lemma strip_prefix_cons (a b : ascii) (p s : string) :
  PyStr.strip_prefix (String a p) (String b s)
  = if Ascii.eqb a b then PyStr.strip_prefix p s else None.
Proof. reflexivity. Qed.

Lemma strip_prefix_other_head (a c : ascii) (p s : string) :
  a ≠ c → PyStr.strip_prefix (String a p) (String c s) = None.
Proof.
  intros Hne. rewrite strip_prefix_cons.
  destruct (Ascii.eqb a c) eqn:E; [|done]. by apply Ascii.eqb_eq in E.
Qed.

Lemma startswith_other_head (a c : ascii) (p s : string) :
  a ≠ c → PyStr.startswith (String a p) (String c s) = false.
Proof.
  intros Hne. unfold PyStr.startswith. simpl.
  destruct (Ascii.eqb a c) eqn:E; [|done]. by apply Ascii.eqb_eq in E.
Qed.

Lemma no_backtick_head (c : ascii) (s : string) :
  no_backtick (String c s) = true → "`"%char ≠ c ∧ no_backtick s = true.
Proof.
  simpl. intros [Hc Hs]%andb_true_iff. split; [|done].
  intros <-. by rewrite Ascii.eqb_refl in Hc.
Qed.

Lemma append_cons (c : ascii) (s t : string) :
  String c s ++ t = String c (s ++ t).
Proof. reflexivity. Qed.

Lemma append_empty (s : string) : "" ++ s = s.
Proof. reflexivity. Qed.

Lemma lazy_group_cons (c : ascii) (s : string) :
  Fence.lazy_group (String c s)
  = if PyStr.startswith (Fence.nl ++ Fence.ticks) (String c s)
       || PyStr.startswith Fence.ticks (String c s)
    then Some EmptyString
    else String c <$> Fence.lazy_group s.
Proof. reflexivity. Qed.

Lemma search_cons (c : ascii) (s : string) :
  Fence.search (String c s)
  = match Fence.match_here (String c s) with
    | Some g => Some g
    | None => Fence.search s
    end.
Proof. reflexivity. Qed.

Lemma lazy_group_body (body post : string) :
  no_backtick body = true →
  Fence.lazy_group (body ++ Fence.nl ++ Fence.ticks ++ post) = Some body.
Proof.
  induction body as [|c body IH]; intros Hclean.
  - reflexivity.
  - apply no_backtick_head in Hclean as [Hc Hclean].
    rewrite append_cons, lazy_group_cons.
    assert (PyStr.startswith Fence.ticks
              (String c (body ++ Fence.nl ++ Fence.ticks ++ post)) = false) as ->
      by (by apply startswith_other_head).
    assert (PyStr.startswith (Fence.nl ++ Fence.ticks)
              (String c (body ++ Fence.nl ++ Fence.ticks ++ post)) = false) as ->.
    { unfold PyStr.startswith.
      change (Fence.nl ++ Fence.ticks) with (String (ascii_of_nat 10) Fence.ticks).
      rewrite strip_prefix_cons.
      destruct (Ascii.eqb _ c); [|done].
      destruct body as [|c' body]; [done|].
      apply no_backtick_head in Hclean as [Hc' _].
      rewrite append_cons. unfold Fence.ticks.
      by rewrite strip_prefix_other_head. }
    cbn [orb]. by rewrite IH.
Qed.

Lemma match_here_fenced (lang body post : string) :
  no_backtick body = true →
  lang = "" ∨ lang = "json" →
  Fence.match_here
    (Fence.ticks ++ lang ++ Fence.nl ++ body ++ Fence.nl ++ Fence.ticks ++ post)
  = Some body.
Proof.
  intros Hclean Hlang. unfold Fence.match_here.
  rewrite strip_prefix_app.
  destruct Hlang as [-> | ->].
  - rewrite append_empty.
    assert (PyStr.strip_prefix "json"
              (Fence.nl ++ body ++ Fence.nl ++ Fence.ticks ++ post) = None) as ->
      by reflexivity.
    cbn [mbind option_bind]. unfold Fence.after_lang.
    rewrite strip_prefix_app. cbn [mbind option_bind].
    by rewrite lazy_group_body.
  - rewrite strip_prefix_app. cbn [mbind option_bind]. unfold Fence.after_lang.
    rewrite strip_prefix_app. cbn [mbind option_bind].
    by rewrite lazy_group_body.
Qed.

Lemma match_here_other_head (c : ascii) (s : string) :
  "`"%char ≠ c → Fence.match_here (String c s) = None.
Proof.
  intros Hc. unfold Fence.match_here. cbn [Fence.ticks PyStr.strip_prefix].
  destruct (Ascii.eqb "`" c) eqn:E; [|done]. by apply Ascii.eqb_eq in E.
Qed.

Lemma search_match_here (s g : string) :
  Fence.match_here s = Some g → Fence.search s = Some g.
Proof.
  intros Hm. destruct s as [|c s]; [by vm_compute in Hm|].
  by rewrite search_cons, Hm.
Qed.

Lemma search_behind_text (pre s : string) (found : option string) :
  no_backtick pre = true →
  Fence.search s = found →
  Fence.search (pre ++ s) = found.
Proof.
  induction pre as [|c pre IH]; intros Hclean Hs; [done|].
  apply no_backtick_head in Hclean as [Hc Hclean].
  rewrite append_cons, search_cons. rewrite match_here_other_head by done.
  by apply IH.
Qed.

Lemma search_without_backtick (s : string) :
  no_backtick s = true → Fence.search s = None.
Proof.
  induction s as [|c s IH]; intros Hclean; [reflexivity|].
  apply no_backtick_head in Hclean as [Hc Hclean].
  rewrite search_cons, match_here_other_head by done. by apply IH.
Qed.

Lemma no_backtick_lstrip (s : string) :
  no_backtick s = true → no_backtick (PyStr.lstrip s) = true.
Proof.
  induction s as [|c s IH]; [done|]. intros Hclean. cbn [PyStr.lstrip].
  destruct (PyStr.is_space c); [|done].
  apply IH. by apply no_backtick_head in Hclean as [_ ?].
Qed.

Lemma no_backtick_rstrip (s : string) :
  no_backtick s = true → no_backtick (PyStr.rstrip s) = true.
Proof.
  induction s as [|c s IH]; [done|]. intros Hclean. cbn [PyStr.rstrip].
  pose proof Hclean as [Hc Hs]%andb_true_iff.
  specialize (IH Hs).
  destruct (PyStr.rstrip s) as [|c' r].
  - destruct (PyStr.is_space c); [done|]. simpl. by rewrite Hc.
  - change (negb (Ascii.eqb c "`") && no_backtick (String c' r) = true).
    by rewrite Hc, IH.
Qed.

(** X8: a reply that holds a fenced block. When the stripped reply is some
    text without a backtick, the opening fence with no language tag or the
    tag json, a newline, a body without a backtick, a newline and the
    closing fence, followed by anything, the text handed to [json.loads]
    is exactly the body: the text before and behind the block is dropped
    and the body is not stripped. *)
Theorem json_text_reads_fenced_block (text pre lang body post : string) :
  PyStr.strip text
  = pre ++ Fence.ticks ++ lang ++ Fence.nl ++ body ++ Fence.nl ++ Fence.ticks
    ++ post →
  no_backtick pre = true →
  no_backtick body = true →
  lang = "" ∨ lang = "json" →
  Fence.json_text text = body.
Proof.
  intros Hshape Hpre Hbody Hlang. unfold Fence.json_text. rewrite Hshape.
  rewrite (search_behind_text pre _ (Some body)); [done|done|].
  apply search_match_here. by apply match_here_fenced.
Qed.

(** X9: a reply without any backtick has no fenced block, and the text
    handed to [json.loads] is the reply stripped of surrounding
    whitespace. *)
Theorem json_text_without_fence (text : string) :
  no_backtick text = true → Fence.json_text text = PyStr.strip text.
Proof.
  intros Hclean. unfold Fence.json_text.
  rewrite search_without_backtick; [done|].
  unfold PyStr.strip. by apply no_backtick_rstrip, no_backtick_lstrip.
Qed.

(** ** Extraction: every reply *)

Section ExtractionShape.
Context {RT : Runtime}.

Lemma stamped_carries_stamp (metadata : Extract.MeetingMetadata) (d : dict) :
  carries_stamp metadata (JDict (dict_update (Extract.stamp metadata) d)).
Proof.
  exists (dict_update (Extract.stamp metadata) d). split; [done|].
  intros k v Hin. unfold Extract.stamp, dict_update in *. cbn [fold_left fst snd].
  simpl in Hin.
  repeat (destruct Hin as [[= Hk Hv]|Hin]; [subst k v; by dict_simpl|]).
  done.
Qed.

Lemma extract_returns (self : Extract.FeedbackExtractor) (note_content : string)
    (metadata : Extract.MeetingMetadata) (prompt : string) :
  Extract.user_prompt note_content metadata = Ok prompt →
  (∀ msg, Extract.client self (Extract.extraction_prompt self) prompt
          ≠ RaisedDecodeError msg) →
  ∃ returned,
    Extract.extract_feedback_with_claude self note_content metadata = Ok returned
    ∧ (returned = JDict [] ∨ returned = JStr ""
       ∨ ∃ items, returned = JList items ∧ Forall (carries_stamp metadata) items).
Proof.
  intros Hprompt Hcall. unfold Extract.extract_feedback_with_claude.
  rewrite Hprompt. cbn [mbind result_bind rbind].
  destruct (Extract.client self _ prompt) as [text|msg|msg];
    [|by exists (JList []); split; [|right; right; exists []]
     |by destruct (Hcall msg)].
  destruct (json_loads _) as [msg|feedback_items];
    [by exists (JList []); split; [|right; right; exists []]|].
  destruct (Extract.stamp_all metadata feedback_items) as [stamped_items|e] eqn:Hs;
    [|by exists (JList []); split; [|right; right; exists []]].
  exists stamped_items. split; [done|].
  destruct feedback_items as [|b|n|s|items|d]; try done.
  - right; left. simpl in Hs.
    destruct (rmap _ (chars s)) eqn:Hr; [|done].
    injection Hs as <-. destruct s as [|c s]; [done|]. done.
  - right; right. destruct (forallb is_dict items) eqn:Hall.
    + rewrite stamp_all_dicts in Hs by done. injection Hs as <-.
      eexists. split; [done|]. apply Forall_forall. intros x Hx.
      apply list_elem_of_In, in_map_iff in Hx as (y & <- & Hy).
      rewrite forallb_forall in Hall. specialize (Hall y Hy).
      destruct y; try done. apply stamped_carries_stamp.
    + apply (stamp_all_non_dict metadata) in Hall. by rewrite Hs in Hall.
  - left. simpl in Hs. destruct d as [|[k v] d]; [by injection Hs as <-|done].
Qed.

Lemma extract_decode_error (self : Extract.FeedbackExtractor)
    (note_content : string) (metadata : Extract.MeetingMetadata)
    (prompt msg : string) :
  Extract.user_prompt note_content metadata = Ok prompt →
  Extract.client self (Extract.extraction_prompt self) prompt
  = RaisedDecodeError msg →
  Extract.extract_feedback_with_claude self note_content metadata
  = Raise unbound_response_text.
Proof.
  intros Hprompt Hcall. unfold Extract.extract_feedback_with_claude.
  rewrite Hprompt. cbn [mbind result_bind rbind]. by rewrite Hcall.
Qed.

(** X10: once the prompt is built, [extract_feedback_with_claude] raises
    in one case only. When the oracle call itself raises a
    [json.JSONDecodeError], the handler of lines 256-259 prints
    [response_text], which is not bound yet, and the [UnboundLocalError]
    of that leaves the function. In every other case (a call that fails
    otherwise, a text that is no JSON, JSON of any shape) the function
    returns, and what it returns is a list whose elements are all objects
    holding the nine stamped fields with the values of the note's
    metadata (a value the oracle gave for one of them is overwritten), or,
    when the oracle's JSON is the empty object or the empty string, that
    empty value itself, which is not a list. *)
Theorem extract_raises_only_on_decode_error_of_the_call
    (self : Extract.FeedbackExtractor) (note_content : string)
    (metadata : Extract.MeetingMetadata) (prompt : string) :
  Extract.user_prompt note_content metadata = Ok prompt →
  let answer := Extract.client self (Extract.extraction_prompt self) prompt in
  let outcome := Extract.extract_feedback_with_claude self note_content metadata in
  (∀ msg, answer = RaisedDecodeError msg →
     outcome = Raise unbound_response_text)
  ∧ ((∀ msg, answer ≠ RaisedDecodeError msg) →
     ∃ returned,
       outcome = Ok returned
       ∧ (returned = JDict [] ∨ returned = JStr ""
          ∨ ∃ items, returned = JList items
                     ∧ Forall (carries_stamp metadata) items)).
Proof.
  intros Hprompt answer outcome. subst answer outcome. split.
  - intros msg Hcall. by apply (extract_decode_error _ _ _ prompt msg).
  - intros Hcall. by apply (extract_returns _ _ _ prompt).
Qed.

End ExtractionShape.

(** ** Notes: the frontmatter block *)

Lemma strip_prefix_sound (p s rest : string) :
  PyStr.strip_prefix p s = Some rest → s = p ++ rest.
Proof.
  revert s. induction p as [|a p IH]; intros s.
  - by intros [= ->].
  - destruct s as [|b s]; [done|]. rewrite strip_prefix_cons.
    destruct (Ascii.eqb a b) eqn:E; [|done]. apply Ascii.eqb_eq in E as ->.
    intros Hrest. rewrite append_cons. f_equal. by apply IH.
Qed.

Lemma strip_prefix_app_some (p x y rest : string) :
  PyStr.strip_prefix p x = Some rest →
  PyStr.strip_prefix p (x ++ y) = Some (rest ++ y).
Proof.
  revert x. induction p as [|a p IH]; intros x.
  - by intros [= ->].
  - destruct x as [|b x]; [done|]. rewrite append_cons, !strip_prefix_cons.
    destruct (Ascii.eqb a b); [apply IH|done].
Qed.

Lemma strip_prefix_app_none (p x y : string) :
  PyStr.strip_prefix p x = None →
  (String.length p ≤ String.length x)%nat →
  PyStr.strip_prefix p (x ++ y) = None.
Proof.
  revert x. induction p as [|a p IH]; intros x; [done|].
  destruct x as [|b x]; [simpl; lia|].
  rewrite append_cons, !strip_prefix_cons.
  destruct (Ascii.eqb a b); [|done]. simpl. intros Hnone Hlen.
  apply IH; [done|lia].
Qed.

Lemma until_closing_cons (c : ascii) (s : string) :
  Note.until_closing (String c s)
  = match PyStr.strip_prefix Note.closing (String c s) with
    | Some rest => Some (EmptyString, rest)
    | None =>
        match Note.until_closing s with
        | Some (front, rest) => Some (String c front, rest)
        | None => None
        end
    end.
Proof. reflexivity. Qed.

Lemma contains_cons (sub : string) (c : ascii) (s : string) :
  PyStr.contains sub (String c s)
  = PyStr.startswith sub (String c s) || PyStr.contains sub s.
Proof. reflexivity. Qed.

Lemma closing_split (front rest : string) :
  front ++ Note.closing ++ rest
  = (front ++ Fence.nl ++ "---") ++ Fence.nl ++ rest.
Proof.
  induction front as [|c front IH]; [reflexivity|].
  rewrite !append_cons. by f_equal.
Qed.

Lemma length_append (s t : string) :
  String.length (s ++ t) = (String.length s + String.length t)%nat.
Proof. induction s as [|c s IH]; simpl; [done|]. by rewrite IH. Qed.

Lemma until_closing_spec (s front rest : string) :
  Note.until_closing s = Some (front, rest)
  ↔ s = front ++ Note.closing ++ rest
    ∧ PyStr.contains Note.closing (front ++ Fence.nl ++ "---") = false.
Proof.
  split.
  - revert front. induction s as [|c s IH]; intros front; [done|].
    rewrite until_closing_cons.
    destruct (PyStr.strip_prefix Note.closing (String c s)) as [r|] eqn:Hhead.
    + intros [= <- <-]. apply strip_prefix_sound in Hhead. by split.
    + destruct (Note.until_closing s) as [[front' rest']|]; [|done].
      intros [= <- <-]. destruct (IH front' eq_refl) as [-> Hfirst].
      split; [done|]. rewrite append_cons, contains_cons, Hfirst.
      rewrite orb_false_r. unfold PyStr.startswith.
      destruct (PyStr.strip_prefix Note.closing
                  (String c (front' ++ Fence.nl ++ "---"))) as [r|] eqn:Hs;
        [|done].
      apply (strip_prefix_app_some _ _ (Fence.nl ++ rest')) in Hs.
      rewrite <- append_cons, closing_split in Hhead.
      rewrite <- append_cons in Hs. congruence.
  - intros [-> Hfirst]. induction front as [|c front IH].
    + rewrite append_empty. 
      assert (Note.until_closing (Note.closing ++ rest)
              = match PyStr.strip_prefix Note.closing (Note.closing ++ rest) with
                | Some r => Some (EmptyString, r)
                | None => None
                end) as -> by reflexivity.
      by rewrite strip_prefix_app.
    + rewrite append_cons, contains_cons in Hfirst.
      apply orb_false_iff in Hfirst as [Hhead Hfirst].
      rewrite append_cons, until_closing_cons, IH by done.
      rewrite <- append_cons, closing_split.
      rewrite strip_prefix_app_none; [done| |].
      * unfold PyStr.startswith in Hhead.
        by destruct (PyStr.strip_prefix Note.closing _).
      * rewrite length_append. simpl. lia.
Qed.

Section NoteProperties.
Context {RT : Runtime} {YAML : Note.Yaml}.

(** X11: the frontmatter block of a note. [parse_frontmatter] finds a
    block with text [front] and body [rest] exactly when the note is the
    opening marker, [front], the closing marker and [rest], and that
    closing marker is the first one behind the opening marker. So nothing
    of the note is lost or changed by the split, the body may hold further
    markers, and a note that does not start with the opening marker has no
    block. *)
Theorem frontmatter_match_first_closing (note_text front rest : string) :
  Note.frontmatter_match note_text = Some (front, rest)
  ↔ note_text = Note.opening ++ front ++ Note.closing ++ rest
    ∧ PyStr.contains Note.closing (front ++ Fence.nl ++ "---") = false.
Proof.
  unfold Note.frontmatter_match. split.
  - destruct (PyStr.strip_prefix Note.opening note_text) as [s|] eqn:Ho; [|done].
    apply strip_prefix_sound in Ho as ->.
    intros [-> Hfirst]%until_closing_spec. by split.
  - intros [-> Hfirst]. rewrite strip_prefix_app.
    by apply until_closing_spec.
Qed.

Lemma extract_is_ok (self : Extract.FeedbackExtractor) (note_content : string)
    (metadata : Extract.MeetingMetadata) :
  is_ok (Extract.extract_feedback_with_claude self note_content metadata) = true
  ↔ ∃ prompt,
      Extract.user_prompt note_content metadata = Ok prompt
      ∧ ∀ msg, Extract.client self (Extract.extraction_prompt self) prompt
               ≠ RaisedDecodeError msg.
Proof.
  unfold Extract.extract_feedback_with_claude.
  destruct (Extract.user_prompt note_content metadata) as [prompt|];
    [|split; [done|by intros (? & [=] & _)]].
  cbn [mbind result_bind rbind].
  destruct (Extract.client self _ prompt) as [text|msg|msg] eqn:Hcall.
  - split; [intros _; exists prompt; split; [done|by rewrite Hcall]|intros _].
    destruct (json_loads _); [done|].
    by destruct (Extract.stamp_all metadata _).
  - split; [intros _; exists prompt; split; [done|by rewrite Hcall]|done].
  - split; [done|]. intros (prompt' & [= <-] & Hnot).
    rewrite Hcall in Hnot. by destruct (Hnot msg).
Qed.

(** X12: when the per-note pipeline ([process_note_file],
    [process_note_text]) returns. It returns exactly when
    [parse_frontmatter] returns (the loader gave a value or raised a
    [yaml.YAMLError], not another exception), the frontmatter it gives is
    a mapping (as it is for a note without a block and for a block that is
    not valid YAML, which both count as the empty mapping), the attendees
    derived from it can be joined into the prompt, and the oracle call on
    that prompt does not raise a [json.JSONDecodeError]. In every other
    case the call raises. What the oracle replies, or any other failure
    of its call, plays no part in that. *)
Theorem process_note_returns_iff (self : Extract.FeedbackExtractor)
    (file_name : option string) (note_text : string) :
  is_ok (Note.process_note self file_name note_text) = true
  ↔ ∃ parsed d prompt,
      Note.parse_frontmatter note_text = Ok parsed
      ∧ Note.frontmatter parsed = JDict d
      ∧ Extract.user_prompt (Note.body parsed)
          (Extract.extract_meeting_metadata d file_name) = Ok prompt
      ∧ ∀ msg, Extract.client self (Extract.extraction_prompt self) prompt
               ≠ RaisedDecodeError msg.
Proof.
  unfold Note.process_note.
  destruct (Note.parse_frontmatter note_text) as [parsed|e];
    [|split; [done|by intros (? & ? & ? & [=] & _)]].
  cbn [mbind result_bind rbind].
  destruct (Note.frontmatter parsed) as [|b|n|s|l|d] eqn:Hfm.
  1-5: split; [|intros (parsed' & d & prompt & [= <-] & Hd & _); congruence];
    simpl; try done.
  1-2: by destruct (_ || _).
  cbn [Note.extract_meeting_metadata mbind result_bind rbind].
  rewrite extract_is_ok. split.
  - intros (prompt & Hprompt & Hcall). by exists parsed, d, prompt.
  - intros (parsed' & d' & prompt & [= <-] & Hd & Hprompt & Hcall).
    rewrite Hfm in Hd. injection Hd as <-. by exists prompt.
Qed.

(** X13: a frontmatter block that parses to something other than a
    mapping (an empty block, which YAML reads as None, a scalar, a list)
    makes the per-note pipeline raise a TypeError or an AttributeError
    from [extract_meeting_metadata]; nothing catches it, and the oracle is
    not consulted (the error is the same for every extractor). *)
Theorem process_note_needs_mapping (file_name : option string)
    (note_text : string) (parsed : Note.ParsedNote) :
  Note.parse_frontmatter note_text = Ok parsed →
  (∀ d, Note.frontmatter parsed ≠ JDict d) →
  ∃ e, (∀ self, Note.process_note self file_name note_text = Raise e)
       ∧ (exn_kind e = TypeError ∨ exn_kind e = AttributeError).
Proof.
  intros Hparse Hnot. unfold Note.process_note. rewrite Hparse.
  cbn [mbind result_bind rbind].
  destruct (Note.frontmatter parsed) as [|b|n|s|l|d] eqn:Hfm.
  6: by destruct (Hnot d).
  all: cbn [Note.extract_meeting_metadata].
  4-5: destruct (_ || _).
  all: eexists; split; [intros self; reflexivity|simpl; auto].
Qed.

End NoteProperties.

(** ** Notes: the metadata of a note *)

Section MetadataProperties.
Context {RT : Runtime}.

Lemma date_here_shaped (s d : string) :
  Extract.date_here s = Some d →
  date_shaped d = true ∧ PyStr.startswith d s = true.
Proof.
  unfold Extract.date_here.
  destruct s as [|y1 [|y2 [|y3 [|y4 [|d1 [|m1 [|m2 [|d2 [|a1 [|a2 s]]]]]]]]]];
    try done.
  destruct (_ && _) eqn:Hshape; [|done]. intros [= <-].
  split; [exact Hshape|].
  unfold PyStr.startswith. cbn [PyStr.slice_to PyStr.strip_prefix].
  by rewrite !Ascii.eqb_refl.
Qed.

Lemma search_date_shaped (s d : string) :
  Extract.search_date s = Some d →
  date_shaped d = true ∧ PyStr.contains d s = true.
Proof.
  induction s as [|c s IH].
  - by vm_compute.
  - change (Extract.search_date (String c s))
      with (match Extract.date_here (String c s) with
            | Some d => Some d
            | None => Extract.search_date s
            end).
    destruct (Extract.date_here (String c s)) as [d'|] eqn:Hhere.
    + intros [= ->]. apply date_here_shaped in Hhere as [Hshape Hstart].
      split; [done|]. by rewrite contains_cons, Hstart.
    + intros Hs. destruct (IH Hs) as [Hshape Hin]. split; [done|].
      rewrite contains_cons, Hin. by rewrite orb_true_r.
Qed.

(** X14: the meeting date of a note whose frontmatter has neither [date]
    nor [created]. It is today's date, or, when a file name is given, a
    text of the shape dddd-dd-dd that occurs in the file name. *)
Theorem meeting_date_without_frontmatter_date (frontmatter : dict)
    (file_name : option string) :
  dict_has "date" frontmatter = false →
  dict_has "created" frontmatter = false →
  let meeting_date :=
    Extract.meeting_date (Extract.extract_meeting_metadata frontmatter file_name) in
  meeting_date = today
  ∨ ∃ f, file_name = Some f ∧ date_shaped meeting_date = true
         ∧ PyStr.contains meeting_date f = true.
Proof.
  intros Hdate Hcreated. cbn [Extract.extract_meeting_metadata Extract.meeting_date].
  rewrite Hdate, Hcreated. unfold Extract.file_name_given.
  destruct file_name as [f|]; [|by left].
  destruct (String.eqb f ""); [by left|].
  destruct (Extract.search_date f) as [d|] eqn:Hsearch; [|by left].
  apply search_date_shaped in Hsearch as [Hshape Hin].
  destruct (String.eqb d "") eqn:Hempty; [by left|].
  right. by exists f.
Qed.

(** X15: the meeting title of a note read from a file whose frontmatter
    has no [title] is the file name as it is, extension included: the
    removal of [.md] at line 178 applies only when the title is literally
    [Untitled Meeting]. *)
Theorem meeting_title_defaults_to_file_name (frontmatter : dict) (f : string) :
  dict_get "title" frontmatter = None →
  f ≠ "" →
  f ≠ "Untitled Meeting" →
  Extract.meeting_title (Extract.extract_meeting_metadata frontmatter (Some f))
  = JStr f.
Proof.
  intros Htitle Hf Hnot.
  cbn [Extract.extract_meeting_metadata Extract.meeting_title].
  unfold dict_get_default, Extract.file_name_given. rewrite Htitle.
  destruct (String.eqb f "") eqn:He; [by apply String.eqb_eq in He|].
  destruct (String.eqb f "Untitled Meeting") eqn:Hu;
    [by apply String.eqb_eq in Hu|done].
Qed.

End MetadataProperties.

(** ** Enrichment: what every result holds, and what a valid reply keeps *)

Section ResultProperties.
Context {RT : Runtime}.

Lemma dict_has_set (k k' : string) (v : json) (d : dict) :
  dict_has k d = true → dict_has k (dict_set k' v d) = true.
Proof.
  unfold dict_has. destruct (String.eqb k k') eqn:E.
  - apply String.eqb_eq in E as ->. by rewrite dict_get_set_eq.
  - apply String.eqb_neq in E. by rewrite dict_get_set_ne.
Qed.

Lemma force_member_keeps_fields (keys : list string) (field confidence : string)
    (d d1 : dict) (k : string) :
  Enrich.force_member keys field confidence d = Ok d1 →
  dict_has k d = true → dict_has k d1 = true.
Proof.
  intros [[_ ->]|[_ ->]]%force_member_ok Hk; [done|].
  by do 2 apply dict_has_set.
Qed.

Lemma check_required_ok (fields : list string) (d : dict) :
  Enrich.check_required fields (JDict d) = Ok tt
  ↔ Forall (λ field, dict_has field d = true) fields.
Proof.
  induction fields as [|field fields IH]; simpl; [done|].
  rewrite Forall_cons. destruct (dict_has field d); simpl.
  - rewrite IH. naive_solver.
  - naive_solver.
Qed.

Lemma validate_has_required (self : Enrich.FeedbackEnricher)
    (enrichment : json) (d' : dict) :
  Enrich.validate self enrichment = Ok d' →
  Forall (λ field, dict_has field d' = true) Enrich.required_fields.
Proof.
  intros Hv. pose proof Hv as (d & d1 & -> & Hseg & Hdep)%validate_ok.
  unfold Enrich.validate in Hv.
  destruct (Enrich.check_required Enrich.required_fields (JDict d)) as [[]|]
    eqn:Hreq; [|done].
  apply check_required_ok in Hreq.
  eapply Forall_impl; [exact Hreq|]. intros k Hk. simpl in Hk.
  eapply force_member_keeps_fields; [exact Hdep|].
  eapply force_member_keeps_fields; [exact Hseg|done].
Qed.

(** X16: every result of [enrich_feedback_item] (the dry-run mock, a
    validated reply, a fallback) holds the five required fields, so the
    subscripts of [enrich_batch] at lines 287-290 and 304 never raise a
    KeyError. *)
Theorem enrichment_has_required_fields (self : Enrich.FeedbackEnricher)
    (feedback_item : dict) (dry_run : bool) (enrichment : dict) :
  Enrich.enrich_feedback_item self feedback_item dry_run = Ok enrichment →
  Forall (λ field, dict_has field enrichment = true) Enrich.required_fields.
Proof.
  unfold Enrich.enrich_feedback_item.
  destruct (Enrich.user_prompt feedback_item) as [prompt|]; [|done].
  cbn [mbind result_bind rbind].
  destruct dry_run; [by intros [= <-]; repeat constructor|].
  unfold Enrich.classify.
  destruct (Enrich.client self _ prompt) as [text|msg|msg];
    [|by intros [= <-]; repeat constructor|done].
  destruct (json_loads _) as [[msg|msg]|parsed];
    [by intros [= <-]; repeat constructor..|].
  destruct (Enrich.validate self parsed) as [d'|e] eqn:Hv;
    intros [= <-]; [|by repeat constructor].
  by apply validate_has_required in Hv.
Qed.

Lemma force_member_of_member (keys : list string) (field confidence : string)
    (d : dict) (name : string) :
  dict_get field d = Some (JStr name) → name ∈ keys →
  Enrich.force_member keys field confidence d = Ok d.
Proof.
  intros Hget Hin. unfold Enrich.force_member, Enrich.getitem. rewrite Hget.
  cbn [mbind result_bind rbind Enrich.in_taxonomy].
  by rewrite bool_decide_eq_true_2.
Qed.

(** X17: a reply that parses to an object holding the five required
    fields, whose segment and department are names of the two taxonomies,
    is returned as it is: no field is added, removed or changed. The two
    confidences are not checked at all (they need not be numbers between
    0 and 1), and fields the oracle added are kept. *)
Theorem valid_enrichment_returned_unchanged (self : Enrich.FeedbackEnricher)
    (feedback_item : dict) (prompt text : string) (parsed : dict)
    (segment department : string) :
  Enrich.user_prompt feedback_item = Ok prompt →
  Enrich.client self (Enrich.enrichment_prompt self) prompt = Replied text →
  json_loads (Fence.json_text text) = inr (JDict parsed) →
  Forall (λ field, dict_has field parsed = true) Enrich.required_fields →
  dict_get "segment" parsed = Some (JStr segment) →
  segment ∈ Enrich.segments self →
  dict_get "department" parsed = Some (JStr department) →
  department ∈ Enrich.departments self →
  Enrich.enrich_feedback_item self feedback_item false = Ok parsed.
Proof.
  intros Hprompt Hreply Hparse Hreq Hseg Hsin Hdep Hdin.
  rewrite (enrich_feedback_item_classifies _ _ prompt) by done.
  unfold Enrich.classify. rewrite Hreply, Hparse.
  unfold Enrich.validate. apply check_required_ok in Hreq. rewrite Hreq.
  cbn [mbind result_bind rbind Enrich.validate_taxonomies].
  rewrite (force_member_of_member _ _ _ _ segment) by done.
  cbn [mbind result_bind rbind].
  by rewrite (force_member_of_member _ _ _ _ department).
Qed.

(** ** Enrichment: what the loop leaves alone *)

Lemma rmap_Forall2 {A B} (f : A → result B) (xs : list A) (ys : list B) :
  rmap f xs = Ok ys → Forall2 (λ x y, f x = Ok y) xs ys.
Proof.
  revert ys. induction xs as [|x xs IH]; intros ys; simpl.
  - intros [= <-]. constructor.
  - destruct (f x) as [y|] eqn:Hx; [|done].
    destruct (rmap f xs) as [ys'|]; [|done].
    intros [= <-]. constructor; [done|by apply IH].
Qed.

Lemma floor_field_other (field : string) (confidence : json) (item item' : dict)
    (k : string) :
  Enrich.floor_field field confidence item = Ok item' →
  k ≠ field → dict_get k item' = dict_get k item.
Proof.
  intros (low & _ & ->)%floor_field_ok Hk.
  destruct low; [by rewrite dict_get_set_ne|done].
Qed.

Lemma apply_enrichment_other (enrichment : dict) (skip_low_confidence : bool)
    (item item' : dict) (k : string) :
  Enrich.apply_enrichment enrichment skip_low_confidence item = Ok item' →
  k ∉ enriched_keys →
  dict_get k item' = dict_get k item.
Proof.
  intros Happly Hk.
  assert (k ≠ "segment" ∧ k ≠ "department" ∧ k ≠ "segment_confidence"
          ∧ k ≠ "department_confidence" ∧ k ≠ "tags")
    as (K1 & K2 & K3 & K4 & K5).
  { unfold enriched_keys in Hk. set_solver. }
  revert Happly. unfold Enrich.apply_enrichment.
  destruct (Enrich.getitem "segment" enrichment) as [segment|]; [|done].
  destruct (Enrich.getitem "department" enrichment) as [department|]; [|done].
  destruct (Enrich.getitem "segment_confidence" enrichment) as [sc|]; [|done].
  destruct (Enrich.getitem "department_confidence" enrichment) as [dc|]; [|done].
  cbn [mbind result_bind rbind].
  set (item4 := dict_set "department_confidence" dc _).
  assert (dict_get k item4 = dict_get k item) as H4
    by (subst item4; by rewrite !dict_get_set_ne).
  destruct skip_low_confidence.
  - destruct (Enrich.floor_field "segment" sc item4) as [item5|] eqn:H5; [|done].
    cbn [mbind result_bind rbind].
    destruct (Enrich.floor_field "department" dc item5) as [item6|] eqn:H6;
      [|done].
    cbn [mbind result_bind rbind].
    intros (? & ? & merged & _ & _ & _ & ->)%merge_tags_ok.
    rewrite dict_get_set_ne by done.
    rewrite (floor_field_other _ _ _ _ _ H6) by done.
    by rewrite (floor_field_other _ _ _ _ _ H5).
  - cbn [mbind result_bind rbind].
    intros (? & ? & merged & _ & _ & _ & ->)%merge_tags_ok.
    by rewrite dict_get_set_ne.
Qed.

(** X18: [enrich_batch] returns as many items as it was given, in the
    same order, and each differs from its input in at most the five fields
    [segment], [department], [segment_confidence],
    [department_confidence] and [tags]. *)
Theorem enrich_batch_keeps_other_fields (self : Enrich.FeedbackEnricher)
    (feedback_items enriched_items : list dict)
    (dry_run skip_low_confidence : bool) :
  Enrich.enrich_batch self feedback_items dry_run skip_low_confidence
  = Ok enriched_items →
  Forall2 (λ item item',
             ∀ k, k ∉ enriched_keys → dict_get k item' = dict_get k item)
    feedback_items enriched_items.
Proof.
  intros Hrun%rmap_Forall2. eapply Forall2_impl; [exact Hrun|].
  intros item item' Hone k Hk. simpl in Hone.
  unfold Enrich.enrich_one in Hone.
  destruct (Enrich.title_preview item); [|done].
  destruct (Enrich.enrich_feedback_item self item dry_run) as [enrichment|];
    [|done].
  cbn [mbind result_bind rbind] in Hone.
  by apply (apply_enrichment_other _ _ _ _ k) in Hone.
Qed.

(** ** Enrichment: the dry run and the failed call under the confidence floor *)

Lemma enrich_one_ok (self : Enrich.FeedbackEnricher)
    (dry_run skip_low_confidence : bool) (item item' : dict) :
  Enrich.enrich_one self dry_run skip_low_confidence item = Ok item' →
  ∃ enrichment,
    Enrich.enrich_feedback_item self item dry_run = Ok enrichment
    ∧ Enrich.apply_enrichment enrichment skip_low_confidence item = Ok item'.
Proof.
  unfold Enrich.enrich_one.
  destruct (Enrich.title_preview item); [|done].
  destruct (Enrich.enrich_feedback_item self item dry_run) as [enrichment|];
    [|done].
  cbn [mbind result_bind rbind]. intros Ha. by exists enrichment.
Qed.

(** X19: in a dry run every item that is processed gets segment and
    department [Other] with both confidences 0.5, also under the
    confidence floor (0.5 is not below 0.5, so nothing becomes
    [Uncertain]), and the tag [dry-run] is merged into its tags. *)
Theorem dry_run_classifies_other (self : Enrich.FeedbackEnricher)
    (skip_low_confidence : bool) (item item' : dict) :
  Enrich.enrich_one self true skip_low_confidence item = Ok item' →
  dict_get "segment" item' = Some (JStr "Other")
  ∧ dict_get "department" item' = Some (JStr "Other")
  ∧ dict_get "segment_confidence" item' = Some Enrich.half
  ∧ dict_get "department_confidence" item' = Some Enrich.half
  ∧ ∃ tags, dict_get "tags" item' = Some (JList tags) ∧ JStr "dry-run" ∈ tags.
Proof.
  intros (enrichment & He & Ha)%enrich_one_ok.
  unfold Enrich.enrich_feedback_item in He.
  destruct (Enrich.user_prompt item) as [prompt|]; [|done].
  injection He as <-.
  apply apply_enrichment_ok in Ha
    as (segment & department & sc & dc & existing & enriched & merged
        & [= <-] & [= <-] & Hsc & Hdc & [= <-] & [= <-] & Hfloor & _ & [= <-]
        & Hm & Htags).
  split_and!; [| |done|done|].
  - destruct skip_low_confidence; [|by destruct Hfloor].
    destruct Hfloor as (ls & ld & [= <-] & [= <-] & Hs & _). exact Hs.
  - destruct skip_low_confidence; [|by destruct Hfloor].
    destruct Hfloor as (ls & ld & [= <-] & [= <-] & _ & Hd). exact Hd.
  - exists merged. split; [done|]. apply list_of_set_ok in Hm as ->.
    apply set_add_all_complete_str. apply elem_of_app. right. by left.
Qed.

(** X20: under the confidence floor, an item whose oracle call fails does
    not end up with the fallback's [Other]: the fallback's confidences are
    0.0, so the floor replaces both names by [Uncertain]. *)
Theorem failed_call_marked_uncertain (self : Enrich.FeedbackEnricher)
    (item item' : dict) (prompt msg : string) :
  Enrich.user_prompt item = Ok prompt →
  Enrich.client self (Enrich.enrichment_prompt self) prompt = Failed msg →
  Enrich.enrich_one self false true item = Ok item' →
  dict_get "segment" item' = Some (JStr "Uncertain")
  ∧ dict_get "department" item' = Some (JStr "Uncertain")
  ∧ dict_get "segment_confidence" item' = Some Enrich.zero
  ∧ dict_get "department_confidence" item' = Some Enrich.zero.
Proof.
  intros Hprompt Hfail (enrichment & He & Ha)%enrich_one_ok.
  rewrite (enrich_feedback_item_classifies _ _ prompt) in He by done.
  unfold Enrich.classify in He. rewrite Hfail in He. injection He as <-.
  apply apply_enrichment_ok in Ha
    as (segment & department & sc & dc & existing & enriched & merged
        & [= <-] & [= <-] & Hsc & Hdc & [= <-] & [= <-] & Hfloor & _).
  destruct Hfloor as (ls & ld & [= <-] & [= <-] & Hs & Hd).
  by split_and!.
Qed.

End ResultProperties.

(** ** Batch sync: the first attendee, and the link to the rows *)

Section CellProperties.
Context {RT : Runtime}.

Lemma split_head_without_separator (s : string) :
  PyStr.contains "," (hd "" (PyStr.split "," s)) = false.
Proof.
  induction s as [|c s IH]; [done|].
  cbn [PyStr.split]. destruct (Ascii.eqb c ",") eqn:Hc; [done|].
  destruct (PyStr.split "," s) as [|w ws]; cbn [hd] in *.
  - rewrite contains_cons. unfold PyStr.startswith.
    rewrite strip_prefix_cons, Ascii.eqb_sym, Hc. done.
  - rewrite contains_cons, IH. unfold PyStr.startswith.
    by rewrite strip_prefix_cons, Ascii.eqb_sym, Hc.
Qed.

Lemma split_head_is_prefix (s : string) :
  s = hd "" (PyStr.split "," s)
  ∨ ∃ rest, s = hd "" (PyStr.split "," s) ++ "," ++ rest.
Proof.
  induction s as [|c s IH]; [by left|].
  cbn [PyStr.split]. destruct (Ascii.eqb c ",") eqn:Hc.
  - apply Ascii.eqb_eq in Hc as ->. right. by exists s.
  - destruct (PyStr.split "," s) as [|w ws]; cbn [hd] in *.
    + destruct IH as [->|[rest ->]]; [by left|right; by exists rest].
    + destruct IH as [->|[rest ->]]; [by left|right; by exists rest].
Qed.

Lemma format_list_falsy (field : json) :
  truthy field = false → Sync.format_list field = "".
Proof.
  destruct field as [|b|n|s|l|d]; simpl; try done.
  - by intros ->.
  - by intros ->.
  - by intros ->.
  - by destruct l.
  - by intros ->.
Qed.

(** X21: columns L and P of every row hold the same text, which is what
    stands before the first comma of the joined attendees in column S:
    it holds no comma, and the joined attendees are that text alone or
    that text, a comma and more. So the two cells hold the first attendee
    when no name has a comma in it, and an attendee whose name holds a
    comma is cut there. *)
Theorem format_row_first_attendee (item item1 : dict) (row : list json) :
  Sync.format_row item = Ok (item1, row) →
  ∃ name joined,
    nth_error row 11 = Some (JStr name)
    ∧ nth_error row 15 = Some (JStr name)
    ∧ nth_error row 18 = Some (JStr joined)
    ∧ joined = Sync.format_list (dict_get_default "attendees" (JList []) item)
    ∧ PyStr.contains "," name = false
    ∧ (joined = name ∨ ∃ rest, joined = name ++ "," ++ rest).
Proof.
  unfold Sync.format_row.
  destruct (Sync.ensure_id item) as [item'|] eqn:Hid; [|done].
  apply ensure_id_ok in Hid as (_ & Hother & _).
  cbn [mbind result_bind rbind].
  destruct (Sync.slice_value 100 _) as [title|]; [|done].
  cbn [mbind result_bind rbind]. intros [= <- <-]. cbn [nth_error].
  unfold Sync.first_attendee, dict_get_default.
  rewrite (Hother "attendees") by discriminate.
  destruct (dict_get "attendees" item) as [a|].
  - destruct (truthy a) eqn:Htruthy.
    + eexists _, _. split_and!; [done|done|done|done| |].
      * apply split_head_without_separator.
      * apply split_head_is_prefix.
    + exists "", "". rewrite (format_list_falsy a Htruthy).
      split_and!; try done. by left.
  - exists "", "". split_and!; try done. by left.
Qed.

End CellProperties.

Lemma list_min_consecutive (first : Z) (a n : nat) (acc : Z) :
  (acc ≤ first + Z.of_nat a)%Z →
  fold_left Z.min (map (λ i, (first + Z.of_nat i)%Z) (seq a n)) acc = acc.
Proof.
  revert a acc. induction n as [|n IH]; intros a acc Hle; [done|].
  cbn [seq map fold_left]. rewrite Z.min_l by done. apply IH. lia.
Qed.

Lemma list_max_consecutive (first : Z) (a n : nat) (acc : Z) :
  (acc ≤ first + Z.of_nat a)%Z →
  fold_left Z.max (map (λ i, (first + Z.of_nat i)%Z) (seq a n)) acc
  = match n with
    | O => acc
    | S m => (first + Z.of_nat (a + m))%Z
    end.
Proof.
  revert a acc. induction n as [|n IH]; intros a acc Hle; [done|].
  cbn [seq map fold_left]. rewrite Z.max_r by done.
  rewrite IH by lia. destruct n as [|m]; f_equal; lia.
Qed.

Lemma string_app_assoc (a b c : string) : (a ++ b) ++ c = a ++ b ++ c.
Proof.
  induction a as [|x a IH]; [done|]. rewrite !append_cons. by f_equal.
Qed.

(** X22: the link for the rows a sync reports. For no rows it is the
    plain address of the spreadsheet; for [n] consecutive rows from
    [first] on (what [batch_append] reports) it carries the range from
    column A of row [first] to column Z of row [first + n - 1]. *)
Theorem get_sheet_url_of_consecutive_rows (spreadsheet_id gid : string)
    (first : Z) (n : nat) :
  SheetUrl.get_sheet_url spreadsheet_id gid (Some (consecutive first n))
  = match n with
    | O => SheetUrl.get_sheet_url spreadsheet_id gid None
    | S m =>
        SheetUrl.get_sheet_url spreadsheet_id gid None
        ++ "#gid=" ++ gid ++ "&range=A" ++ PyStr.of_Z first
        ++ ":Z" ++ PyStr.of_Z (first + Z.of_nat m)
    end.
Proof.
  destruct n as [|m]; [done|].
  unfold SheetUrl.get_sheet_url, consecutive. cbn [seq map].
  unfold SheetUrl.list_min, SheetUrl.list_max.
  rewrite list_min_consecutive by lia. rewrite list_max_consecutive by lia.
  rewrite Z.add_0_r.
  rewrite !string_app_assoc. do 6 f_equal.
  destruct m as [|m']; [by rewrite Z.add_0_r|done].
Qed.

(** ** Batch sync: items without a title, and a refused row count *)

Section BatchErrors.
Context {RT : Runtime} {Sheet : Type} {WS : Sync.Worksheet Sheet}
  {CL : Sync.Clock}.

Lemma format_row_keeps_title (item item1 : dict) (row : list json) :
  Sync.format_row item = Ok (item1, row) →
  dict_get "title" item1 = dict_get "title" item.
Proof.
  intros [Hid _]%format_row_ok.
  by apply ensure_id_ok in Hid as (_ & Hother & _); apply Hother.
Qed.

Lemma rmap_format_row_untitled (items : list dict)
    (formatted : list (dict * list json)) :
  rmap Sync.format_row items = Ok formatted →
  Exists (λ item, ¬ has_title item) items →
  Exists (λ pair : dict * list json, ¬ has_title pair.1) formatted.
Proof.
  intros Hrun%rmap_Forall2. induction Hrun as [|item [item1 row] items formatted Hrow _ IH].
  - by intros ?%Exists_nil.
  - apply format_row_keeps_title in Hrow.
    intros [Hitem|Hrest]%Exists_cons.
    + apply Exists_cons_hd. unfold has_title in *. simpl. by rewrite Hrow.
    + apply Exists_cons_tl. by apply IH.
Qed.

Lemma filter_duplicates_raises (existing_titles : list string)
    (pairs acc : list (dict * list json)) (k : nat) :
  Exists (λ pair : dict * list json, ¬ has_title pair.1) pairs →
  ∃ e, Sync.filter_duplicates existing_titles pairs acc k = Raise e
       ∧ (exn_kind e = KeyError ∨ exn_kind e = AttributeError).
Proof.
  intros Hbad. revert acc k.
  induction pairs as [|[item row] pairs IH]; intros acc k;
    [by apply Exists_nil in Hbad|].
  cbn [Sync.filter_duplicates]. unfold Sync.title_arg.
  destruct (dict_get "title" item) as [v|] eqn:Ht.
  2: { eexists. split; [done|by left]. }
  destruct v as [|b|n|t|l|d].
  4: { cbn [mbind result_bind rbind].
       assert (Exists (λ pair : dict * list json, ¬ has_title pair.1) pairs) as Hrest.
       { apply Exists_cons in Hbad as [Hitem|Hrest]; [|done].
         destruct Hitem. by exists t. }
       destruct (Sync.check_duplicate t existing_titles); by apply IH. }
  all: eexists; split; [done|by right].
Qed.

(** X23: with deduplication enabled, a batch in which some item has no
    title, or a title that is not a string, is not written at all:
    [batch_append] raises, having made no call or only the read of column
    B, no append and no sleep. *)
Theorem batch_append_needs_titles (depth : nat) (self : Sync.FeedbackSheetsSync)
    (items : list dict) (batch_size : nat) (w : Sync.world Sheet) :
  Sync.deduplicate self = true →
  Exists (λ item, ¬ has_title item) items →
  ∃ e w',
    Sync.batch_append (S depth) self items batch_size w = (Raise e, w')
    ∧ (Sync.calls w' = Sync.calls w
       ∨ Sync.calls w' = (Sync.calls w ++ [Sync.ColValues 2])%list)
    ∧ Sync.slept w' = Sync.slept w.
Proof.
  intros Hdedupe Hbad.
  destruct items as [|item items]; [by apply Exists_nil in Hbad|].
  cbn [Sync.batch_append].
  destruct (rmap Sync.format_row (item :: items)) as [formatted|e] eqn:Hf.
  - unfold Sync.io_bind at 1. unfold Sync.io_lift at 1. unfold Sync.io_bind at 1.
    unfold Sync.select_rows. rewrite Hdedupe.
    unfold Sync.io_bind at 1. rewrite get_existing_titles_run.
    unfold Sync.io_lift.
    destruct (filter_duplicates_raises
                match (Sync.col_values 2 (Sync.sheet w)).1 with
                | Ok column_b => store_titles column_b
                | Raise _ => []
                end formatted [] 0) as (e & -> & _).
    { by apply (rmap_format_row_untitled (item :: items)). }
    eexists _, _. split; [done|]. split; [by right|done].
  - exists e, w. by split; [|split; [left|]].
Qed.

(** A row formatted again behind a sleep. The item has its id by then, so
    the clock is read for nothing but the two date cells, and for those
    only when the item carries no date of its own. *)
Lemma ensure_id_present (item : dict) (id : json) :
  dict_get "id" item = Some id → truthy id = true →
  ∀ rt : Runtime, Sync.ensure_id (RT:=rt) item = Ok item.
Proof.
  intros Hid Htruthy rt. unfold Sync.ensure_id, dict_has, dict_get_default.
  by rewrite Hid, Htruthy.
Qed.

Lemma format_row_later (seconds : nat) (item item1 : dict) (row : list json) :
  Sync.format_row item = Ok (item1, row) →
  ∃ row',
    Sync.format_row (RT:=Sync.later seconds RT) item1 = Ok (item1, row')
    ∧ (∀ i, i ≠ 16%nat → i ≠ 17%nat → nth_error row' i = nth_error row i)
    ∧ (Sync.today_after seconds RT = today → row' = row).
Proof.
  intros Hrun.
  destruct (format_row_ok _ _ _ Hrun) as (Hid & title & Ht & _).
  destruct (ensure_id_ok _ _ Hid) as ((id & Hget & Htruthy) & _ & Hagain).
  revert Hrun. unfold Sync.format_row.
  rewrite Hid, (ensure_id_present item1 id Hget Htruthy (Sync.later seconds RT)).
  cbn [mbind result_bind rbind]. rewrite Ht.
  cbn [mbind result_bind rbind]. intros [= <-].
  eexists. split; [reflexivity|]. split.
  - intros i H16 H17.
    do 26 (destruct i as [|i]; [try done; reflexivity|]).
    reflexivity.
  - intros Hsame. cbn [today Sync.later]. rewrite Hsame. reflexivity.
Qed.

Lemma rmap_format_row_later (seconds : nat) (items : list dict)
    (formatted : list (dict * list json)) :
  rmap Sync.format_row items = Ok formatted →
  ∃ again,
    rmap (Sync.format_row (RT:=Sync.later seconds RT)) (map fst formatted)
    = Ok again
    ∧ map fst again = map fst formatted
    ∧ Forall2 (λ row row', ∀ i, i ≠ 16%nat → i ≠ 17%nat →
                           nth_error row' i = nth_error row i)
        (map snd formatted) (map snd again)
    ∧ (Sync.today_after seconds RT = today → again = formatted).
Proof.
  intros Hrun%rmap_Forall2.
  induction Hrun as [|item [item1 row] items formatted Hrow _ IH].
  - exists []. by split_and!; [| |constructor|].
  - destruct IH as (again & Hagain & Hitems & Hcells & Hsame).
    destruct (format_row_later seconds _ _ _ Hrow) as (row' & Hrow' & Hcell & Heq).
    exists ((item1, row') :: again). cbn [map fst snd rmap].
    rewrite Hrow', Hagain. split_and!.
    + done.
    + by rewrite Hitems.
    + by constructor.
    + intros Hday. by rewrite (Heq Hday), (Hsame Hday).
Qed.

(** X24: the retry covers the count of column A as well as the append.
    With deduplication off, when the append goes through and the read of
    column A that follows it is refused with a rate limit, the engine
    sleeps 60 seconds and formats and appends the same items a second
    time: the store has received every item twice, and the call reports
    them as synced once. The rows of the second append are those of the
    first in every cell but Q and R (the two dates, which an item without
    dates of its own gets from the clock as it reads behind the sleep);
    when the date has not changed over the sleep they are the very same
    rows. *)
Theorem batch_append_repeats_append_after_refused_count
    (depth : nat) (self : Sync.FeedbackSheetsSync) (items : list dict)
    (batch_size : nat) (w : Sync.world Sheet)
    (formatted : list (dict * list json)) (e : exn) (sh1 sh2 : Sheet) :
  let rs := map snd formatted in
  Sync.deduplicate self = false →
  items ≠ [] →
  rmap Sync.format_row items = Ok formatted →
  Sync.append_rows rs (Sync.sheet w) = (Ok tt, sh1) →
  Sync.col_values 1 sh1 = (Raise e, sh2) →
  Sync.is_rate_limit e = true →
  ∃ again,
    rmap (Sync.format_row (RT:=Sync.later 60 RT)) (map fst formatted) = Ok again
    ∧ map fst again = map fst formatted
    ∧ Forall2 (λ row row', ∀ i, i ≠ 16%nat → i ≠ 17%nat →
                           nth_error row' i = nth_error row i)
        rs (map snd again)
    ∧ (Sync.today_after 60 RT = today → map snd again = rs)
    ∧ ∀ (column_a : list string) (sh3 sh4 : Sheet),
        Sync.append_rows (map snd again) sh2 = (Ok tt, sh3) →
        Sync.col_values 1 sh3 = (Ok column_a, sh4) →
        ∃ r,
          Sync.batch_append (S (S depth)) self items batch_size w
          = (Ok r,
             Sync.World sh4
               (Sync.calls w
                ++ [ Sync.AppendRows rs; Sync.ColValues 1;
                     Sync.AppendRows (map snd again); Sync.ColValues 1 ])%list
               (Sync.slept w + 60))
          ∧ Sync.synced r = length items
          ∧ Sync.skipped r = 0%nat.
Proof.
  intros rs Hdedupe Hitems Hf Ha1 Hc1 Hlimit.
  destruct (rmap_format_row_later 60 items formatted Hf)
    as (again & Hagain & Hsame_items & Hcells & Hsame).
  exists again. split_and!; [done|done|done|by intros ->%Hsame|].
  intros column_a sh3 sh4 Ha2 Hc2.
  assert (length formatted = length items) as Hlen by (by apply rmap_length in Hf).
  assert (length again = length items) as Hlen_again.
  { rewrite <- Hlen, <- (length_map fst again), Hsame_items. apply length_map. }
  assert (formatted ≠ []) as Hformatted
    by (destruct items; [done|by destruct formatted]).
  assert (again ≠ []) as Hnonempty
    by (destruct items; [done|by destruct again]).
  assert (map fst formatted ≠ []) as Hagain_items by (by destruct formatted).
  assert (∀ pairs (w0 : Sync.world Sheet),
            Sync.select_rows self pairs w0 = (Ok (pairs, 0%nat), w0))
    as Hselect by (intros pairs w0; unfold Sync.select_rows; by rewrite Hdedupe).
  rewrite (batch_append_attempt (S depth) self items batch_size w w formatted
             formatted 0) by done.
  unfold Sync.io_try at 1, Sync.append_and_count at 1, Sync.io_bind at 1,
    Sync.call_append_rows at 1.
  fold rs. rewrite Ha1. unfold Sync.io_bind at 1, Sync.call_col_values at 1.
  cbn [Sync.sheet]. rewrite Hc1. rewrite Hlimit.
  unfold Sync.io_bind at 1, Sync.sleep at 1. cbn [Sync.sheet Sync.calls Sync.slept].
  erewrite (batch_append_attempt (RT:=Sync.later 60 RT) depth self
              (map fst formatted) batch_size _ _ again again 0);
    [|done|exact Hagain|apply Hselect|done].
  unfold Sync.io_try, Sync.append_and_count, Sync.io_bind, Sync.call_append_rows,
    Sync.call_col_values, Sync.io_ret.
  cbn [Sync.sheet Sync.calls Sync.slept]. rewrite Ha2.
  cbn [Sync.sheet Sync.calls Sync.slept]. rewrite Hc2.
  eexists. split.
  - do 2 f_equal. rewrite <- !app_assoc. done.
  - cbn [Sync.synced Sync.skipped]. split; [|done].
    by rewrite length_map.
Qed.

End BatchErrors.

(** ** The summary: action items and quotes *)

Lemma insert_Permutation {A} (key : A → Z) (reverse : bool) (x : A) (l : list A) :
  Slack.insert key reverse x l ≡ₚ x :: l.
Proof.
  induction l as [|y l IH]; simpl; [done|].
  destruct (if reverse then _ else _); [|done].
  rewrite IH. apply Permutation_swap.
Qed.

Lemma sorted_Permutation {A} (key : A → Z) (reverse : bool) (xs : list A) :
  Slack.sorted key reverse xs ≡ₚ xs.
Proof.
  induction xs as [|x xs IH]; simpl; [done|].
  by rewrite insert_Permutation, IH.
Qed.

Lemma insert_descending {A} (key : A → Z) (x : A) (l : list A) :
  StronglySorted (λ a b, (key b ≤ key a)%Z) l →
  StronglySorted (λ a b, (key b ≤ key a)%Z) (Slack.insert key true x l).
Proof.
  induction 1 as [|y l Hl IH Hy]; simpl.
  - repeat constructor.
  - destruct (key x <? key y)%Z eqn:Hlt.
    + apply Z.ltb_lt in Hlt. constructor; [done|].
      rewrite insert_Permutation. constructor; [lia|done].
    + apply Z.ltb_ge in Hlt. constructor; [by constructor|].
      constructor; [done|].
      eapply Forall_impl; [exact Hy|]. simpl. intros z Hz. lia.
Qed.

Lemma sorted_descending {A} (key : A → Z) (xs : list A) :
  StronglySorted (λ a b, (key b ≤ key a)%Z) (Slack.sorted key true xs).
Proof.
  induction xs as [|x xs IH]; simpl; [constructor|].
  by apply insert_descending.
Qed.

Lemma sorted_two_keys (key : dict → Z) (p0 p1 : dict → bool) (xs : list dict) :
  (∀ x, key x = if p0 x then 0 else 1)%Z →
  (∀ x, In x xs → p0 x = true ∨ p1 x = true) →
  (∀ x, p0 x = true → p1 x = false) →
  Slack.sorted key false xs = (List.filter p0 xs ++ List.filter p1 xs)%list.
Proof.
  intros Hkey Hall Hdisjoint. induction xs as [|x xs IH]; [done|].
  cbn [Slack.sorted foldr]. fold (Slack.sorted key false xs).
  rewrite IH by (intros y Hy; apply Hall; by right).
  cbn [List.filter].
  assert (∀ l2, Forall (λ y, p0 y = false) l2 →
            ∀ l1, Forall (λ y, p0 y = true) l1 →
            Slack.insert key false x (l1 ++ l2)
            = if p0 x then x :: l1 ++ l2 else (l1 ++ x :: l2)%list) as Hinsert.
  { intros l2 H2 l1 H1. induction H1 as [|y l1 Hy _ IH1]; simpl.
    - destruct H2 as [|y l2 Hy _]; simpl; [by destruct (p0 x)|].
      rewrite !Hkey, Hy. by destruct (p0 x).
    - rewrite !Hkey, Hy. destruct (p0 x) eqn:Hx; simpl; [done|].
      by rewrite IH1. }
  rewrite Hinsert.
  - destruct (p0 x) eqn:Hx.
    + by rewrite (Hdisjoint x Hx).
    + destruct (Hall x (or_introl eq_refl)) as [H0|H1]; [congruence|].
      by rewrite H1.
  - apply Forall_forall. intros y Hy%list_elem_of_In%filter_In.
    destruct Hy as [Hy Hp]. destruct (p0 y) eqn:H0; [|done].
    rewrite (Hdisjoint y H0) in Hp. done.
  - apply Forall_forall. intros y Hy%list_elem_of_In%filter_In. by destruct Hy.
Qed.

(** X25: the action items of the summary are the items whose priority is
    [P0], in the order of the input, followed by the items whose priority
    is [P1], in the order of the input, and nothing else. *)
Theorem identify_actions_p0_first (items : list dict) :
  Slack.identify_actions items
  = (List.filter (Slack.priority_is "P0") items
     ++ List.filter (Slack.priority_is "P1") items)%list.
Proof.
  unfold Slack.identify_actions.
  rewrite (sorted_two_keys _ (Slack.priority_is "P0") (Slack.priority_is "P1")).
  - f_equal.
    + induction items as [|x items IH]; [done|]. cbn [List.filter].
      destruct (Slack.priority_is "P0" x) eqn:H0; cbn [orb List.filter].
      * rewrite H0. by f_equal.
      * destruct (Slack.priority_is "P1" x); [cbn [List.filter]; rewrite H0|]; done.
    + induction items as [|x items IH]; [done|]. cbn [List.filter].
      destruct (Slack.priority_is "P1" x) eqn:H1.
      * rewrite orb_true_r. cbn [List.filter]. rewrite H1. by f_equal.
      * rewrite orb_false_r.
        destruct (Slack.priority_is "P0" x); [cbn [List.filter]; rewrite H1|]; done.
  - done.
  - intros x [_ Hx]%filter_In. by apply orb_true_iff.
  - intros x. unfold Slack.priority_is.
    destruct (dict_get "priority" x) as [[| | |s| |]|]; try done.
    intros ->%String.eqb_eq. done.
Qed.

Lemma rfilter_ok {A} (p : A → result bool) (q : A → bool) (xs kept : list A) :
  (∀ x b, p x = Ok b → b = q x) →
  Slack.rfilter p xs = Ok kept → kept = List.filter q xs.
Proof.
  intros Hpq. revert kept. induction xs as [|x xs IH]; intros kept; simpl.
  - by intros [= <-].
  - destruct (p x) as [b|] eqn:Hx; [|done]. cbn [mbind result_bind rbind].
    destruct (Slack.rfilter p xs) as [rest|]; [|done].
    cbn [mbind result_bind rbind]. intros [= <-].
    rewrite <- (Hpq x b Hx), (IH rest eq_refl). done.
Qed.

Lemma has_quote_quoted (item : dict) (b : bool) :
  Slack.has_quote item = Ok b → b = quoted item.
Proof.
  unfold Slack.has_quote, quoted.
  destruct (dict_get "quote" item) as [q|]; [|by intros [= <-]].
  destruct q as [|b'|[z|f]|s|l|d]; simpl.
  - by intros [= <-].
  - by destruct b'; intros [= <-].
  - by destruct (negb _); intros [= <-].
  - by destruct (negb _); intros [= <-].
  - destruct (negb (String.eqb s "")) eqn:Hs; intros [= <-]; [done|].
    apply negb_false_iff, String.eqb_eq in Hs as ->. done.
  - by destruct l; intros [= <-].
  - by destruct d; intros [= <-].
Qed.

Lemma insert_decorated {A} (key : A → Z) (reverse : bool) (x : A) (l : list A) :
  Slack.insert snd reverse (x, key x) (map (λ y, (y, key y)) l)
  = map (λ y, (y, key y)) (Slack.insert key reverse x l).
Proof.
  induction l as [|y l IH]; simpl; [done|].
  destruct (if reverse then _ else _); simpl; [by rewrite IH|done].
Qed.

Lemma sorted_decorated {A} (key : A → Z) (reverse : bool) (xs : list A) :
  map fst (Slack.sorted snd reverse (zip xs (map key xs)))
  = Slack.sorted key reverse xs.
Proof.
  assert (Slack.sorted snd reverse (zip xs (map key xs))
          = map (λ y, (y, key y)) (Slack.sorted key reverse xs)) as ->.
  { induction xs as [|x xs IH]; [done|].
    cbn [map zip zip_with Slack.sorted foldr].
    fold (Slack.sorted snd reverse (zip xs (map key xs))).
    fold (Slack.sorted key reverse xs). by rewrite IH, insert_decorated. }
  rewrite map_map. simpl. apply map_id.
Qed.

Lemma rmap_scores (xs : list dict) (scores : list Z) :
  rmap Slack.quote_score xs = Ok scores → scores = map score xs.
Proof.
  revert scores. induction xs as [|x xs IH]; intros scores; simpl.
  - by intros [= <-].
  - unfold score at 1. destruct (Slack.quote_score x) as [z|]; [|done].
    destruct (rmap Slack.quote_score xs) as [zs|]; [|done].
    intros [= <-]. by rewrite (IH zs eq_refl).
Qed.

(** X26: the quotes of the summary. When [select_quotes] returns, it
    returns at most [max_quotes] items, arranged by falling score; together
    with the items it leaves out they are exactly the items of the input
    whose quote is a string that is not blank; no item left out has a
    higher score than one selected; and an item is left out only when
    [max_quotes] items are selected. *)
Theorem select_quotes_takes_top_scores (items selected : list dict)
    (max_quotes : nat) :
  Slack.select_quotes items max_quotes = Ok selected →
  (length selected ≤ max_quotes)%nat
  ∧ StronglySorted (λ a b, (score b ≤ score a)%Z) selected
  ∧ ∃ left_out,
      (selected ++ left_out)%list ≡ₚ List.filter quoted items
      ∧ (∀ a b, a ∈ selected → b ∈ left_out → (score b ≤ score a)%Z)
      ∧ (left_out ≠ [] → length selected = max_quotes).
Proof.
  unfold Slack.select_quotes.
  destruct (Slack.rfilter Slack.has_quote items) as [with_quotes|] eqn:Hfilter;
    [|done].
  cbn [mbind result_bind rbind].
  destruct (rmap Slack.quote_score with_quotes) as [scores|] eqn:Hscores; [|done].
  cbn [mbind result_bind rbind]. intros [= <-].
  apply (rfilter_ok _ quoted) in Hfilter; [|apply has_quote_quoted].
  apply rmap_scores in Hscores as ->. rewrite sorted_decorated.
  pose proof (sorted_descending score with_quotes) as Hsorted.
  rewrite <- (take_drop max_quotes (Slack.sorted score true with_quotes)) in Hsorted.
  apply StronglySorted_app in Hsorted as (Hcross & Htake & _).
  split_and!.
  - rewrite length_take. lia.
  - exact Htake.
  - exists (drop max_quotes (Slack.sorted score true with_quotes)).
    split_and!.
    + rewrite take_drop, sorted_Permutation. by subst.
    + intros a b Ha Hb. by apply Hcross.
    + intros Hrest. rewrite length_take. apply Nat.min_l.
      destruct (decide (max_quotes ≤ length (Slack.sorted score true with_quotes))%nat)
        as [|Hshort]; [done|].
      destruct Hrest. apply drop_ge. lia.
Qed.

Lemma select_quotes_takes_top_scores_witness :
  Slack.select_quotes SlackExample.items 3
  = Ok [ SlackExample.quote_item "P0" "We lose data.";
         SlackExample.quote_item "P1" "Export fails.";
         SlackExample.quote_item "P1" "Export hangs." ]
  ∧ (length [ SlackExample.quote_item "P0" "We lose data.";
              SlackExample.quote_item "P1" "Export fails.";
              SlackExample.quote_item "P1" "Export hangs." ] ≤ 3)%nat.
Proof.
  assert (Slack.select_quotes SlackExample.items 3
          = Ok [ SlackExample.quote_item "P0" "We lose data.";
                 SlackExample.quote_item "P1" "Export fails.";
                 SlackExample.quote_item "P1" "Export hangs." ]) as Hrun
    by (vm_compute; reflexivity).
  split; [exact Hrun|].
  by destruct (select_quotes_takes_top_scores _ _ _ Hrun) as [Hlen _].
Defined.

(** ** Enrichment: items the payload cannot be built from *)

Section PayloadErrors.
Context {RT : Runtime}.

Lemma strip_value_not_str (v : json) :
  is_str v = false → is_ok (strip_value v) = false.
Proof. by destruct v. Qed.

Lemma user_prompt_malformed (item : dict) :
  malformed_text item → is_ok (Enrich.user_prompt item) = false.
Proof.
  intros (field & v & Hfield & Hget & Hstr). unfold Enrich.user_prompt.
  destruct (Enrich.attendees_str item) as [att|]; [|done].
  cbn [mbind result_bind rbind].
  assert (∀ k, dict_get_default k (JStr "") item
               = match dict_get k item with Some x => x | None => JStr "" end)
    as Hdefault by done.
  unfold text_fields in Hfield.
  destruct (strip_value (dict_get_default "description" (JStr "") item))
    as [description|] eqn:Hd.
  2: done.
  cbn [mbind result_bind rbind].
  destruct (strip_value (dict_get_default "use_case" (JStr "") item))
    as [use_case|] eqn:Hu.
  2: done.
  cbn [mbind result_bind rbind].
  destruct (strip_value (dict_get_default "raw_context" (JStr "") item))
    as [raw_context|] eqn:Hr.
  2: done.
  exfalso.
  assert (field = "description" ∨ field = "use_case" ∨ field = "raw_context")
    as [->|[->| ->]] by set_solver.
  - rewrite Hdefault, Hget in Hd.
    apply strip_value_not_str in Hstr. by rewrite Hd in Hstr.
  - rewrite Hdefault, Hget in Hu.
    apply strip_value_not_str in Hstr. by rewrite Hu in Hstr.
  - rewrite Hdefault, Hget in Hr.
    apply strip_value_not_str in Hstr. by rewrite Hr in Hstr.
Qed.

(** X27: the payload is built outside the [try] block, so there is no
    fallback for an item it cannot be built from: one item whose
    description, use case or raw context is present and not a string (a
    JSON null, say) makes [enrich_batch] raise, in a dry run as well, and
    no item of the batch is returned. *)
Theorem enrich_batch_raises_on_malformed_text (self : Enrich.FeedbackEnricher)
    (feedback_items : list dict) (dry_run skip_low_confidence : bool) :
  Exists malformed_text feedback_items →
  is_ok (Enrich.enrich_batch self feedback_items dry_run skip_low_confidence)
  = false.
Proof.
  intros (item & Hin & Hbad)%Exists_exists.
  unfold Enrich.enrich_batch. apply rmap_raises. exists item. split; [done|].
  unfold Enrich.enrich_one.
  destruct (Enrich.title_preview item); [|done].
  cbn [mbind result_bind rbind]. unfold Enrich.enrich_feedback_item.
  apply user_prompt_malformed in Hbad.
  by destruct (Enrich.user_prompt item).
Qed.

End PayloadErrors.

(** ** Worked instances of the further properties *)

Lemma json_text_reads_fenced_block_witness :
  Fence.json_text FenceExample.fenced_reply = "[]".
Proof.
  apply (json_text_reads_fenced_block FenceExample.fenced_reply
           FenceExample.lead "json" "[]" "");
    [vm_compute; reflexivity|reflexivity|reflexivity|by right].
Defined.

Lemma json_text_without_fence_witness :
  Fence.json_text (" []" ++ Fence.nl) = "[]".
Proof.
  rewrite (json_text_without_fence (" []" ++ Fence.nl)); reflexivity.
Defined.

Lemma extract_raises_only_on_decode_error_of_the_call_witness :
  Extract.extract_feedback_with_claude (RT:=ExtractExample.rt)
    ExtractExample.garbled_extractor ExtractExample.note_body
    ExtractExample.metadata
  = Raise unbound_response_text
  ∧ ∃ returned,
      Extract.extract_feedback_with_claude (RT:=ExtractExample.rt)
        ExtractExample.extractor ExtractExample.note_body ExtractExample.metadata
      = Ok returned
      ∧ (returned = JDict [] ∨ returned = JStr ""
         ∨ ∃ items, returned = JList items
                    ∧ Forall (carries_stamp (RT:=ExtractExample.rt)
                                ExtractExample.metadata) items).
Proof.
  split.
  - edestruct (extract_raises_only_on_decode_error_of_the_call
                 (RT:=ExtractExample.rt) ExtractExample.garbled_extractor
                 ExtractExample.note_body ExtractExample.metadata)
      as [Hraise _]; [vm_compute; reflexivity|].
    exact (Hraise "Expecting value: line 1 column 1 (char 0)" eq_refl).
  - edestruct (extract_raises_only_on_decode_error_of_the_call
                 (RT:=ExtractExample.rt) ExtractExample.extractor
                 ExtractExample.note_body ExtractExample.metadata)
      as [_ Hreturn]; [vm_compute; reflexivity|].
    apply Hreturn. intros msg. discriminate.
Defined.

Lemma process_note_needs_mapping_witness :
  Note.parse_frontmatter (YAML:=NoteExample.yaml) NoteExample.empty_block_note
  = Ok {| Note.frontmatter := JNull; Note.body := "Export is slow." |}
  ∧ ∃ e, (∀ self, Note.process_note (RT:=NoteExample.rt) (YAML:=NoteExample.yaml)
                    self None NoteExample.empty_block_note = Raise e)
         ∧ (exn_kind e = TypeError ∨ exn_kind e = AttributeError).
Proof.
  assert (Note.parse_frontmatter (YAML:=NoteExample.yaml)
            NoteExample.empty_block_note
          = Ok {| Note.frontmatter := JNull; Note.body := "Export is slow." |})
    as Hparse by (vm_compute; reflexivity).
  split; [exact Hparse|].
  apply (process_note_needs_mapping (RT:=NoteExample.rt) None
           NoteExample.empty_block_note _ Hparse).
  intros d. discriminate.
Defined.

Lemma meeting_date_without_frontmatter_date_witness :
  Extract.meeting_date
    (Extract.extract_meeting_metadata (RT:=NoteExample.rt)
       [("title", JStr "Weekly sync")] (Some "notes_2024-02-28_sync.md"))
  = "2024-02-28".
Proof.
  destruct (meeting_date_without_frontmatter_date (RT:=NoteExample.rt)
              [("title", JStr "Weekly sync")] (Some "notes_2024-02-28_sync.md")
              eq_refl eq_refl) as [Htoday|(f & _ & _ & _)];
    [vm_compute in Htoday; discriminate|vm_compute; reflexivity].
Defined.

Lemma meeting_title_defaults_to_file_name_witness :
  Extract.meeting_title
    (Extract.extract_meeting_metadata (RT:=NoteExample.rt) []
       (Some "2024-02-28_sync.md"))
  = JStr "2024-02-28_sync.md".
Proof.
  by apply (meeting_title_defaults_to_file_name (RT:=NoteExample.rt)).
Defined.

Lemma enrichment_has_required_fields_witness :
  Forall (λ field,
            dict_has field (Enrich.fallback "Error: Missing required field: department")
            = true)
    Enrich.required_fields.
Proof.
  apply (enrichment_has_required_fields (RT:=EnrichExample.rt)
           (EnrichExample.enricher (Example.answers EnrichExample.partial_text))
           EnrichExample.item false).
  vm_compute. reflexivity.
Defined.

Lemma valid_enrichment_returned_unchanged_witness :
  Enrich.enrich_feedback_item (RT:=ValidExample.rt)
    (EnrichExample.enricher (Example.answers ValidExample.reply_text))
    EnrichExample.item false
  = Ok ValidExample.parsed.
Proof.
  apply (valid_enrichment_returned_unchanged (RT:=ValidExample.rt)
           (EnrichExample.enricher (Example.answers ValidExample.reply_text))
           EnrichExample.item EnrichExample.prompt ValidExample.reply_text
           ValidExample.parsed "Pharma" "HEOR").
  - vm_compute. reflexivity.
  - reflexivity.
  - vm_compute. reflexivity.
  - by repeat constructor.
  - reflexivity.
  - vm_compute. set_solver.
  - reflexivity.
  - vm_compute. set_solver.
Defined.

Lemma enrich_batch_keeps_other_fields_witness :
  Forall2 (λ item item',
             ∀ k, k ∉ enriched_keys → dict_get k item' = dict_get k item)
    [EnrichExample.item]
    [EnrichExample.enriched_item "Other" "HEOR"].
Proof.
  apply (enrich_batch_keeps_other_fields (RT:=EnrichExample.rt)
           (EnrichExample.enricher (Example.answers EnrichExample.reply_text))
           [EnrichExample.item] [EnrichExample.enriched_item "Other" "HEOR"]
           false false).
  vm_compute. reflexivity.
Defined.

Lemma dry_run_classifies_other_witness :
  Enrich.enrich_one (RT:=EnrichExample.rt)
    (EnrichExample.enricher (Example.unreachable "offline")) true true
    (DedupeExample.titled "Slow export")
  = Ok [ ("title", JStr "Slow export"); ("product", JStr "Core");
         ("segment", JStr "Other");
         ("department", JStr "Other");
         ("segment_confidence", Enrich.half);
         ("department_confidence", Enrich.half);
         ("tags", JList [JStr "dry-run"]) ]
  ∧ dict_get "segment"
      [ ("title", JStr "Slow export"); ("product", JStr "Core");
        ("segment", JStr "Other");
        ("department", JStr "Other");
        ("segment_confidence", Enrich.half);
        ("department_confidence", Enrich.half);
        ("tags", JList [JStr "dry-run"]) ]
    = Some (JStr "Other").
Proof.
  assert (Enrich.enrich_one (RT:=EnrichExample.rt)
            (EnrichExample.enricher (Example.unreachable "offline")) true true
            (DedupeExample.titled "Slow export")
          = Ok [ ("title", JStr "Slow export"); ("product", JStr "Core");
                 ("segment", JStr "Other");
                 ("department", JStr "Other");
                 ("segment_confidence", Enrich.half);
                 ("department_confidence", Enrich.half);
                 ("tags", JList [JStr "dry-run"]) ]) as Hrun
    by (vm_compute; reflexivity).
  split; [exact Hrun|].
  eapply (dry_run_classifies_other (RT:=EnrichExample.rt)
            (EnrichExample.enricher (Example.unreachable "offline")) true
            (DedupeExample.titled "Slow export")).
  exact Hrun.
Defined.

Lemma failed_call_marked_uncertain_witness :
  Enrich.enrich_one (RT:=EnrichExample.rt)
    (EnrichExample.enricher (Example.unreachable "offline")) false true
    (DedupeExample.titled "Slow export")
  = Ok [ ("title", JStr "Slow export"); ("product", JStr "Core");
         ("segment", JStr "Uncertain");
         ("department", JStr "Uncertain");
         ("segment_confidence", Enrich.zero);
         ("department_confidence", Enrich.zero);
         ("tags", JList []) ]
  ∧ dict_get "segment"
      [ ("title", JStr "Slow export"); ("product", JStr "Core");
        ("segment", JStr "Uncertain");
        ("department", JStr "Uncertain");
        ("segment_confidence", Enrich.zero);
        ("department_confidence", Enrich.zero);
        ("tags", JList []) ]
    = Some (JStr "Uncertain").
Proof.
  assert (Enrich.enrich_one (RT:=EnrichExample.rt)
            (EnrichExample.enricher (Example.unreachable "offline")) false true
            (DedupeExample.titled "Slow export")
          = Ok [ ("title", JStr "Slow export"); ("product", JStr "Core");
                 ("segment", JStr "Uncertain");
                 ("department", JStr "Uncertain");
                 ("segment_confidence", Enrich.zero);
                 ("department_confidence", Enrich.zero);
                 ("tags", JList []) ]) as Hrun by (vm_compute; reflexivity).
  split; [exact Hrun|].
  eapply (failed_call_marked_uncertain (RT:=EnrichExample.rt)
            (EnrichExample.enricher (Example.unreachable "offline"))
            (DedupeExample.titled "Slow export") _ _ "offline");
    [vm_compute; reflexivity|reflexivity|exact Hrun].
Defined.

Lemma format_row_first_attendee_witness :
  ∃ name joined,
    nth_error (BatchExample.attended_row) 11 = Some (JStr name)
    ∧ nth_error (BatchExample.attended_row) 15 = Some (JStr name)
    ∧ nth_error (BatchExample.attended_row) 18 = Some (JStr joined)
    ∧ joined = "Smith, John, Bob"
    ∧ PyStr.contains "," name = false
    ∧ (joined = name ∨ ∃ rest, joined = name ++ "," ++ rest).
Proof.
  apply (format_row_first_attendee (RT:=SyncExample.rt)
           BatchExample.attended_item BatchExample.attended_item).
  vm_compute. reflexivity.
Defined.

Lemma batch_append_needs_titles_witness :
  ∃ e w',
    Sync.batch_append (RT:=SyncExample.rt) (CL:=SyncExample.frozen) 1 SyncExample.syncer
      [SyncExample.item; BatchExample.untitled_item] 100
      (SyncExample.start SyncExample.accepted_attempt) = (Raise e, w')
    ∧ (Sync.calls w' = []
       ∨ Sync.calls w' = [Sync.ColValues 2])
    ∧ Sync.slept w' = 0%nat.
Proof.
  apply (batch_append_needs_titles (RT:=SyncExample.rt)
           (CL:=SyncExample.frozen) 0 SyncExample.syncer
           [SyncExample.item; BatchExample.untitled_item] 100
           (SyncExample.start SyncExample.accepted_attempt)).
  - reflexivity.
  - apply Exists_cons_tl, Exists_cons_hd. intros [t Ht]. discriminate.
Defined.

Lemma batch_append_repeats_append_after_refused_count_witness :
  ∃ r,
    Sync.batch_append (RT:=SyncExample.rt) (CL:=SyncExample.past_midnight) 2
      BatchExample.plain_syncer [SyncExample.item] 100
      (SyncExample.start BatchExample.refused_count)
    = (Ok r,
       Sync.World []
         [ Sync.AppendRows [SyncExample.row]; Sync.ColValues 1;
           Sync.AppendRows [BatchExample.row_next_day]; Sync.ColValues 1 ] 60)
    ∧ Sync.synced r = 1%nat
    ∧ Sync.skipped r = 0%nat.
Proof.
  destruct (batch_append_repeats_append_after_refused_count
              (RT:=SyncExample.rt) (CL:=SyncExample.past_midnight)
              0 BatchExample.plain_syncer [SyncExample.item] 100
              (SyncExample.start BatchExample.refused_count)
              [(SyncExample.item, SyncExample.row)] SyncExample.rate_limit
              [Sync.Fails SyncExample.rate_limit; Sync.Done;
               Sync.Column ["ID"; "FB-1"; "FB-1"]]
              [Sync.Done; Sync.Column ["ID"; "FB-1"; "FB-1"]])
    as (again & Hagain & _ & _ & _ & Hrun);
    [reflexivity|done|vm_compute; reflexivity|reflexivity|reflexivity
    |vm_compute; reflexivity|].
  vm_compute in Hagain. injection Hagain as <-.
  exact (Hrun ["ID"; "FB-1"; "FB-1"] [Sync.Column ["ID"; "FB-1"; "FB-1"]] []
           eq_refl eq_refl).
Defined.

Lemma enrich_batch_raises_on_malformed_text_witness :
  is_ok (Enrich.enrich_batch (RT:=EnrichExample.rt)
           (EnrichExample.enricher (Example.unreachable "offline"))
           [EnrichExample.item; MalformedExample.item] true false)
  = false.
Proof.
  apply (enrich_batch_raises_on_malformed_text (RT:=EnrichExample.rt)).
  apply Exists_cons_tl, Exists_cons_hd.
  exists "description", JNull. split_and!; [|reflexivity|reflexivity].
  unfold text_fields. set_solver.
Defined.
